(** * yass configuration layer: [FrozenJSON] and [Config]

    A shallow embedding of [src/yass/config.py] and the properties of its
    attribute facade, schema validation, immutability guard and batch plan.

    Conventions of the embedding.
    - A Python object is its instance dictionary ([__dict__]); methods are
      functions in a state-and-exception monad over that dictionary.
    - A Python [dict] is an association list in insertion order with distinct
      keys; assignment to an existing key keeps its position.  Keys are
      strings.
    - Python [int] is [Z]; Python [float] (and [numpy.float64]) is an IEEE-754
      binary64 number, [spec_float] with the operations of [SpecFloat] at
      precision 53 and maximal exponent 1024.  Division is Python 3's true
      division.
    - Arithmetic is modelled on numbers.  An operand that is a string, a list
      or a foreign object has an arithmetic of its own in Python (repetition,
      broadcasting); the model answers [Unmodelled] there, as it does for an
      object whose [_data] is not a dict.
    - Attribute access [self.name] is normal lookup (data descriptors of the
      type, the instance dictionary, the attributes of the class) and, only
      when that fails, the hook [__getattr__]; what every object has from
      the interpreter is a parameter, the record [object_model].
    - What [config.py] imports is a parameter, the record [host].
    - Logging calls are not modelled: they read attributes that exist and
      change nothing. *)

From Stdlib Require Import ZArith List String Ascii Bool Lia.
From Stdlib Require Import Floats.SpecFloat.
Import ListNotations.

Local Open Scope string_scope.
Local Open Scope list_scope.
Local Open Scope Z_scope.

Local Set Warnings "-register-all".

(** ** Python values *)

(** The values a parsed YAML document is made of, plus [VOpaque] for objects
    of other types (a logger, a numpy array): such an object is neither a
    [Mapping] nor a [MutableSequence]. *)
Inductive value : Type :=
| VNone
| VBool (b : bool)
| VInt (z : Z)
| VFloat (f : spec_float)
| VStr (s : string)
| VList (l : list value)
| VDict (d : list (string * value))
| VOpaque (tag : string).

Definition dict := list (string * value).

Fixpoint dict_get (d : dict) (k : string) : option value :=
  match d with
  | [] => None
  | (k', v) :: d' => if String.eqb k' k then Some v else dict_get d' k
  end.

(** [d[k] = v] *)
Fixpoint dict_set (d : dict) (k : string) (v : value) : dict :=
  match d with
  | [] => [(k, v)]
  | (k', v') :: d' =>
      if String.eqb k' k then (k', v) :: d' else (k', v') :: dict_set d' k v
  end.

Definition dict_keys (d : dict) : list string := map fst d.

Definition is_None (v : value) : bool :=
  match v with VNone => true | _ => false end.

(** ** Exceptions *)

(** A [ValueError] built with [str.format] keeps its template and the
    arguments of [format], unrendered. *)
Inductive exn : Type :=
| ValueError (template : string) (args : list value)
| AttributeError (msg : string)
| KeyError (key : value)
| TypeError
| ZeroDivisionError
| OverflowError
| External (what : string)
| Unmodelled.

Definition result (A : Type) : Type := (exn + A)%type.

(** ** The object monad *)

Definition instance := dict.

Definition M (A : Type) : Type := instance -> result A * instance.

Definition ret {A} (a : A) : M A := fun s => (inr a, s).

Definition raise {A} (e : exn) : M A := fun s => (inl e, s).

Definition bind {A B} (c : M A) (k : A -> M B) : M B :=
  fun s =>
    match c s with
    | (inr a, s') => k a s'
    | (inl e, s') => (inl e, s')
    end.

Definition lift {A} (r : result A) : M A := fun s => (r, s).

Declare Scope py_scope.
Delimit Scope py_scope with py.
Notation "x <- c ;; k" := (bind c (fun x => k))
  (at level 100, c at next level, right associativity) : py_scope.
Notation "c ;; k" := (bind c (fun _ => k))
  (at level 100, right associativity) : py_scope.
Local Open Scope py_scope.

(** ** Numbers *)

(** binary64 *)
Definition prec : Z := 53.
Definition emax : Z := 1024.

Definition f64_mul : spec_float -> spec_float -> spec_float := SFmul prec emax.
Definition f64_div : spec_float -> spec_float -> spec_float := SFdiv prec emax.

(** The double nearest to an integer (ties to even); exact below [2^53]. *)
Definition f64_of_Z (z : Z) : spec_float := binary_normalize prec emax z 0 false.

(** An integer as an unrounded operand of a floating-point operation. *)
Definition exact_of_Z (z : Z) : spec_float :=
  match z with
  | Z0 => S754_zero false
  | Zpos p => S754_finite false p 0
  | Zneg p => S754_finite true p 0
  end.

(** The integer part of a finite double [(-1)^s * m * 2^e], rounded down,
    up, toward zero, and to nearest with ties to even. *)
Definition signed (s : bool) (m : positive) : Z :=
  if s then Zneg m else Zpos m.

Definition Zfloor_f (s : bool) (m : positive) (e : Z) : Z :=
  match e with
  | Zneg k => signed s m / 2 ^ Zpos k
  | _ => signed s m * 2 ^ e
  end.

Definition Zceil_f (s : bool) (m : positive) (e : Z) : Z :=
  - Zfloor_f (negb s) m e.

Definition Ztrunc_f (s : bool) (m : positive) (e : Z) : Z :=
  if s then Zceil_f s m e else Zfloor_f s m e.

Definition Zrint_f (s : bool) (m : positive) (e : Z) : Z :=
  match e with
  | Zneg k =>
      let q := Zpos m / 2 ^ Zpos k in
      let r := Zpos m mod 2 ^ Zpos k in
      let n := match 2 * r ?= 2 ^ Zpos k with
               | Lt => q
               | Eq => if Z.even q then q else q + 1
               | Gt => q + 1
               end in
      if s then - n else n
  | _ => signed s m * 2 ^ e
  end.

(** An integer-valued rounding of a double, as a double; a zero result keeps
    the sign of the argument. *)
Definition f64_integral (round : bool -> positive -> Z -> Z) (f : spec_float)
    : spec_float :=
  match f with
  | S754_finite s m e => binary_normalize prec emax (round s m e) 0 s
  | _ => f
  end.

(** A Python number: [int] (and [bool], an [int]) or [float]. *)
Inductive num : Type :=
| NInt (z : Z)
| NFloat (f : spec_float).

(** [float(x)]; an [int] too large for a double raises [OverflowError]. *)
Definition py_float (a : num) : result spec_float :=
  match a with
  | NFloat f => inr f
  | NInt z =>
      match f64_of_Z z with
      | S754_infinity _ => inl OverflowError
      | f => inr f
      end
  end.

(** [a * b] *)
Definition py_mul (a b : num) : result num :=
  match a, b with
  | NInt x, NInt y => inr (NInt (x * y))
  | _, _ =>
      match py_float a, py_float b with
      | inr x, inr y => inr (NFloat (f64_mul x y))
      | inl e, _ => inl e
      | _, inl e => inl e
      end
  end.

(** [a / b], true division.  The quotient of two [int]s is the correctly
    rounded quotient of the integers themselves. *)
Definition py_truediv (a b : num) : result num :=
  match a, b with
  | NInt x, NInt y =>
      if y =? 0 then inl ZeroDivisionError
      else
        match f64_div (exact_of_Z x) (exact_of_Z y) with
        | S754_infinity _ => inl OverflowError
        | f => inr (NFloat f)
        end
  | _, _ =>
      match py_float a, py_float b with
      | inr x, inr (S754_zero _) => inl ZeroDivisionError
      | inr x, inr y => inr (NFloat (f64_div x y))
      | inl e, _ => inl e
      | _, inl e => inl e
      end
  end.

(** [a % b] on [int]s; the sign follows the divisor, as [Z.modulo]. *)
Definition py_mod (a b : num) : result num :=
  match a, b with
  | NInt x, NInt y =>
      if y =? 0 then inl ZeroDivisionError else inr (NInt (x mod y))
  | _, _ => inl Unmodelled
  end.

(** [a > b] on [int]s. *)
Definition py_gt (a b : num) : result bool :=
  match a, b with
  | NInt x, NInt y => inr (x >? y)
  | _, _ => inl Unmodelled
  end.

Definition nan_to_int_msg : string := "cannot convert float NaN to integer".

(** [int(x)]: truncation toward zero. *)
Definition py_int (a : num) : result Z :=
  match a with
  | NInt z => inr z
  | NFloat (S754_zero _) => inr 0
  | NFloat (S754_finite s m e) => inr (Ztrunc_f s m e)
  | NFloat (S754_infinity _) => inl OverflowError
  | NFloat S754_nan => inl (ValueError nan_to_int_msg [])
  end.

(** A numpy rounding function applied to a Python number: an [int] is first
    converted to a double (numpy does so for the [int]s that fit 64 bits). *)
Definition np_integral (round : bool -> positive -> Z -> Z) (a : num)
    : result num :=
  match a with
  | NFloat f => inr (NFloat (f64_integral round f))
  | NInt z =>
      if (- 2 ^ 63 <=? z) && (z <? 2 ^ 63)
      then inr (NFloat (f64_integral round (f64_of_Z z)))
      else inl Unmodelled
  end.

Definition np_floor : num -> result num := np_integral Zfloor_f.
Definition np_ceil : num -> result num := np_integral Zceil_f.
Definition np_round : num -> result num := np_integral Zrint_f.

(** ** Facades, attributes and the host *)

(** What [FrozenJSON(arg)] evaluates to: a facade object (its [__dict__]), a
    list of such results, or [arg] itself. *)
Inductive wrapped : Type :=
| WFacade (self : instance)
| WList (l : list wrapped)
| WRaw (v : value).

(** What [FrozenJSON.__getattr__] returns: a bound method of the store, or a
    wrapped stored value. *)
Inductive attribute : Type :=
| BoundDictMethod (name : string) (d : dict)
| Wrapped (w : wrapped).

(** What the code takes from outside this file: the host language
    ([keyword.iskeyword], [hasattr] on a dict, [os.path]), the file system,
    the YAML parser, the bundled schema [assets/config_validator.yaml], and
    the geometry module of the package.  The schema maps a key to its list of
    permitted values; they are strings, which [_pretty_iterator] joins with
    string concatenation. *)
Record host : Type := {
  iskeyword : string -> bool;
  dict_hasattr : string -> bool;
  yaml_load : string -> result value;
  validator : list (string * list string);
  path_join : string -> string -> string;
  path_getsize : string -> result Z;
  geom_parse : string -> attribute -> result value;
  geom_find_channel_neighbors : attribute -> attribute -> result value;
  geom_make_channel_groups :
    attribute -> attribute -> attribute -> result value
}.

(** The operand of an arithmetic operator.  [None] and a facade have no
    arithmetic; strings, lists and foreign objects have one of their own,
    which is outside the model. *)
Definition as_num (a : attribute) : result num :=
  match a with
  | Wrapped (WRaw (VInt z)) => inr (NInt z)
  | Wrapped (WRaw (VBool b)) => inr (NInt (if b then 1 else 0))
  | Wrapped (WRaw (VFloat f)) => inr (NFloat f)
  | Wrapped (WRaw VNone) => inl TypeError
  | Wrapped (WFacade _) => inl TypeError
  | BoundDictMethod _ _ => inl TypeError
  | _ => inl Unmodelled
  end.

(** A binary arithmetic operator applied to two objects: both operands are
    evaluated before the operator looks at either. *)
Definition binary (op : num -> num -> result num) (a b : attribute)
    : result num :=
  match as_num a, as_num b with
  | inr x, inr y => op x y
  | inl Unmodelled, _ | _, inl Unmodelled => inl Unmodelled
  | inl e, _ => inl e
  | _, inl e => inl e
  end.

(** The argument of a function of [os.path]. *)
Definition as_path (a : attribute) : result string :=
  match a with
  | Wrapped (WRaw (VStr s)) => inr s
  | _ => inl TypeError
  end.

(** A wrapped scalar is the stored value itself. *)
Definition as_value (a : attribute) : result value :=
  match a with
  | Wrapped (WRaw v) => inr v
  | _ => inl Unmodelled
  end.

Definition of_num (n : num) : value :=
  match n with
  | NInt z => VInt z
  | NFloat f => VFloat f
  end.

(** [self._data], the store.  An object whose [_data] was removed, or
    replaced by something that is not a dict, is outside the model. *)
Definition self_data : M dict :=
  fun s =>
    match dict_get s "_data" with
    | Some (VDict d) => (inr d, s)
    | _ => (inl Unmodelled, s)
    end.

(** [self._data[key] = value] *)
Definition data_setitem (key : string) (v : value) : M unit :=
  d <- self_data ;;
  (fun s => (inr tt, dict_set s "_data" (VDict (dict_set d key v)))).

(** [self._path_to_file] *)
Definition self_path : M value :=
  fun s =>
    match dict_get s "_path_to_file" with
    | Some p => (inr p, s)
    | None => (inl Unmodelled, s)
    end.

(** [object.__setattr__], the default of plain [FrozenJSON] objects. *)
Definition object_setattr (name : string) (v : value) : M unit :=
  fun s => (inr tt, dict_set s name v).

Definition logger : value := VOpaque "logger".

Definition dquote : string := String "034"%char EmptyString.

(** The template of the error raised by [__getitem__]. *)
Definition missing_template : string :=
  ("No value was set in Config{}for key " ++ dquote ++ "{}" ++ dquote
   ++ ", available keys are: {}")%string.

(** [type(v).__name__] *)
Definition type_name (v : value) : string :=
  match v with
  | VNone => "NoneType"
  | VBool _ => "bool"
  | VInt _ => "int"
  | VFloat _ => "float"
  | VStr _ => "str"
  | VList _ => "list"
  | VDict _ => "dict"
  | VOpaque tag => tag
  end.

(** The message of the error raised by an assignment to [_path_to_file] on an
    object that has no instance dictionary. *)
Definition no_attribute_msg (type : string) : string :=
  ("'" ++ type ++ "' object has no attribute '_path_to_file'")%string.

(** The truth value of an object, as [if] tests it. *)
Definition truthy (v : value) : bool :=
  match v with
  | VNone => false
  | VBool b => b
  | VInt z => negb (z =? 0)
  | VFloat (S754_zero _) => false
  | VFloat _ => true
  | VStr s => negb (String.eqb s "")
  | VList [] => false
  | VList _ => true
  | VDict [] => false
  | VDict _ => true
  | VOpaque _ => true
  end.

(** ** Attribute access *)

(** What the interpreter gives every instance of a class written with
    [class]: the names it resolves before the instance dictionary is
    consulted ([__class__], [__dict__], [__weakref__], data descriptors of
    the type), and the attributes inherited from [object]. *)
Record object_model : Type := {
  data_descriptor : string -> bool;
  object_hasattr : string -> bool
}.

(** The two classes of the file. *)
Inductive klass : Type :=
| KFrozenJSON
| KConfig.

(** The names bound in the body of a class statement; both classes have a
    docstring. *)
Definition class_body (k : klass) : list string :=
  match k with
  | KFrozenJSON =>
      ["__doc__"; "from_yaml"; "__new__"; "__init__"; "__getattr__";
       "__dir__"; "__getitem__"; "__repr__"]
  | KConfig =>
      ["__doc__"; "__init__"; "__setattr__"; "_set_param"; "_validate";
       "_pretty_iterator"]
  end.

Definition name_in (name : string) (names : list string) : bool :=
  existsb (String.eqb name) names.

(** [hasattr(type(self), name)], along the classes [Config], [FrozenJSON]
    and [object]. *)
Definition class_hasattr (o : object_model) (k : klass) (name : string)
    : bool :=
  match k with
  | KFrozenJSON => name_in name (class_body KFrozenJSON)
  | KConfig =>
      name_in name (class_body KConfig)
      || name_in name (class_body KFrozenJSON)
  end
  || object_hasattr o name.

(** Where normal attribute lookup finds a name. *)
Inductive found : Type :=
| DataDescriptor (name : string)
| InstanceAttribute (v : value)
| ClassAttribute (name : string).

(** [object.__getattribute__]: a data descriptor of the type, then the
    instance dictionary, then the other attributes of the type; [None] when
    it raises [AttributeError]. *)
Definition normal_lookup (o : object_model) (k : klass) (name : string)
    (s : instance) : option found :=
  if data_descriptor o name then Some (DataDescriptor name)
  else
    match dict_get s name with
    | Some v => Some (InstanceAttribute v)
    | None =>
        if class_hasattr o k name then Some (ClassAttribute name) else None
    end.

(** What [self.name] evaluates to: what normal lookup finds, or what the
    hook [__getattr__] returns. *)
Inductive accessed : Type :=
| Found (f : found)
| FromHook (a : attribute).

(** ** class FrozenJSON *)

Module FrozenJSON.
Section WithHost.

Variable h : host.

(** The name a key is stored under. *)
Definition stored_name (key : string) : string :=
  if iskeyword h key then (key ++ "_")%string else key.

(** The loop of [__init__]. *)
Fixpoint store_items (items : dict) : M unit :=
  match items with
  | [] => ret tt
  | (key, v) :: rest =>
      data_setitem (stored_name key) v ;;
      store_items rest
  end.

(** [setattr] is the [__setattr__] of the class of [self]. *)
Definition __init__ (setattr : string -> value -> M unit) (mapping : dict)
    : M unit :=
  setattr "_logger" logger ;;
  setattr "_path_to_file" VNone ;;
  setattr "_data" (VDict []) ;;
  store_items mapping.

(** [FrozenJSON(arg)]: [__new__], then [__init__] on the new instance when
    [arg] is a mapping. *)
Fixpoint __new__ (arg : value) : wrapped :=
  match arg with
  | VDict mapping => WFacade (snd (__init__ object_setattr mapping []))
  | VList l => WList (map __new__ l)
  | _ => WRaw arg
  end.

Definition __getattr__ (name : string) : M attribute :=
  d <- self_data ;;
  if dict_hasattr h name then ret (BoundDictMethod name d)
  else
    match dict_get d name with
    | Some v => ret (Wrapped (__new__ v))
    | None => raise (KeyError (VStr name))
    end.

(** [self.name], or [getattr(self, name)]: [__getattr__] is called only when
    normal lookup fails. *)
Definition getattr (o : object_model) (k : klass) (name : string)
    : M accessed :=
  fun s =>
    match normal_lookup o k name s with
    | Some f => (inr (Found f), s)
    | None => (a <- __getattr__ name ;; ret (FromHook a)) s
    end.

Definition __dir__ : M (list string) :=
  d <- self_data ;; ret (dict_keys d).

Definition __getitem__ (key : string) : M value :=
  d <- self_data ;;
  let v := match dict_get d key with Some v => v | None => VNone end in
  if is_None v then
    p <- self_path ;;
    raise (ValueError missing_template
             [p; VStr key; VList (map VStr (dict_keys d))])
  else ret v.

(** Calling a bound method of the store without arguments; only [keys] is
    modelled. *)
Definition call0 (a : attribute) : result (list string) :=
  match a with
  | BoundDictMethod name d =>
      if String.eqb name "keys" then inr (dict_keys d) else inl Unmodelled
  | Wrapped _ => inl TypeError
  end.

(** [self.keys()] *)
Definition keys : M (list string) :=
  a <- __getattr__ "keys" ;; lift (call0 a).

Definition loaded_from_template : string :=
  "YASS config file loaded from: {}".

Definition loaded_with_template : string :=
  "YASS config file loaded with: {}".

(** [__repr__]: the template and the argument of [format]. *)
Definition __repr__ : M (string * value) :=
  p <- self_path ;;
  if truthy p then ret (loaded_from_template, p)
  else
    d <- self_data ;;
    ret (loaded_with_template, VDict d).

(** The class method [from_yaml]; [cls] is the call of the class it is
    invoked on and [setattr] the [__setattr__] of that class. *)
Definition from_yaml (cls : value -> result wrapped)
    (setattr : string -> value -> M unit) (path_to_file : string)
    : result wrapped :=
  match yaml_load h path_to_file with
  | inl e => inl e
  | inr mapping =>
      match cls mapping with
      | inl e => inl e
      | inr (WFacade obj) =>
          match setattr "_path_to_file" (VStr path_to_file) obj with
          | (inr _, obj') => inr (WFacade obj')
          | (inl e, _) => inl e
          end
      | inr (WList _) => inl (AttributeError (no_attribute_msg "list"))
      | inr (WRaw v) => inl (AttributeError (no_attribute_msg (type_name v)))
      end
  end.

End WithHost.
End FrozenJSON.

(** ** sizeof *)

Definition SIZE_ : list (string * Z) :=
  [("int16", 2); ("uint16", 2); ("single", 4); ("double", 8)].

Fixpoint SIZE_get (t : list (string * Z)) (k : string) : option Z :=
  match t with
  | [] => None
  | (k', v) :: t' => if String.eqb k' k then Some v else SIZE_get t' k
  end.

(** [SIZE_[dtype]]: a key that is not in the table raises [KeyError], an
    unhashable one (a list) [TypeError]. *)
Definition sizeof (dtype : attribute) : result num :=
  match dtype with
  | Wrapped (WRaw (VStr s)) =>
      match SIZE_get SIZE_ s with
      | Some n => inr (NInt n)
      | None => inl (KeyError (VStr s))
      end
  | Wrapped (WRaw v) => inl (KeyError v)
  | Wrapped (WList _) => inl TypeError
  | _ => inl (KeyError (VOpaque "object"))
  end.

(** ** class Config *)

Module Config.
Section WithHost.

Variable h : host.

Definition immutable_msg : string :=
  "Cannot set values once the object has been initialized".

Definition invalid_template : string :=
  "{} is not a valid value for {}. Valid values are: {}".

Definition __setattr__ (name : string) (v : value) : M unit :=
  if negb (String.prefix "_" name) then raise (AttributeError immutable_msg)
  else fun s => (inr tt, dict_set s name v).

Definition _set_param (name : string) (v : value) : M unit :=
  data_setitem name v.

(** [reduce(lambda x, y: x+', '+y, it)]; [reduce] of an empty sequence
    raises [TypeError]. *)
Definition _pretty_iterator (it : list string) : result string :=
  match it with
  | [] => inl TypeError
  | x :: rest => inr (fold_left (fun x y => (x ++ ", " ++ y)%string) rest x)
  end.

(** [validator.get(key)] *)
Fixpoint validator_get (t : list (string * list string)) (k : string)
    : option (list string) :=
  match t with
  | [] => None
  | (k', vs) :: t' => if String.eqb k' k then Some vs else validator_get t' k
  end.

(** [value in valid_values] *)
Definition value_in (v : value) (valid_values : list string) : bool :=
  match v with
  | VStr s => existsb (String.eqb s) valid_values
  | _ => false
  end.

(** The loop of [_validate]; an empty list of permitted values is falsy
    and constrains nothing. *)
Fixpoint validate_items (items : dict) : result unit :=
  match items with
  | [] => inr tt
  | (key, v) :: rest =>
      match validator_get (validator h) key with
      | Some ((_ :: _) as valid_values) =>
          if negb (value_in v valid_values) then
            match _pretty_iterator valid_values with
            | inr valid_values_pretty =>
                inl (ValueError invalid_template
                       [v; VStr key; VStr valid_values_pretty])
            | inl e => inl e
            end
          else validate_items rest
      | _ => validate_items rest
      end
  end.

Definition _validate (mapping : dict) : M unit :=
  lift (validate_items mapping).

(** [self.name] for a name that is neither an instance attribute nor a
    class attribute: the lookup falls back to [__getattr__]. *)
Definition attr (name : string) : M attribute := FrozenJSON.__getattr__ h name.

(** [self.name] as the operand of an arithmetic operator *)
Definition num_attr (name : string) : M num :=
  a <- attr name ;; lift (as_num a).

Definition set_num (name : string) (n : num) : M unit :=
  _set_param name (of_num n).

(** GEOMETRY PARAMETERS *)
Definition geometry_parameters : M unit :=
  root <- attr "root" ;;
  geomFile <- attr "geomFile" ;;
  root <- lift (as_path root) ;;
  geomFile <- lift (as_path geomFile) ;;
  let path_to_geom := path_join h root geomFile in
  nChan <- attr "nChan" ;;
  geom <- lift (geom_parse h path_to_geom nChan) ;;
  _set_param "geom" geom ;;
  geom <- attr "geom" ;;
  spatialRadius <- attr "spatialRadius" ;;
  neighChannels <- lift (geom_find_channel_neighbors h geom spatialRadius) ;;
  _set_param "neighChannels" neighChannels ;;
  nChan <- attr "nChan" ;;
  neighChannels <- attr "neighChannels" ;;
  geom <- attr "geom" ;;
  channelGroups <-
    lift (geom_make_channel_groups h nChan neighChannels geom) ;;
  _set_param "channelGroups" channelGroups.

(** BUFFER/SPIKE SIZE PARAMETERS *)
Definition spike_size_parameters : M unit :=
  spikeSizeMS <- attr "spikeSizeMS" ;;
  srate <- attr "srate" ;;
  x <- lift (binary py_mul spikeSizeMS srate) ;;
  x <- lift (py_truediv x (NInt (2 * 1000))) ;;
  x <- lift (np_round x) ;;
  x <- lift (py_int x) ;;
  set_num "spikeSize" (NInt x) ;;
  set_num "scaleToSave" (NInt 100) ;;
  spikeSize <- num_attr "spikeSize" ;;
  x <- lift (py_mul spikeSize (NInt 4)) ;;
  set_num "BUFF" x ;;
  srate <- num_attr "srate" ;;
  x <- lift (py_truediv srate (NInt 1000)) ;;
  x <- lift (py_int x) ;;
  set_num "templatesMaxShift" (NInt x) ;;
  set_num "stdFactor" (NInt 4) ;;
  root <- attr "root" ;;
  filename <- attr "filename" ;;
  root <- lift (as_path root) ;;
  filename <- lift (as_path filename) ;;
  file_size <- lift (path_getsize h (path_join h root filename)) ;;
  dtype <- attr "dtype" ;;
  dsize <- lift (sizeof dtype) ;;
  nChan <- num_attr "nChan" ;;
  x <- lift (py_mul dsize nChan) ;;
  x <- lift (py_truediv (NInt file_size) x) ;;
  x <- lift (py_int x) ;;
  set_num "size" (NInt x).

(** BATCH PARAMETERS *)
Definition batch_parameters : M unit :=
  dtype <- attr "dtype" ;;
  dsize <- lift (sizeof dtype) ;;
  set_num "dsize" dsize ;;
  maxMem <- attr "maxMem" ;;
  nChan <- attr "nChan" ;;
  dsize <- attr "dsize" ;;
  x <- lift (binary py_mul nChan dsize) ;;
  maxMem <- lift (as_num maxMem) ;;
  x <- lift (py_truediv maxMem x) ;;
  x <- lift (np_floor x) ;;
  batch_size <- lift (py_int x) ;;
  size <- num_attr "size" ;;
  c <- lift (py_gt (NInt batch_size) size) ;;
  if (c : bool) then
    set_num "nBatches" (NInt 1) ;;
    size <- attr "size" ;;
    size <- lift (as_value size) ;;
    _set_param "batch_size" size ;;
    set_num "residual" (NInt 0) ;;
    set_num "nPortion" (NInt 1)
  else
    size <- num_attr "size" ;;
    x <- lift (py_float size) ;;
    x <- lift (py_truediv (NFloat x) (NInt batch_size)) ;;
    x <- lift (np_ceil x) ;;
    nBatches <- lift (py_int x) ;;
    set_num "nBatches" (NInt nBatches) ;;
    set_num "batch_size" (NInt batch_size) ;;
    size <- num_attr "size" ;;
    x <- lift (py_mod size (NInt batch_size)) ;;
    set_num "residual" x ;;
    partialDat <- attr "partialDat" ;;
    nBatches <- attr "nBatches" ;;
    x <- lift (binary py_mul partialDat nBatches) ;;
    x <- lift (np_ceil x) ;;
    set_num "nPortion" x.

Definition __init__ (mapping : dict) : M unit :=
  _validate mapping ;;
  FrozenJSON.__init__ h __setattr__ mapping ;;
  __setattr__ "_logger" logger ;;
  geometry_parameters ;;
  spike_size_parameters ;;
  batch_parameters.

(** [__init__] up to the comment [BATCH PARAMETERS]. *)
Definition before_batch_parameters (mapping : dict) : M unit :=
  _validate mapping ;;
  FrozenJSON.__init__ h __setattr__ mapping ;;
  __setattr__ "_logger" logger ;;
  geometry_parameters ;;
  spike_size_parameters.

(** [Config(mapping)] for a mapping: the caller gets the object, or the
    exception and no object. *)
Definition new (mapping : dict) : result instance :=
  match __init__ mapping [] with
  | (inr _, self) => inr self
  | (inl e, _) => inl e
  end.

(** [Config(arg)] for any argument: [FrozenJSON.__new__] with [cls = Config];
    the elements of a list are constructed in order and the first exception
    is raised. *)
Fixpoint call (arg : value) : result wrapped :=
  match arg with
  | VDict mapping =>
      match new mapping with
      | inr self => inr (WFacade self)
      | inl e => inl e
      end
  | VList l =>
      let fix items (l : list value) : result (list wrapped) :=
        match l with
        | [] => inr []
        | item :: rest =>
            match call item with
            | inl e => inl e
            | inr w =>
                match items rest with
                | inl e => inl e
                | inr ws => inr (w :: ws)
                end
            end
        end in
      match items l with
      | inr ws => inr (WList ws)
      | inl e => inl e
      end
  | _ => inr (WRaw arg)
  end.

(** [Config.from_yaml(path_to_file)] *)
Definition from_yaml (path_to_file : string) : result wrapped :=
  FrozenJSON.from_yaml h call __setattr__ path_to_file.

End WithHost.
End Config.

(** ** Vocabulary of the statements *)

(** An object as [FrozenJSON.__init__] leaves it: a logger, the path [p] and
    the store [d]. *)
Definition facade (p : value) (d : dict) : instance :=
  [("_logger", logger); ("_path_to_file", p); ("_data", VDict d)].

(** The store that the loop of [FrozenJSON.__init__] makes of the store [d]
    and of a mapping; [stored] starts from the empty store. *)
Definition stored_from (h : host) (mapping d : dict) : dict :=
  fold_left
    (fun d kv => dict_set d (FrozenJSON.stored_name h (fst kv)) (snd kv))
    mapping d.

Definition stored (h : host) (mapping : dict) : dict :=
  stored_from h mapping [].

(** A mapping with its keys replaced by the names they are stored under. *)
Definition renamed (h : host) (mapping : dict) : dict :=
  map (fun kv => (FrozenJSON.stored_name h (fst kv), snd kv)) mapping.

(** The keys written by [Config.__init__], in the order of the writes. *)
Definition derived_names : list string :=
  ["geom"; "neighChannels"; "channelGroups"; "spikeSize"; "scaleToSave";
   "BUFF"; "templatesMaxShift"; "stdFactor"; "size"; "dsize"; "nBatches";
   "batch_size"; "residual"; "nPortion"].

(** The attributes read while the batch parameters are computed. *)
Definition batch_attributes : list string :=
  ["dtype"; "maxMem"; "nChan"; "dsize"; "size"; "partialDat"; "nBatches"].

(** None of [names] is an attribute of a dict. *)
Definition no_dict_attr (h : host) (names : list string) : bool :=
  forallb (fun name => negb (dict_hasattr h name)) names.

Definition is_prefix {A} (l1 l2 : list A) : Prop := exists r, l2 = l1 ++ r.

(** A command that only appends keys to the store: run on a facade whose
    store has none of [names], it appends entries whose keys are a prefix of
    [names], and all of [names] when it returns normally. *)
Definition appends (names : list string) {A} (c : M A) : Prop :=
  forall p d r s',
    (forall k, In k names -> ~ In k (dict_keys d)) ->
    c (facade p d) = (r, s') ->
    exists l,
      s' = facade p (d ++ l) /\
      is_prefix (map fst l) names /\
      (forall a, r = inr a -> map fst l = names).

(** A command that leaves the object as it is. *)
Definition pure {A} (c : M A) : Prop := forall s, snd (c s) = s.

(** An entry of the input that the schema rejects: its key has a non-empty
    list of permitted values and its value is not one of them. *)
Definition violates (h : host) (kv : string * value) : Prop :=
  exists valid_values,
    Config.validator_get (validator h) (fst kv) = Some valid_values /\
    valid_values <> [] /\
    ~ (exists s, snd kv = VStr s /\ In s valid_values).

(** The quotient rounded up. *)
Definition ceil_div (a b : Z) : Z := - (- a / b).

(** [np.ceil(p * n)] *)
Definition ceil_of_product (p : num) (n : Z) : result num :=
  match py_mul p (NInt n) with
  | inr y => np_ceil y
  | inl e => inl e
  end.

(** [v == z] for a number [v] and an [int] [z]. *)
Definition value_eq_int (v : value) (z : Z) : bool :=
  match v with
  | VInt x => x =? z
  | VBool b => (if b then 1 else 0) =? z
  | VFloat (S754_zero _) => z =? 0
  | VFloat (S754_finite s m (Zneg k)) => signed s m =? z * 2 ^ Zpos k
  | VFloat (S754_finite s m e) => signed s m * 2 ^ e =? z
  | _ => false
  end.

(** Neither a [Mapping] nor a [MutableSequence]. *)
Definition is_scalar (v : value) : bool :=
  match v with
  | VDict _ | VList _ => false
  | _ => true
  end.

(** [sub in s] for strings *)
Fixpoint contains (sub s : string) : bool :=
  String.prefix sub s ||
  match s with
  | EmptyString => false
  | String _ s' => contains sub s'
  end.

(** The second normalisation of [binary_round_aux]: a rounded mantissa of 53
    bits is kept, [2^53] becomes [2^52] with the next exponent. *)
Definition renormalised (s : bool) (w e : Z) : spec_float :=
  let '(mrs, e') := shr_fexp prec emax w e loc_Exact in
  match shr_m mrs with
  | Z0 => S754_zero s
  | Zpos m =>
      if e' <=? emax - prec then S754_finite s m e' else S754_infinity s
  | Zneg _ => S754_nan
  end.

(** The location of the exact value after one bit of the mantissa [m] was
    shifted out. *)
Definition shifted_loc (m : Z) (l : location) : location :=
  match Z.odd m, l with
  | false, loc_Exact => loc_Exact
  | false, loc_Inexact _ => loc_Inexact Lt
  | true, loc_Exact => loc_Inexact Eq
  | true, loc_Inexact _ => loc_Inexact Gt
  end.

(** The value of the last entry of a mapping that is stored under
    [name]. *)
Definition last_stored (h : host) (mapping : dict) (name : string)
    : option value :=
  option_map snd
    (find (fun kv => String.eqb (FrozenJSON.stored_name h (fst kv)) name)
       (rev mapping)).

(** A command that writes the store under [names] only: run on a facade, it
    leaves a facade with the same path whose store has every other key as
    before. *)
Definition only_writes (names : list string) {A} (c : M A) : Prop :=
  forall p d r s',
    c (facade p d) = (r, s') ->
    exists d',
      s' = facade p d' /\
      (forall k, ~ In k names -> dict_get d' k = dict_get d k).

(** No mapping and no list is left unwrapped, at any depth of lists. *)
Fixpoint fully_wrapped (w : wrapped) : bool :=
  match w with
  | WFacade _ => true
  | WList l => forallb fully_wrapped l
  | WRaw v => is_scalar v
  end.

(** [int(np.round(ms * srate / (2 * 1000)))] *)
Definition half_window (ms srate : num) : result Z :=
  match py_mul ms srate with
  | inl e => inl e
  | inr x =>
      match py_truediv x (NInt (2 * 1000)) with
      | inl e => inl e
      | inr y =>
          match np_round y with
          | inl e => inl e
          | inr z => py_int z
          end
      end
  end.

(** The attributes read while the spike size parameters are computed. *)
Definition spike_attributes : list string :=
  ["spikeSizeMS"; "srate"; "spikeSize"; "root"; "filename"; "dtype";
   "nChan"].

(** The attributes read while the geometry parameters are computed. *)
Definition geometry_attributes : list string :=
  ["root"; "geomFile"; "nChan"; "geom"; "spatialRadius"; "neighChannels"].

(** The parameters every construction reads from the input. *)
Definition required_names : list string :=
  ["root"; "geomFile"; "nChan"; "spatialRadius"; "spikeSizeMS"; "srate";
   "filename"; "dtype"; "maxMem"].

(** A command that cannot return normally from a facade whose store lacks
    [name], when [name] is not an attribute of a dict. *)
Definition fails_without (h : host) (name : string) {A} (c : M A) : Prop :=
  forall p d r s',
    dict_hasattr h name = false -> dict_get d name = None ->
    c (facade p d) = (r, s') -> exists e, r = inl e.

(** The names construction reads through attribute access. *)
Definition read_names : list string :=
  required_names
  ++ ["partialDat"; "geom"; "neighChannels"; "spikeSize"; "size"; "dsize";
      "nBatches"].

(** Two stores that bind every name outside [hidden] alike. *)
Definition agree_outside (hidden : list string) (d1 d2 : dict) : Prop :=
  forall k, ~ In k hidden -> dict_get d1 k = dict_get d2 k.

Definition without (name : string) (names : list string) : list string :=
  filter (fun k => negb (String.eqb k name)) names.

(** A command that does not see what the store binds the names of [hidden]
    to: run on two facades whose stores agree outside [hidden], it gives the
    same outcome, and when it returns normally it leaves facades whose
    stores agree outside [hidden']. *)
Definition blind_to (hidden hidden' : list string) {A} (c : M A) : Prop :=
  forall p d1 d2,
    agree_outside hidden d1 d2 ->
    fst (c (facade p d1)) = fst (c (facade p d2)) /\
    (forall a, fst (c (facade p d1)) = inr a ->
       exists d1' d2',
         snd (c (facade p d1)) = facade p d1' /\
         snd (c (facade p d2)) = facade p d2' /\
         agree_outside hidden' d1' d2').

(** ** A concrete host *)

Module Example.

(** [keyword.kwlist] of Python 3 *)
Definition kwlist : list string :=
  ["False"; "None"; "True"; "and"; "as"; "assert"; "async"; "await";
   "break"; "class"; "continue"; "def"; "del"; "elif"; "else"; "except";
   "finally"; "for"; "from"; "global"; "if"; "import"; "in"; "is";
   "lambda"; "nonlocal"; "not"; "or"; "pass"; "raise"; "return"; "try";
   "while"; "with"; "yield"].

(** [dir({})] of Python 3 *)
Definition dict_attributes : list string :=
  ["__class__"; "__class_getitem__"; "__contains__"; "__delattr__";
   "__delitem__"; "__dir__"; "__doc__"; "__eq__"; "__format__"; "__ge__";
   "__getattribute__"; "__getitem__"; "__getstate__"; "__gt__";
   "__hash__"; "__init__"; "__init_subclass__"; "__ior__"; "__iter__";
   "__le__"; "__len__"; "__lt__"; "__ne__"; "__new__"; "__or__";
   "__reduce__"; "__reduce_ex__"; "__repr__"; "__reversed__"; "__ror__";
   "__setattr__"; "__setitem__"; "__sizeof__"; "__str__";
   "__subclasshook__"; "clear"; "copy"; "fromkeys"; "get"; "items";
   "keys"; "pop"; "popitem"; "setdefault"; "update"; "values"].

Definition mem (l : list string) (s : string) : bool :=
  existsb (String.eqb s) l.

Definition array (name : string) : value := VOpaque name.

(** A host with one recording file of [file_size] bytes, whatever its
    path, a schema that constrains [dtype], and geometry functions that
    return arrays. *)
Definition with_file (file_size : Z) : host := {|
  iskeyword := mem kwlist;
  dict_hasattr := mem dict_attributes;
  yaml_load := fun _ => inl (External "no such file");
  validator := [("dtype", ["int16"; "uint16"; "single"; "double"])];
  path_join := fun a b => (a ++ "/" ++ b)%string;
  path_getsize := fun _ => inr file_size;
  geom_parse := fun _ _ => inr (array "geom");
  geom_find_channel_neighbors := fun _ _ => inr (array "neighChannels");
  geom_make_channel_groups := fun _ _ _ => inr (array "channelGroups")
|}.

(** 0.5, 2.5 and the double nearest to 0.1 *)
Definition half : spec_float := S754_finite false 4503599627370496 (-53).
Definition two_and_a_half : spec_float :=
  S754_finite false 5629499534213120 (-51).
Definition tenth : spec_float := S754_finite false 7205759403792794 (-56).

Definition params (maxMem : Z) (partialDat : value) : dict :=
  [("root", VStr "data"); ("filename", VStr "rec.bin");
   ("geomFile", VStr "geom.txt"); ("dtype", VStr "int16");
   ("nChan", VInt 10); ("srate", VInt 30000);
   ("spatialRadius", VInt 70); ("spikeSizeMS", VInt 1);
   ("maxMem", VInt maxMem); ("partialDat", partialDat)].

(** A host whose recording file is empty. *)
Definition host0 : host := with_file 0.

(** A mapping with a key that is a keyword. *)
Definition keyword_mapping : dict := [("class", VInt 1)].

(** A mapping with a key that the derivation writes. *)
Definition overriding : dict :=
  params 10000 (VFloat half) ++ [("scaleToSave", VInt 5)].

(** An object loaded from a file, with a null entry. *)
Definition loaded : instance :=
  facade (VStr "config.yaml") [("nChan", VInt 10); ("filename", VNone)].

(** A host whose YAML parser returns [doc] for every file. *)
Definition with_yaml (doc : value) : host := {|
  iskeyword := mem kwlist;
  dict_hasattr := mem dict_attributes;
  yaml_load := fun _ => inr doc;
  validator := [("dtype", ["int16"; "uint16"; "single"; "double"])];
  path_join := fun a b => (a ++ "/" ++ b)%string;
  path_getsize := fun _ => inr 24000;
  geom_parse := fun _ _ => inr (array "geom");
  geom_find_channel_neighbors :=
    fun _ _ => inr (array "neighChannels");
  geom_make_channel_groups :=
    fun _ _ _ => inr (array "channelGroups")
|}.

(** [dir(object)] of Python 3, and the [__module__] of a class *)
Definition object_attributes : list string :=
  ["__class__"; "__delattr__"; "__dir__"; "__doc__"; "__eq__"; "__format__";
   "__ge__"; "__getattribute__"; "__gt__"; "__hash__"; "__init__";
   "__init_subclass__"; "__le__"; "__lt__"; "__ne__"; "__new__";
   "__reduce__"; "__reduce_ex__"; "__repr__"; "__setattr__"; "__sizeof__";
   "__str__"; "__subclasshook__"; "__module__"].

Definition object_model0 : object_model := {|
  data_descriptor := mem ["__class__"; "__dict__"; "__weakref__"];
  object_hasattr := mem object_attributes
|}.

End Example.


(** * Properties *)

(** ** Binary64 division of integers *)

Lemma digits2_pos_bounds (p : positive) :
  2 ^ (Zpos (digits2_pos p) - 1) <= Zpos p < 2 ^ Zpos (digits2_pos p).
Proof.
  induction p as [p IH | p IH |]; cbn [digits2_pos].
  - rewrite Pos2Z.inj_succ.
    replace (Z.succ (Zpos (digits2_pos p)) - 1) with (Z.succ (Zpos (digits2_pos p) - 1)) by lia.
    rewrite !Z.pow_succ_r by lia. lia.
  - rewrite Pos2Z.inj_succ.
    replace (Z.succ (Zpos (digits2_pos p)) - 1) with (Z.succ (Zpos (digits2_pos p) - 1)) by lia.
    rewrite !Z.pow_succ_r by lia. lia.
  - cbn. lia.
Qed.

Lemma digits2_pos_unique (p : positive) (d : Z) :
  2 ^ (d - 1) <= Zpos p < 2 ^ d -> Zpos (digits2_pos p) = d.
Proof.
  intros [Hl Hu].
  pose proof (digits2_pos_bounds p) as [Hl' Hu'].
  assert (Hd : 0 < d).
  { destruct (Z.ltb_spec 0 d) as [|Hle]; [assumption|].
    exfalso. destruct (Z.eq_dec d 0) as [->|Hne].
    - cbn in Hu. lia.
    - rewrite Z.pow_neg_r in Hu by lia. lia. }
  assert (H1 : d - 1 < Zpos (digits2_pos p)).
  { apply (Z.pow_lt_mono_r_iff 2); lia. }
  assert (H2 : Zpos (digits2_pos p) - 1 < d).
  { apply (Z.pow_lt_mono_r_iff 2); lia. }
  lia.
Qed.

Lemma fexp_normal (x : Z) : -1021 <= x -> fexp prec emax x = x - 53.
Proof. intros H. unfold fexp, SpecFloat.emin, prec, emax. lia. Qed.

Lemma loc_of_shr_record_of_loc (m : Z) (l : location) :
  loc_of_shr_record (shr_record_of_loc m l) = l.
Proof. destruct l as [|[ | | ]]; reflexivity. Qed.

Lemma shr_m_of_loc (m : Z) (l : location) : shr_m (shr_record_of_loc m l) = m.
Proof. destruct l as [|[ | | ]]; reflexivity. Qed.


Lemma shr_1_of_loc (p : positive) (l : location) :
  shr_m (shr_1 (shr_record_of_loc (Zpos p) l)) = Zpos p / 2 /\
  loc_of_shr_record (shr_1 (shr_record_of_loc (Zpos p) l))
  = shifted_loc (Zpos p) l.
Proof.
  rewrite <- Z.div2_div.
  destruct p as [p | p |]; destruct l as [|[ | | ]]; split; reflexivity.
Qed.

Lemma round_nearest_even_range (m : Z) (l : location) :
  m <= round_nearest_even m l <= m + 1.
Proof.
  destruct l as [|[ | | ]]; cbn [round_nearest_even]; try lia.
  destruct (Z.even m); lia.
Qed.



Lemma renormalised_spec (s : bool) (w e : Z) :
  2 ^ 52 <= w <= 2 ^ 53 -> -1074 <= e <= 969 ->
  exists m e',
    renormalised s w e = S754_finite s m e' /\ e <= e' /\
    Zpos m * 2 ^ (e' - e) = w /\ 2 ^ 52 <= Zpos m < 2 ^ 53.
Proof.
  intros Hw He. unfold renormalised, shr_fexp.
  destruct w as [|w|w]; try lia.
  destruct (Z.eq_dec (Zpos w) (2 ^ 53)) as [E|NE].
  - injection E as ->.
    exists (4503599627370496%positive), (e + 1).
    cbn [Zdigits2].
    change (Z.pos (digits2_pos 9007199254740992)) with 54.
    rewrite fexp_normal by lia.
    replace (54 + e - 53 - e) with 1 by lia.
    cbn [shr iter_pos shr_record_of_loc shr_1 shr_m].
    replace (e + 1 <=? emax - prec) with true
      by (symmetry; apply Z.leb_le; unfold emax, prec; lia).
    replace (e + 1 - e) with 1 by lia.
    split; [reflexivity|]. split; [lia|]. split; [reflexivity|].
    split; [discriminate|reflexivity].
  - exists w, e.
    cbn [Zdigits2].
    rewrite (digits2_pos_unique w 53) by (cbn in *; lia).
    rewrite fexp_normal by lia.
    replace (53 + e - 53 - e) with 0 by lia.
    cbn [shr]. rewrite shr_m_of_loc.
    replace (e <=? emax - prec) with true
      by (symmetry; apply Z.leb_le; unfold emax, prec; lia).
    rewrite Z.sub_diag, Z.mul_1_r.
    split; [reflexivity|]. split; [lia|]. split; [reflexivity|lia].
Qed.

(** Rounding a mantissa of exactly 53 bits. *)
Lemma binary_round_aux_53 (s : bool) (p : positive) (e : Z) (l : location) :
  2 ^ 52 <= Zpos p < 2 ^ 53 -> -1074 <= e <= 969 ->
  exists m e',
    binary_round_aux prec emax s (Zpos p) e l = S754_finite s m e' /\
    e <= e' /\
    Zpos m * 2 ^ (e' - e) = round_nearest_even (Zpos p) l /\
    2 ^ 52 <= Zpos m < 2 ^ 53.
Proof.
  intros Hp He.
  pose proof (round_nearest_even_range (Zpos p) l) as Hw.
  destruct (renormalised_spec s (round_nearest_even (Zpos p) l) e)
    as (m & e' & Hr & Hle & Hv & Hc); [lia | lia |].
  exists m, e'. split; [|repeat split; try assumption; apply Hc].
  rewrite <- Hr.
  unfold binary_round_aux, renormalised, shr_fexp at 1.
  cbn [Zdigits2].
  rewrite (digits2_pos_unique p 53) by (cbn; lia).
  rewrite fexp_normal by lia.
  replace (53 + e - 53 - e) with 0 by lia.
  cbn [shr].
  rewrite shr_m_of_loc, loc_of_shr_record_of_loc.
  reflexivity.
Qed.

(** Rounding a mantissa of exactly 54 bits: one bit is shifted out. *)
Lemma binary_round_aux_54 (s : bool) (p : positive) (e : Z) (l : location) :
  2 ^ 53 <= Zpos p < 2 ^ 54 -> -1075 <= e <= 968 ->
  exists m e',
    binary_round_aux prec emax s (Zpos p) e l = S754_finite s m e' /\
    e + 1 <= e' /\
    Zpos m * 2 ^ (e' - (e + 1))
    = round_nearest_even (Zpos p / 2) (shifted_loc (Zpos p) l) /\
    2 ^ 52 <= Zpos m < 2 ^ 53.
Proof.
  intros Hp He.
  pose proof (round_nearest_even_range (Zpos p / 2) (shifted_loc (Zpos p) l))
    as Hw.
  assert (Hh : 2 ^ 52 <= Zpos p / 2 < 2 ^ 53).
  { change (2 ^ 53) with (2 * 2 ^ 52) in Hp.
    change (2 ^ 54) with (2 * 2 ^ 53) in Hp.
    split.
    - apply Z.div_le_lower_bound; lia.
    - apply Z.div_lt_upper_bound; lia. }
  destruct (renormalised_spec s
              (round_nearest_even (Zpos p / 2) (shifted_loc (Zpos p) l))
              (e + 1))
    as (m & e' & Hr & Hle & Hv & Hc); [lia | lia |].
  exists m, e'. split; [|repeat split; try assumption; apply Hc].
  rewrite <- Hr.
  unfold binary_round_aux, renormalised, shr_fexp at 1.
  cbn [Zdigits2].
  rewrite (digits2_pos_unique p 54) by (cbn; lia).
  rewrite fexp_normal by lia.
  replace (54 + e - 53 - e) with 1 by lia.
  cbn [shr iter_pos].
  destruct (shr_1_of_loc p l) as [-> ->].
  reflexivity.
Qed.

Lemma new_location_spec (B r : Z) :
  0 < B -> 0 <= r < B ->
  new_location B r
  = if r =? 0 then loc_Exact else loc_Inexact (2 * r ?= B).
Proof.
  intros HB Hr. unfold new_location, new_location_even, new_location_odd.
  destruct (Z.even B) eqn:Ev; [reflexivity|].
  destruct (r =? 0); [reflexivity|].
  f_equal.
  assert (Ho : Z.odd B = true) by (rewrite <- Z.negb_even, Ev; reflexivity).
  apply Z.odd_spec in Ho. destruct Ho as [k Hk].
  destruct (Z.compare_spec (2 * r + 1) B), (Z.compare_spec (2 * r) B);
    try reflexivity; lia.
Qed.

(** The quotient [N / B], known with its remainder, rounded to 53 bits: the
    result is [W * 2^e] with [W] within half a unit of [N / B] when the
    quotient has 53 bits and within one unit when it has 54, and [W] is the
    quotient itself when the division is exact and no odd bit is shifted
    out. *)
Lemma round_quotient (N B e : Z) :
  0 < B -> 2 ^ 52 <= N / B < 2 ^ 54 -> -1074 <= e <= 968 ->
  exists m e' W,
    binary_round_aux prec emax false (N / B) e (new_location B (N mod B))
    = S754_finite false m e' /\
    e <= e' /\ Zpos m * 2 ^ (e' - e) = W /\
    2 ^ 52 <= Zpos m < 2 ^ 53 /\
    (N / B < 2 ^ 53 -> 2 * Z.abs (W * B - N) <= B) /\
    (2 ^ 53 <= N / B -> Z.abs (W * B - N) <= B) /\
    (N mod B = 0 -> N / B < 2 ^ 53 \/ Z.even (N / B) = true -> W = N / B).
Proof.
  intros HB Hq He.
  pose proof (Z.div_mod N B ltac:(lia)) as HN.
  pose proof (Z.mod_pos_bound N B HB) as Hr.
  rewrite new_location_spec by assumption.
  remember (N / B) as q eqn:Eq. remember (N mod B) as r eqn:Er.
  clear Eq Er.
  destruct q as [|p|p]; try lia.
  destruct (Z.ltb_spec (Zpos p) (2 ^ 53)) as [Hlt|Hge].
  - destruct (binary_round_aux_53 false p e
                (if r =? 0 then loc_Exact else loc_Inexact (2 * r ?= B)))
      as (m & e' & Hr' & Hle & Hv & Hc); [lia | lia |].
    exists m, e', (Zpos m * 2 ^ (e' - e)).
    split; [exact Hr'|]. split; [exact Hle|]. split; [reflexivity|].
    split; [exact Hc|].
    rewrite Hv. clear Hv Hr'.
    split; [|split].
    + intros _.
      destruct (Z.eqb_spec r 0) as [->|Hne]; cbn [round_nearest_even].
      * lia.
      * destruct (Z.compare_spec (2 * r) B).
        -- destruct (Z.even (Zpos p)); nia.
        -- nia.
        -- nia.
    + lia.
    + intros -> _. cbn. reflexivity.
  - destruct (binary_round_aux_54 false p e
                (if r =? 0 then loc_Exact else loc_Inexact (2 * r ?= B)))
      as (m & e' & Hr' & Hle & Hv & Hc); [lia | lia |].
    exists m, e', (Zpos m * 2 ^ (e' - e)).
    split; [exact Hr'|]. split; [lia|]. split; [reflexivity|].
    split; [exact Hc|].
    replace (e' - e) with (Z.succ (e' - (e + 1))) by lia.
    rewrite Z.pow_succ_r by lia.
    replace (Zpos m * (2 * 2 ^ (e' - (e + 1))))
      with (2 * (Zpos m * 2 ^ (e' - (e + 1)))) by ring.
    rewrite Hv. clear Hv Hr'.
    pose proof (Z.div_mod (Zpos p) 2 ltac:(lia)) as Hp2.
    pose proof (Z.mod_pos_bound (Zpos p) 2 ltac:(lia)) as Hp2b.
    assert (Hodd : Z.odd (Zpos p) = (Zpos p mod 2 =? 1)).
    { rewrite Zmod_odd. destruct (Z.odd (Zpos p)); reflexivity. }
    unfold shifted_loc. rewrite Hodd.
    remember (Zpos p / 2) as h eqn:Eh. remember (Zpos p mod 2) as bit eqn:Eb.
    split; [|split].
    + lia.
    + intros _.
      destruct (Z.eqb_spec bit 1) as [Hb|Hb];
        destruct (Z.eqb_spec r 0) as [->|Hne]; cbn [round_nearest_even].
      * destruct (Z.even h); nia.
      * nia.
      * nia.
      * nia.
    + intros -> [Hlt|Hev]; [lia|].
      assert (Hb0 : bit = 0).
      { rewrite Eb, Zmod_even, Hev. reflexivity. }
      rewrite Hb0 in *. change (0 =? 1) with false. change (0 =? 0) with true.
      cbn [round_nearest_even]. lia.
Qed.

Lemma div_between (a b k : Z) : 0 < b -> k * b <= a < (k + 1) * b -> a / b = k.
Proof.
  intros Hb H. symmetry. apply (Z.div_unique a b k (a - k * b)); lia.
Qed.

(** [W] lies strictly between [k * P] and [(k + 1) * P] when [W * b] is
    within [G / 2] of [n * P], [n = b * k + r0] with [0 < r0 < b], and
    [G < 2 * P]. *)
Lemma between_multiples (n b k r0 P W G : Z) :
  0 < b -> 0 < P -> n = b * k + r0 -> 0 < r0 < b -> G < 2 * P ->
  2 * n * P - G <= 2 * (W * b) <= 2 * n * P + G ->
  k * P < W < (k + 1) * P.
Proof.
  intros Hb HP Hn Hr0 HG HW.
  assert (H3 : 1 * P <= r0 * P) by (apply Z.mul_le_mono_nonneg_r; lia).
  assert (H4 : r0 * P <= (b - 1) * P) by (apply Z.mul_le_mono_nonneg_r; lia).
  assert (HnP : n * P = b * (k * P) + r0 * P) by (subst n; ring).
  split; apply (Z.mul_lt_mono_pos_l b); try assumption.
  - replace (b * W) with (W * b) by ring. lia.
  - replace (b * W) with (W * b) by ring.
    replace (b * ((k + 1) * P)) with (b * (k * P) + b * P) by ring. lia.
Qed.

(** From the rounded quotient to the integer part of [n / b].  [N / B] is
    [n / b] scaled by the even factor [P]; [W] is [N / B] rounded as in
    [round_quotient]. *)
Lemma rounded_integer_part (n b N B P W : Z) :
  0 < b -> 0 <= n < 2 ^ 53 -> 0 < B -> 0 < P -> Z.even P = true ->
  N * b = n * B * P ->
  2 ^ 52 <= N / B ->
  (N / B < 2 ^ 53 -> 2 * Z.abs (W * B - N) <= B) ->
  (2 ^ 53 <= N / B -> Z.abs (W * B - N) <= B) ->
  (N mod B = 0 -> N / B < 2 ^ 53 \/ Z.even (N / B) = true -> W = N / B) ->
  W / P = n / b /\ - (- W / P) = - (- n / b).
Proof.
  intros Hb Hn HB HP HPe HNb Hq H53 H54 Hex.
  pose proof (Z.div_mod n b ltac:(lia)) as Hnb.
  pose proof (Z.mod_pos_bound n b Hb) as Hr0.
  pose proof (Z.div_mod N B ltac:(lia)) as HNB.
  pose proof (Z.mod_pos_bound N B HB) as Hr.
  remember (n / b) as k eqn:Ek. remember (n mod b) as r0 eqn:Er0.
  destruct (Z.eq_dec r0 0) as [Hz|Hnz].
  - (* the quotient is an integer *)
    assert (HN : N = (k * P) * B).
    { apply (Z.mul_reg_r _ _ b); [lia|]. rewrite HNb. subst n. rewrite Hz. ring. }
    assert (HW : W = k * P).
    { rewrite <- (Z.div_mul (k * P) B) by lia. rewrite <- HN.
      apply Hex.
      - rewrite HN. apply Z.mod_mul. lia.
      - right. rewrite HN, Z.div_mul by lia.
        rewrite Z.even_mul, HPe. apply orb_true_r. }
    rewrite HW. split.
    + apply Z.div_mul. lia.
    + replace (- (k * P)) with ((- k) * P) by ring.
      rewrite Z.div_mul by lia.
      replace (- n) with ((- k) * b) by (subst n; lia).
      rewrite Z.div_mul by lia. reflexivity.
  - (* the quotient lies strictly between [k] and [k + 1] *)
    remember (N / B) as q eqn:Eq. remember (N mod B) as r eqn:Er.
    change (2 ^ 53) with (2 * 2 ^ 52) in *.
    remember (2 ^ 52) as T eqn:ET.
    assert (HT : 0 < T) by (subst T; reflexivity).
    assert (Hg : exists g, 0 < g /\ T * g <= q /\
                           2 * Z.abs (W * B - N) <= g * B).
    { destruct (Z.ltb_spec q (2 * T)) as [Hlt|Hge].
      - exists 1. specialize (H53 Hlt). lia.
      - exists 2. specialize (H54 Hge). lia. }
    destruct Hg as (g & Hg0 & Hgq & Herr).
    assert (HBP : 0 < B * P) by (apply Z.mul_pos_pos; assumption).
    assert (HnP : n * (B * P) < (2 * T) * (B * P))
      by (apply Z.mul_lt_mono_pos_r; lia).
    assert (HBq : B * (T * g) <= B * q)
      by (apply Z.mul_le_mono_nonneg_l; lia).
    assert (HNq : (B * (T * g)) * b <= N * b)
      by (apply Z.mul_le_mono_nonneg_r; lia).
    assert (HG : g * b < 2 * P).
    { apply (Z.mul_lt_mono_pos_l (T * B)); [apply Z.mul_pos_pos; lia|].
      replace (T * B * (g * b)) with (B * (T * g) * b) by ring.
      replace (T * B * (2 * P)) with (2 * T * (B * P)) by ring.
      replace (n * B * P) with (n * (B * P)) in HNb by ring. lia. }
    assert (HWb : 2 * n * P - g * b <= 2 * (W * b) <= 2 * n * P + g * b).
    { assert (Hlo : (2 * N - g * B) * b <= (2 * (W * B)) * b)
        by (apply Z.mul_le_mono_nonneg_r; lia).
      assert (Hhi : (2 * (W * B)) * b <= (2 * N + g * B) * b)
        by (apply Z.mul_le_mono_nonneg_r; lia).
      replace ((2 * N - g * B) * b) with (2 * (N * b) - B * (g * b)) in Hlo
        by ring.
      replace ((2 * N + g * B) * b) with (2 * (N * b) + B * (g * b)) in Hhi
        by ring.
      rewrite HNb in Hlo, Hhi.
      replace (2 * (n * B * P) - B * (g * b))
        with (B * (2 * n * P - g * b)) in Hlo by ring.
      replace (2 * (n * B * P) + B * (g * b))
        with (B * (2 * n * P + g * b)) in Hhi by ring.
      replace (2 * (W * B) * b) with (B * (2 * (W * b))) in Hlo, Hhi by ring.
      apply Z.mul_le_mono_pos_l in Hlo; [|assumption].
      apply Z.mul_le_mono_pos_l in Hhi; [|assumption].
      split; assumption. }
    assert (Hbounds : k * P < W < (k + 1) * P).
    { apply (between_multiples n b k r0 P W (g * b)); try assumption; lia. }
    split.
    + apply div_between; lia.
    + rewrite (div_between (- W) P (- (k + 1))) by lia.
      rewrite (div_between (- n) b (- (k + 1))) by lia.
      reflexivity.
Qed.

Lemma div_eucl_div_mod (a b : Z) : Z.div_eucl a b = (a / b, a mod b).
Proof. unfold Z.div, Z.modulo. destruct (Z.div_eucl a b). reflexivity. Qed.

Lemma pow2_pos (k : Z) : 0 <= k -> 0 < 2 ^ k.
Proof. intros H. apply Z.pow_pos_nonneg; lia. Qed.

(** Division of two positive finite operands whose quotient is normal: the
    result is [W * 2^e] with [W] the rounding of [mx * 2^s / my], where
    [e = D - 53] and [s = ex - ey - e] for [D] the difference of the
    operands' magnitudes. *)
Lemma f64_div_finite (mx my : positive) (ex ey : Z) :
  let d1 := Zpos (digits2_pos mx) in
  let d2 := Zpos (digits2_pos my) in
  let e := d1 + ex - (d2 + ey) - 53 in
  let s := ex - ey - e in
  let N := Zpos mx * 2 ^ s in
  let B := Zpos my in
  d1 - d2 <= 53 -> -1021 <= e <= 968 ->
  exists m e' W,
    f64_div (S754_finite false mx ex) (S754_finite false my ey)
    = S754_finite false m e' /\
    e <= e' /\ Zpos m * 2 ^ (e' - e) = W /\
    2 ^ 52 <= Zpos m < 2 ^ 53 /\
    2 ^ 52 <= N / B /\
    (N / B < 2 ^ 53 -> 2 * Z.abs (W * B - N) <= B) /\
    (2 ^ 53 <= N / B -> Z.abs (W * B - N) <= B) /\
    (N mod B = 0 -> N / B < 2 ^ 53 \/ Z.even (N / B) = true -> W = N / B).
Proof.
  intros d1 d2 e s N B Hd He.
  assert (Hs : 0 <= s) by (unfold s, e; lia).
  pose proof (digits2_pos_bounds mx) as Hmx.
  pose proof (digits2_pos_bounds my) as Hmy.
  fold d1 in Hmx. fold d2 in Hmy.
  assert (Hd1 : 0 < d1) by (unfold d1; lia).
  assert (Hd2 : 0 < d2) by (unfold d2; lia).
  assert (HB : 0 < B) by (unfold B; lia).
  assert (Hq : 2 ^ 52 <= N / B < 2 ^ 54).
  { assert (Hs' : s = 53 - d1 + d2) by (unfold s, e; lia).
    pose proof (pow2_pos s Hs) as Hps.
    split.
    - apply Z.div_le_lower_bound; [assumption|].
      apply Z.le_trans with (2 ^ d2 * 2 ^ 52).
      + apply Z.mul_le_mono_nonneg_r; [cbn; lia|]. unfold B. lia.
      + rewrite <- Z.pow_add_r by lia.
        replace (d2 + 52) with ((d1 - 1) + s) by lia.
        rewrite Z.pow_add_r by lia. unfold N.
        apply Z.mul_le_mono_nonneg_r; lia.
    - apply Z.div_lt_upper_bound; [assumption|].
      apply Z.lt_le_trans with (2 ^ d1 * 2 ^ s).
      + unfold N. apply Z.mul_lt_mono_pos_r; lia.
      + rewrite <- Z.pow_add_r by lia.
        replace (d1 + s) with ((d2 - 1) + 54) by lia.
        rewrite Z.pow_add_r by lia.
        apply Z.mul_le_mono_nonneg_r; [cbn; lia|]. unfold B. lia. }
  destruct (round_quotient N B e HB Hq ltac:(lia))
    as (m & e' & W & Hr & Hle & HW & Hc & H53 & H54 & Hex).
  exists m, e', W.
  split; [|repeat split; try assumption; try apply Hc; apply Hq].
  rewrite <- Hr.
  unfold f64_div, SFdiv, SFdiv_core_binary. cbn [xorb Zdigits2].
  fold d1 d2.
  rewrite fexp_normal by (unfold e in He; lia).
  replace (Z.min (d1 + ex - (d2 + ey) - 53) (ex - ey)) with e by (unfold e; lia).
  fold s.
  replace (match s with
           | 0 => Zpos mx
           | Zpos _ => Z.shiftl (Zpos mx) s
           | Zneg _ => 0
           end) with N.
  2:{ unfold N. destruct s as [|k|k].
      - cbn. lia.
      - rewrite Z.shiftl_mul_pow2 by lia. reflexivity.
      - lia. }
  rewrite div_eucl_div_mod. reflexivity.
Qed.

Lemma iter_xO_pow2 (p d : positive) :
  Zpos (Pos.iter xO p d) = Zpos p * 2 ^ Zpos d.
Proof.
  induction d as [|d IH] using Pos.peano_ind.
  - cbn. lia.
  - rewrite Pos.iter_succ, Pos2Z.inj_xO, IH, Pos2Z.inj_succ, Z.pow_succ_r by lia.
    ring.
Qed.

Lemma shl_align_spec (mx : positive) (ex ex' : Z) :
  ex' <= ex ->
  exists m, shl_align mx ex ex' = (m, ex') /\ Zpos m = Zpos mx * 2 ^ (ex - ex').
Proof.
  intros H. unfold shl_align.
  destruct (ex' - ex) as [|d|d] eqn:E.
  - assert (ex' = ex) by lia. subst ex'. exists mx. rewrite Z.sub_diag.
    split; [reflexivity | cbn; lia].
  - lia.
  - exists (Pos.iter xO mx d). split; [reflexivity|].
    rewrite iter_xO_pow2. replace (ex - ex') with (Zpos d) by lia. reflexivity.
Qed.

Lemma pow2_cancel_53 (m m' j : Z) :
  2 ^ 52 <= m < 2 ^ 53 -> 2 ^ 52 <= m' < 2 ^ 53 -> 0 <= j ->
  m' * 2 ^ j = m -> j = 0 /\ m' = m.
Proof.
  intros Hm Hm' Hj E.
  destruct (Z.eq_dec j 0) as [->|Hne].
  - cbn in E. lia.
  - exfalso.
    replace j with (Z.succ (j - 1)) in E by lia.
    rewrite Z.pow_succ_r in E by lia.
    pose proof (pow2_pos (j - 1) ltac:(lia)) as Hp.
    assert (m' * 1 <= m' * 2 ^ (j - 1))
      by (apply Z.mul_le_mono_nonneg_l; lia).
    change (2 ^ 53) with (2 * 2 ^ 52) in *. lia.
Qed.

(** A positive integer below [2^53] converts exactly, to a canonical
    double. *)
Lemma f64_of_Z_exact (z : positive) :
  Zpos z < 2 ^ 53 ->
  exists m t,
    f64_of_Z (Zpos z) = S754_finite false m (- t) /\
    0 <= t <= 52 /\ t = 53 - Zpos (digits2_pos z) /\
    Zpos m = Zpos z * 2 ^ t /\ Zpos (digits2_pos m) = 53.
Proof.
  intros Hz.
  pose proof (digits2_pos_bounds z) as Hd.
  set (d := Zpos (digits2_pos z)) in *.
  assert (Hd53 : 0 < d <= 53).
  { split; [unfold d; lia|].
    destruct (Z.leb_spec d 53) as [|Hgt]; [assumption|exfalso].
    assert (2 ^ 53 <= 2 ^ (d - 1)) by (apply Z.pow_le_mono_r; lia). lia. }
  unfold f64_of_Z, binary_normalize, binary_round.
  fold d. rewrite Z.add_0_r, fexp_normal by lia.
  destruct (shl_align_spec z 0 (d - 53) ltac:(lia)) as (m & -> & Hm).
  replace (0 - (d - 53)) with (53 - d) in Hm by lia.
  assert (Hc : 2 ^ 52 <= Zpos m < 2 ^ 53).
  { rewrite Hm. pose proof (pow2_pos (53 - d) ltac:(lia)).
    split.
    - replace 52 with ((d - 1) + (53 - d)) by lia.
      rewrite Z.pow_add_r by lia. apply Z.mul_le_mono_nonneg_r; lia.
    - replace 53 with (d + (53 - d)) at 2 by lia.
      rewrite Z.pow_add_r by lia. apply Z.mul_lt_mono_pos_r; lia. }
  destruct (binary_round_aux_53 false m (d - 53) loc_Exact Hc ltac:(lia))
    as (m' & e' & -> & Hle & Hv & Hc').
  cbn [round_nearest_even] in Hv.
  destruct (pow2_cancel_53 (Zpos m) (Zpos m') (e' - (d - 53)) Hc Hc'
              ltac:(lia) Hv) as [He' Hmm].
  injection Hmm as ->.
  exists m, (53 - d).
  replace e' with (- (53 - d)) by lia.
  split; [reflexivity|]. split; [lia|]. split; [reflexivity|].
  split; [assumption|]. apply digits2_pos_unique. cbn. cbn in Hc. lia.
Qed.

(** The integer part of [m * 2^e] computed on the mantissa scaled to an
    integer. *)
Lemma Zfloor_f_scaled (s : bool) (m : positive) (e K : Z) :
  0 <= K -> - K <= e ->
  Zfloor_f s m e = (signed s m * 2 ^ (e + K)) / 2 ^ K.
Proof.
  intros HK He. unfold Zfloor_f.
  destruct e as [|k|k].
  - rewrite Z.add_0_l, Z.div_mul by (pose proof (pow2_pos K HK); lia).
    cbn. lia.
  - rewrite Z.pow_add_r, Z.mul_assoc, Z.div_mul by
      (try pose proof (pow2_pos K HK); lia).
    reflexivity.
  - replace K with ((Zneg k + K) + Zpos k) at 2 by lia.
    rewrite (Z.pow_add_r 2 (Zneg k + K) (Zpos k)) by lia.
    rewrite (Z.mul_comm (2 ^ (Zneg k + K))).
    rewrite Z.div_mul_cancel_r;
      [reflexivity | pose proof (pow2_pos (Zpos k)); lia
                   | pose proof (pow2_pos (Zneg k + K)); lia].
Qed.

(** [int(x)] recovers a non-negative integer below [2^53] from the double
    that holds it. *)
Lemma py_int_of_Z (z : Z) (s : bool) :
  0 <= z < 2 ^ 53 ->
  py_int (NFloat (binary_normalize prec emax z 0 s)) = inr z.
Proof.
  intros Hz. destruct z as [|z|z]; [reflexivity | | lia].
  destruct (f64_of_Z_exact z ltac:(lia)) as (m & t & E & Ht & _ & Hm & _).
  unfold f64_of_Z in E. cbn [binary_normalize] in *. rewrite E.
  cbn [py_int]. unfold Ztrunc_f.
  rewrite (Zfloor_f_scaled false m (- t) t) by lia.
  replace (- t + t) with 0 by lia. cbn [signed].
  rewrite Z.pow_0_r, Z.mul_1_r, Hm, Z.div_mul
    by (pose proof (pow2_pos t); lia).
  reflexivity.
Qed.


Lemma ceil_div_spec (a b q : Z) :
  0 < b -> (ceil_div a b = q <-> (q - 1) * b < a <= q * b).
Proof.
  intros Hb. unfold ceil_div. split.
  - intros <-.
    pose proof (Z.div_mod (- a) b ltac:(lia)) as H.
    pose proof (Z.mod_pos_bound (- a) b Hb) as Hr. nia.
  - intros H. rewrite (div_between (- a) b (- q)); lia.
Qed.

Lemma ceil_div_range (a b : Z) : 0 < a -> 0 < b -> 0 < ceil_div a b <= a.
Proof.
  intros Ha Hb.
  pose proof (proj1 (ceil_div_spec a b _ Hb) eq_refl) as [Hlo Hhi].
  remember (ceil_div a b) as c eqn:Ec. clear Ec.
  split.
  - destruct (Z.ltb_spec 0 c) as [|Hle]; [assumption|exfalso].
    assert (c * b <= 0) by (apply Z.mul_nonpos_nonneg; lia). lia.
  - destruct (Z.leb_spec c 1) as [|Hgt]; [lia|].
    assert ((c - 1) * 1 <= (c - 1) * b)
      by (apply Z.mul_le_mono_nonneg_l; lia).
    lia.
Qed.

(** The integer parts of a positive double [m * 2^e'] whose mantissa scaled
    to the exponent [e < 0] is [W]. *)
Lemma integer_parts_scaled (m : positive) (e e' W : Z) :
  e < 0 -> e <= e' -> Zpos m * 2 ^ (e' - e) = W ->
  Zfloor_f false m e' = W / 2 ^ (- e) /\
  Zceil_f false m e' = ceil_div W (2 ^ (- e)).
Proof.
  intros He Hle HW. unfold Zceil_f, ceil_div. cbn [negb].
  rewrite !(Zfloor_f_scaled _ m e' (- e)) by lia.
  replace (e' + - e) with (e' - e) by lia. cbn [signed].
  rewrite <- HW. split; [reflexivity|].
  replace (Zneg m) with (- Zpos m) by reflexivity.
  rewrite Z.mul_opp_l. reflexivity.
Qed.

(** [int(np.floor(a / b))] and [int(a / b)] for two non-negative [int]s
    below [2^53]: the integer quotient. *)
Lemma floor_truediv_int (a b : Z) :
  0 <= a < 2 ^ 53 -> 0 < b < 2 ^ 53 ->
  exists f g,
    py_truediv (NInt a) (NInt b) = inr (NFloat f) /\
    py_int (NFloat f) = inr (a / b) /\
    np_floor (NFloat f) = inr (NFloat g) /\
    py_int (NFloat g) = inr (a / b).
Proof.
  intros Ha Hb.
  destruct b as [|pb|pb]; try lia.
  destruct a as [|pa|pa]; try lia.
  - exists (S754_zero false), (S754_zero false). repeat split; reflexivity.
  - pose proof (digits2_pos_bounds pa) as Hda.
    pose proof (digits2_pos_bounds pb) as Hdb.
    assert (Hda53 : Zpos (digits2_pos pa) <= 53).
    { destruct (Z.leb_spec (Zpos (digits2_pos pa)) 53) as [|Hgt];
        [assumption|exfalso].
      assert (2 ^ 53 <= 2 ^ (Zpos (digits2_pos pa) - 1))
        by (apply Z.pow_le_mono_r; lia). lia. }
    assert (Hdb53 : Zpos (digits2_pos pb) <= 53).
    { destruct (Z.leb_spec (Zpos (digits2_pos pb)) 53) as [|Hgt];
        [assumption|exfalso].
      assert (2 ^ 53 <= 2 ^ (Zpos (digits2_pos pb) - 1))
        by (apply Z.pow_le_mono_r; lia). lia. }
    destruct (f64_div_finite pa pb 0 0 ltac:(lia) ltac:(lia))
      as (m & e' & W & Hdiv & Hle & HW & Hc & Hq & H53 & H54 & Hex).
    set (e := Zpos (digits2_pos pa) + 0 - (Zpos (digits2_pos pb) + 0) - 53)
      in *.
    assert (He : e < 0) by (unfold e; lia).
    replace (0 - 0 - e) with (- e) in * by lia.
    assert (HP : 0 < 2 ^ (- e)) by (apply pow2_pos; lia).
    assert (HPe : Z.even (2 ^ (- e)) = true)
      by (rewrite Z.even_pow by lia; reflexivity).
    assert (HNb : Zpos pa * 2 ^ (- e) * Zpos pb
                  = Zpos pa * Zpos pb * 2 ^ (- e)) by ring.
    destruct (rounded_integer_part (Zpos pa) (Zpos pb)
                (Zpos pa * 2 ^ (- e)) (Zpos pb) (2 ^ (- e)) W
                ltac:(lia) ltac:(lia) ltac:(lia) HP HPe HNb Hq H53 H54 Hex)
      as [Hfl Hce].
    destruct (integer_parts_scaled m e e' W He Hle HW) as [Hf _].
    assert (Hqb : 0 <= Zpos pa / Zpos pb < 2 ^ 53).
    { split; [apply Z.div_pos; lia|].
      apply Z.le_lt_trans with (Zpos pa); [|lia].
      apply Z.div_le_upper_bound; [lia|].
      replace (Zpos pa) with (1 * Zpos pa) at 1 by lia.
      apply Z.mul_le_mono_nonneg_r; lia. }
    exists (S754_finite false m e'),
      (binary_normalize prec emax (Zpos pa / Zpos pb) 0 false).
    split; [|split; [|split]].
    + unfold py_truediv. cbn [Z.eqb exact_of_Z]. rewrite Hdiv. reflexivity.
    + cbn [py_int]. unfold Ztrunc_f. rewrite Hf, Hfl. reflexivity.
    + unfold np_floor, np_integral, f64_integral. rewrite Hf, Hfl. reflexivity.
    + apply py_int_of_Z. assumption.
Qed.

(** [int(np.ceil(float(n) / b))] for two positive [int]s below [2^53]: the
    quotient rounded up. *)
Lemma ceil_truediv_float (n b : Z) :
  0 < n < 2 ^ 53 -> 0 < b < 2 ^ 53 ->
  exists fn q c,
    py_float (NInt n) = inr fn /\
    py_truediv (NFloat fn) (NInt b) = inr (NFloat q) /\
    np_ceil (NFloat q) = inr (NFloat c) /\
    py_int (NFloat c) = inr (ceil_div n b).
Proof.
  intros Hn Hb.
  destruct n as [|pn|pn]; try lia. destruct b as [|pb|pb]; try lia.
  destruct (f64_of_Z_exact pn ltac:(lia)) as (mn & tn & En & Htn & _ & Hmn & Hdn).
  destruct (f64_of_Z_exact pb ltac:(lia)) as (mb & tb & Eb & Htb & _ & Hmb & Hdb).
  destruct (f64_div_finite mn mb (- tn) (- tb))
    as (m & e' & W & Hdiv & Hle & HW & Hc & Hq & H53 & H54 & Hex);
    [rewrite Hdn, Hdb; lia | rewrite Hdn, Hdb; lia |].
  rewrite Hdn, Hdb in *.
  set (e := 53 + - tn - (53 + - tb) - 53) in *.
  assert (He : e < 0) by (unfold e; lia).
  replace (- tn - - tb - e) with 53 in * by (unfold e; lia).
  assert (HP : 0 < 2 ^ (- e)) by (apply pow2_pos; lia).
  assert (HPe : Z.even (2 ^ (- e)) = true)
    by (rewrite Z.even_pow by lia; reflexivity).
  assert (HNb : Zpos mn * 2 ^ 53 * Zpos pb
                = Zpos pn * Zpos mb * 2 ^ (- e)).
  { rewrite Hmn, Hmb.
    replace (- e) with ((53 + tn) - tb) by (unfold e; lia).
    replace (Zpos pn * 2 ^ tn * 2 ^ 53 * Zpos pb)
      with (Zpos pn * Zpos pb * (2 ^ tn * 2 ^ 53)) by ring.
    replace (Zpos pn * (Zpos pb * 2 ^ tb) * 2 ^ (53 + tn - tb))
      with (Zpos pn * Zpos pb * (2 ^ tb * 2 ^ (53 + tn - tb))) by ring.
    rewrite <- !Z.pow_add_r by lia. do 2 f_equal. lia. }
  destruct (rounded_integer_part (Zpos pn) (Zpos pb)
              (Zpos mn * 2 ^ 53) (Zpos mb) (2 ^ (- e)) W
              ltac:(lia) ltac:(lia) ltac:(lia) HP HPe HNb Hq H53 H54 Hex)
    as [_ Hce].
  destruct (integer_parts_scaled m e e' W He Hle HW) as [_ Hcf].
  fold (ceil_div W (2 ^ (- e))) in Hce. fold (ceil_div (Zpos pn) (Zpos pb)) in Hce.
  assert (Hcb : 0 <= ceil_div (Zpos pn) (Zpos pb) < 2 ^ 53).
  {    pose proof (ceil_div_range (Zpos pn) (Zpos pb) ltac:(lia) ltac:(lia)).
    lia. }
  exists (S754_finite false mn (- tn)), (S754_finite false m e'),
    (binary_normalize prec emax (ceil_div (Zpos pn) (Zpos pb)) 0 false).
  split; [|split; [|split]].
  - unfold py_float. rewrite En. reflexivity.
  - unfold py_truediv, py_float. rewrite Eb, Hdiv. reflexivity.
  - unfold np_ceil, np_integral, f64_integral. rewrite Hcf, Hce. reflexivity.
  - apply py_int_of_Z. assumption.
Qed.

(** The operations on concrete numbers: [(2**53 + 1) / 1] rounds to even,
    [np.round(2.5)] is [2.0], [np.ceil(-0.5)] is [-0.0], and [0.1 * 10] is
    [1.0]. *)
Example truediv_rounds_to_even :
  py_truediv (NInt (2 ^ 53 + 1)) (NInt 1)
  = inr (NFloat (S754_finite false 4503599627370496 1)).
Proof. reflexivity. Qed.

Example np_round_half_to_even :
  np_round (NFloat Example.two_and_a_half)
  = inr (NFloat (S754_finite false 4503599627370496 (-51))).
Proof. reflexivity. Qed.

Example np_ceil_keeps_sign_of_zero :
  np_ceil (NFloat (S754_finite true 4503599627370496 (-53)))
  = inr (NFloat (S754_zero true)).
Proof. reflexivity. Qed.

Example tenth_times_ten :
  py_mul (NFloat Example.tenth) (NInt 10)
  = inr (NFloat (S754_finite false 4503599627370496 (-52))).
Proof. reflexivity. Qed.

(** ** Dictionaries *)

Lemma dict_get_set (d : dict) (k k' : string) (v : value) :
  dict_get (dict_set d k v) k' = if String.eqb k k' then Some v else dict_get d k'.
Proof.
  induction d as [|[k0 v0] d IH]; cbn [dict_set dict_get].
  - reflexivity.
  - destruct (String.eqb_spec k0 k) as [->|Hne]; cbn [dict_get].
    + destruct (String.eqb k k'); reflexivity.
    + rewrite IH.
      destruct (String.eqb_spec k0 k') as [->|Hne'].
      * destruct (String.eqb_spec k k') as [->|]; [congruence | reflexivity].
      * reflexivity.
Qed.

Lemma dict_get_set_same (d : dict) (k : string) (v : value) :
  dict_get (dict_set d k v) k = Some v.
Proof. rewrite dict_get_set, String.eqb_refl. reflexivity. Qed.

Lemma dict_get_None (d : dict) (k : string) :
  dict_get d k = None <-> ~ In k (dict_keys d).
Proof.
  induction d as [|[k0 v0] d IH]; cbn [dict_get dict_keys map fst In].
  - tauto.
  - destruct (String.eqb_spec k0 k) as [->|Hne].
    + split; [discriminate | tauto].
    + rewrite IH. tauto.
Qed.

Lemma dict_get_In (d : dict) (k : string) (v : value) :
  NoDup (dict_keys d) -> In (k, v) d -> dict_get d k = Some v.
Proof.
  induction d as [|[k0 v0] d IH]; cbn [dict_get dict_keys map fst In].
  - tauto.
  - intros Hnd [E|Hin].
    + injection E as -> ->. rewrite String.eqb_refl. reflexivity.
    + inversion Hnd as [|? ? Hnotin Hnd']; subst.
      destruct (String.eqb_spec k0 k) as [->|Hne].
      * exfalso. apply Hnotin. apply (in_map fst) in Hin. exact Hin.
      * apply IH; assumption.
Qed.

Lemma dict_set_fresh (d : dict) (k : string) (v : value) :
  ~ In k (dict_keys d) -> dict_set d k v = d ++ [(k, v)].
Proof.
  induction d as [|[k0 v0] d IH]; cbn [dict_set dict_keys map fst In app].
  - reflexivity.
  - intros H. destruct (String.eqb_spec k0 k) as [->|Hne]; [tauto|].
    rewrite IH by tauto. reflexivity.
Qed.

Lemma dict_keys_set (d : dict) (k k' : string) (v : value) :
  In k' (dict_keys (dict_set d k v)) <-> k' = k \/ In k' (dict_keys d).
Proof.
  induction d as [|[k0 v0] d IH]; cbn [dict_set dict_keys map fst In].
  - intuition.
  - destruct (String.eqb_spec k0 k) as [->|Hne];
      cbn [dict_keys map fst In].
    + intuition.
    + fold (dict_keys (dict_set d k v)). rewrite IH. fold (dict_keys d).
      intuition.
Qed.

Lemma dict_keys_set_NoDup (d : dict) (k : string) (v : value) :
  NoDup (dict_keys d) -> NoDup (dict_keys (dict_set d k v)).
Proof.
  induction d as [|[k0 v0] d IH]; cbn [dict_set dict_keys map fst].
  - intros _. constructor; [intros [] | constructor].
  - intros Hnd. inversion Hnd as [|? ? Hnotin Hnd']; subst.
    destruct (String.eqb_spec k0 k) as [->|Hne]; cbn [dict_keys map fst].
    + constructor; assumption.
    + constructor.
      * fold (dict_keys (dict_set d k v)). rewrite dict_keys_set.
        intros [E|Hin]; [congruence | exact (Hnotin Hin)].
      * apply IH. assumption.
Qed.

(** ** The facade *)

Lemma bind_ok {A B} (c : M A) (k : A -> M B) (s s' : instance) (a : A) :
  c s = (inr a, s') -> bind c k s = k a s'.
Proof. intros H. unfold bind. rewrite H. reflexivity. Qed.

Lemma bind_err {A B} (c : M A) (k : A -> M B) (s s' : instance) (e : exn) :
  c s = (inl e, s') -> bind c k s = (inl e, s').
Proof. intros H. unfold bind. rewrite H. reflexivity. Qed.

Lemma self_data_facade (p : value) (d : dict) :
  self_data (facade p d) = (inr d, facade p d).
Proof. reflexivity. Qed.

Lemma self_path_facade (p : value) (d : dict) :
  self_path (facade p d) = (inr p, facade p d).
Proof. reflexivity. Qed.

Lemma data_setitem_facade (p : value) (d : dict) (k : string) (v : value) :
  data_setitem k v (facade p d) = (inr tt, facade p (dict_set d k v)).
Proof. reflexivity. Qed.

Lemma store_items_facade (h : host) (mapping : dict) (p : value) (d : dict) :
  FrozenJSON.store_items h mapping (facade p d)
  = (inr tt, facade p (stored_from h mapping d)).
Proof.
  revert d. induction mapping as [|[k v] m IH]; intros d.
  - reflexivity.
  - cbn [FrozenJSON.store_items stored_from fold_left fst snd].
    rewrite (bind_ok _ _ _ _ _ (data_setitem_facade p d _ v)).
    apply IH.
Qed.

Lemma FrozenJSON_init_blank (h : host) (mapping : dict) :
  FrozenJSON.__init__ h object_setattr mapping []
  = (inr tt, facade VNone (stored h mapping)).
Proof.
  unfold FrozenJSON.__init__, bind at 1 2 3, object_setattr.
  cbn [dict_set String.eqb Ascii.eqb Bool.eqb]. 
  apply (store_items_facade h mapping VNone []).
Qed.

Lemma Config_init_facade (h : host) (mapping : dict) :
  FrozenJSON.__init__ h Config.__setattr__ mapping []
  = (inr tt, facade VNone (stored h mapping)).
Proof.
  unfold FrozenJSON.__init__, bind at 1 2 3, Config.__setattr__.
  cbn [String.prefix negb dict_set String.eqb Ascii.eqb Bool.eqb].
  apply (store_items_facade h mapping VNone []).
Qed.

Lemma stored_from_keys (h : host) (mapping d : dict) (k : string) :
  In k (dict_keys (stored_from h mapping d)) <->
  In k (dict_keys d) \/
  In k (map (FrozenJSON.stored_name h) (dict_keys mapping)).
Proof.
  revert d. induction mapping as [|[k0 v0] m IH]; intros d;
    cbn [stored_from fold_left dict_keys map fst snd In].
  - tauto.
  - fold (stored_from h m (dict_set d (FrozenJSON.stored_name h k0) v0)).
    rewrite IH, dict_keys_set. fold (dict_keys m). intuition.
Qed.

Lemma stored_from_NoDup (h : host) (mapping d : dict) :
  NoDup (dict_keys d) -> NoDup (dict_keys (stored_from h mapping d)).
Proof.
  revert d. induction mapping as [|[k0 v0] m IH]; intros d Hd;
    cbn [stored_from fold_left fst snd].
  - exact Hd.
  - apply IH. apply dict_keys_set_NoDup. exact Hd.
Qed.

Lemma stored_from_renamed (h : host) (mapping d : dict) :
  NoDup (dict_keys d ++ dict_keys (renamed h mapping)) ->
  stored_from h mapping d = d ++ renamed h mapping.
Proof.
  revert d. induction mapping as [|[k0 v0] m IH]; intros d Hnd;
    cbn [stored_from renamed fold_left map fst snd].
  - rewrite app_nil_r. reflexivity.
  - fold (stored_from h m (dict_set d (FrozenJSON.stored_name h k0) v0)).
    fold (renamed h m).
    cbn [renamed dict_keys map fst snd] in Hnd.
    fold (renamed h m) in Hnd. fold (dict_keys (renamed h m)) in Hnd.
    assert (Hfresh : ~ In (FrozenJSON.stored_name h k0) (dict_keys d)).
    { intros Hin. apply NoDup_remove_2 in Hnd. apply Hnd.
      apply in_or_app. left. exact Hin. }
    rewrite dict_set_fresh by exact Hfresh.
    rewrite IH.
    + rewrite <- app_assoc. reflexivity.
    + unfold dict_keys in *. rewrite map_app, <- app_assoc. exact Hnd.
Qed.

Lemma renamed_keys (h : host) (mapping : dict) :
  dict_keys (renamed h mapping)
  = map (FrozenJSON.stored_name h) (dict_keys mapping).
Proof.
  unfold dict_keys, renamed. rewrite !map_map. reflexivity.
Qed.

Lemma stored_renamed (h : host) (mapping : dict) :
  NoDup (map (FrozenJSON.stored_name h) (dict_keys mapping)) ->
  stored h mapping = renamed h mapping.
Proof.
  intros H. unfold stored. rewrite stored_from_renamed; [reflexivity|].
  cbn [dict_keys map app]. fold (dict_keys (renamed h mapping)).
  rewrite renamed_keys. exact H.
Qed.

Lemma renamed_no_keyword (h : host) (mapping : dict) :
  (forall k, In k (dict_keys mapping) -> iskeyword h k = false) ->
  renamed h mapping = mapping.
Proof.
  induction mapping as [|[k0 v0] m IH]; intros H;
    cbn [renamed map fst snd].
  - reflexivity.
  - fold (renamed h m). rewrite IH.
    + unfold FrozenJSON.stored_name. rewrite (H k0); [reflexivity|].
      left. reflexivity.
    + intros k Hk. apply H. right. exact Hk.
Qed.

Lemma stored_get (h : host) (mapping : dict) (k : string) (v : value) :
  NoDup (map (FrozenJSON.stored_name h) (dict_keys mapping)) ->
  In (k, v) mapping ->
  dict_get (stored h mapping) (FrozenJSON.stored_name h k) = Some v.
Proof.
  intros Hnd Hin. rewrite stored_renamed by exact Hnd.
  apply dict_get_In.
  - rewrite renamed_keys. exact Hnd.
  - unfold renamed.
    apply (in_map (fun kv => (FrozenJSON.stored_name h (fst kv), snd kv)))
      in Hin.
    exact Hin.
Qed.

(** A scalar, a list and a mapping under [FrozenJSON(arg)]. *)
Lemma new_scalar (h : host) (v : value) :
  is_scalar v = true -> FrozenJSON.__new__ h v = WRaw v.
Proof. destruct v; try reflexivity; discriminate. Qed.

Lemma new_mapping (h : host) (mapping : dict) :
  FrozenJSON.__new__ h (VDict mapping)
  = WFacade (facade VNone (stored h mapping)).
Proof.
  cbn [FrozenJSON.__new__]. rewrite FrozenJSON_init_blank. reflexivity.
Qed.

Lemma getattr_facade (h : host) (name : string) (p : value) (d : dict) :
  FrozenJSON.__getattr__ h name (facade p d)
  = (if dict_hasattr h name then inr (BoundDictMethod name d)
     else match dict_get d name with
          | Some v => inr (Wrapped (FrozenJSON.__new__ h v))
          | None => inl (KeyError (VStr name))
          end,
     facade p d).
Proof.
  unfold FrozenJSON.__getattr__.
  rewrite (bind_ok _ _ _ _ _ (self_data_facade p d)).
  destruct (dict_hasattr h name); [reflexivity|].
  destruct (dict_get d name); reflexivity.
Qed.

Lemma getitem_facade (key : string) (p : value) (d : dict) :
  FrozenJSON.__getitem__ key (facade p d)
  = (match dict_get d key with
     | Some VNone | None =>
         inl (ValueError missing_template
                [p; VStr key; VList (map VStr (dict_keys d))])
     | Some v => inr v
     end,
     facade p d).
Proof.
  unfold FrozenJSON.__getitem__.
  rewrite (bind_ok _ _ _ _ _ (self_data_facade p d)).
  destruct (dict_get d key) as [[]|]; reflexivity.
Qed.

(** Attribute access when normal lookup finds the name, and when it does
    not. *)
Lemma getattr_found (h : host) (o : object_model) (k : klass)
    (name : string) (s : instance) (f : found) :
  normal_lookup o k name s = Some f ->
  FrozenJSON.getattr h o k name s = (inr (Found f), s).
Proof. intros H. unfold FrozenJSON.getattr. rewrite H. reflexivity. Qed.

Lemma getattr_hook (h : host) (o : object_model) (k : klass)
    (name : string) (s : instance) :
  normal_lookup o k name s = None ->
  FrozenJSON.getattr h o k name s
  = match FrozenJSON.__getattr__ h name s with
    | (inr a, s') => (inr (FromHook a), s')
    | (inl e, s') => (inl e, s')
    end.
Proof.
  intros H. unfold FrozenJSON.getattr. rewrite H. unfold bind.
  destruct (FrozenJSON.__getattr__ h name s) as [[e|a] s']; reflexivity.
Qed.

Lemma getattr_hook_facade (h : host) (o : object_model) (k : klass)
    (name : string) (p : value) (d : dict) :
  normal_lookup o k name (facade p d) = None ->
  FrozenJSON.getattr h o k name (facade p d)
  = (if dict_hasattr h name then inr (FromHook (BoundDictMethod name d))
     else match dict_get d name with
          | Some v => inr (FromHook (Wrapped (FrozenJSON.__new__ h v)))
          | None => inl (KeyError (VStr name))
          end,
     facade p d).
Proof.
  intros H. rewrite (getattr_hook h o k name _ H), getattr_facade.
  destruct (dict_hasattr h name); [reflexivity|].
  destruct (dict_get d name); reflexivity.
Qed.

(** ** Attribute access and indexed lookup *)

(** C6.  Indexed lookup returns the stored value itself when the key is
    present with a value that is not [None]; otherwise, and only then, it
    raises the error that carries the source path, the key and the list of
    all stored keys. *)
Theorem getitem_raw_value_or_missing_key
    (self : instance) (d : dict) (p : value) (key : string) :
  dict_get self "_data" = Some (VDict d) ->
  dict_get self "_path_to_file" = Some p ->
  (forall v, dict_get d key = Some v -> v <> VNone ->
             FrozenJSON.__getitem__ key self = (inr v, self)) /\
  (dict_get d key = None \/ dict_get d key = Some VNone ->
   FrozenJSON.__getitem__ key self
   = (inl (ValueError missing_template
             [p; VStr key; VList (map VStr (dict_keys d))]), self)) /\
  (forall e self', FrozenJSON.__getitem__ key self = (inl e, self') ->
                   dict_get d key = None \/ dict_get d key = Some VNone).
Proof.
  intros Hd Hp.
  assert (E : FrozenJSON.__getitem__ key self
              = (match dict_get d key with
                 | Some VNone | None =>
                     inl (ValueError missing_template
                            [p; VStr key; VList (map VStr (dict_keys d))])
                 | Some v => inr v
                 end, self)).
  { unfold FrozenJSON.__getitem__, bind, self_data, self_path.
    rewrite Hd.
    destruct (dict_get d key) as [[]|]; cbn [is_None]; rewrite ?Hp;
      reflexivity. }
  rewrite E. split; [|split].
  - intros v -> Hv. destruct v; congruence.
  - intros [->| ->]; reflexivity.
  - intros e self' H.
    destruct (dict_get d key) as [[]|]; auto; discriminate.
Qed.

Lemma getitem_raw_value_or_missing_key_witness :
  FrozenJSON.__getitem__ "nChan" Example.loaded
  = (inr (VInt 10), Example.loaded) /\
  FrozenJSON.__getitem__ "filename" Example.loaded
  = (inl (ValueError missing_template
            [VStr "config.yaml"; VStr "filename";
             VList [VStr "nChan"; VStr "filename"]]), Example.loaded) /\
  FrozenJSON.__getitem__ "srate" Example.loaded
  = (inl (ValueError missing_template
            [VStr "config.yaml"; VStr "srate";
             VList [VStr "nChan"; VStr "filename"]]), Example.loaded).
Proof.
  split; [|split].
  - apply (getitem_raw_value_or_missing_key Example.loaded
             [("nChan", VInt 10); ("filename", VNone)] (VStr "config.yaml")
             "nChan" eq_refl eq_refl).
    + reflexivity.
    + discriminate.
  - apply (getitem_raw_value_or_missing_key Example.loaded
             [("nChan", VInt 10); ("filename", VNone)] (VStr "config.yaml")
             "filename" eq_refl eq_refl).
    right. reflexivity.
  - apply (getitem_raw_value_or_missing_key Example.loaded
             [("nChan", VInt 10); ("filename", VNone)] (VStr "config.yaml")
             "srate" eq_refl eq_refl).
    left. reflexivity.
Defined.

(** C9, as stated, fails: [_data] is neither an attribute of a dict nor a
    stored key, and attribute access returns the store, found in the
    instance dictionary before [__getattr__] is tried. *)
Lemma getattr_instance_attribute_found :
  dict_hasattr Example.host0 "_data" = false /\
  dict_get [("nChan", VInt 10); ("filename", VNone)] "_data" = None /\
  FrozenJSON.getattr Example.host0 Example.object_model0 KFrozenJSON "_data"
    Example.loaded
  = (inr (Found (InstanceAttribute
                   (VDict [("nChan", VInt 10); ("filename", VNone)]))),
     Example.loaded).
Proof. repeat split. Qed.

(** C9, amended.  For a name that normal lookup does not find on the object
    and that is neither an attribute of the store nor one of its keys,
    attribute access raises a [KeyError] that carries the name alone; no
    attribute access, of any name, raises the [ValueError] of indexed
    lookup. *)
Theorem getattr_unknown_name_plain_KeyError
    (h : host) (o : object_model) (k : klass) (self : instance) (d : dict)
    (name : string) :
  dict_get self "_data" = Some (VDict d) ->
  normal_lookup o k name self = None ->
  dict_hasattr h name = false ->
  dict_get d name = None ->
  FrozenJSON.getattr h o k name self = (inl (KeyError (VStr name)), self) /\
  (forall other template args self',
      FrozenJSON.getattr h o k other self
      <> (inl (ValueError template args), self')).
Proof.
  intros Hd Hnormal Hattr Hget.
  assert (E : forall n,
             FrozenJSON.__getattr__ h n self
             = (if dict_hasattr h n then inr (BoundDictMethod n d)
                else match dict_get d n with
                     | Some v => inr (Wrapped (FrozenJSON.__new__ h v))
                     | None => inl (KeyError (VStr n))
                     end, self)).
  { intros n. unfold FrozenJSON.__getattr__, bind, self_data. rewrite Hd.
    destruct (dict_hasattr h n); [reflexivity|].
    destruct (dict_get d n); reflexivity. }
  split.
  - rewrite (getattr_hook h o k name self Hnormal), E, Hattr, Hget.
    reflexivity.
  - intros other template args self'.
    destruct (normal_lookup o k other self) as [f|] eqn:Hother.
    + rewrite (getattr_found h o k other self f Hother). discriminate.
    + rewrite (getattr_hook h o k other self Hother), E.
      destruct (dict_hasattr h other); [discriminate|].
      destruct (dict_get d other); discriminate.
Qed.

Lemma getattr_unknown_name_plain_KeyError_witness :
  FrozenJSON.getattr Example.host0 Example.object_model0 KFrozenJSON "srate"
    Example.loaded
  = (inl (KeyError (VStr "srate")), Example.loaded).
Proof.
  apply (getattr_unknown_name_plain_KeyError Example.host0
           Example.object_model0 KFrozenJSON Example.loaded
           [("nChan", VInt 10); ("filename", VNone)] "srate"
           eq_refl eq_refl eq_refl eq_refl).
Defined.

(** ** Keys that are keywords *)

(** C3, as stated, fails: the key [class] is stored as [class_], and both
    lookups by the name [class] raise. *)
Lemma keyword_key_original_name_not_found :
  iskeyword Example.host0 "class" = true /\
  FrozenJSON.__new__ Example.host0 (VDict Example.keyword_mapping)
  = WFacade (facade VNone [("class_", VInt 1)]) /\
  FrozenJSON.__getitem__ "class" (facade VNone [("class_", VInt 1)])
  = (inl (ValueError missing_template
            [VNone; VStr "class"; VList [VStr "class_"]]),
     facade VNone [("class_", VInt 1)]) /\
  FrozenJSON.getattr Example.host0 Example.object_model0 KFrozenJSON "class"
    (facade VNone [("class_", VInt 1)])
  = (inl (KeyError (VStr "class")), facade VNone [("class_", VInt 1)]).
Proof. repeat split. Qed.

(** C3, amended.  In a mapping whose stored names are distinct, a key that is
    a keyword is stored under the key followed by an underscore.  Lookups by
    the stored name find the entry: indexed lookup returns its value, or
    raises the missing-key error when the value is [None], and attribute
    access returns the value wrapped.  Lookups by the key itself fail, when
    the key is not itself a keyword of the mapping followed by an underscore:
    indexed lookup raises the missing-key error and attribute access a
    [KeyError].  The statements on attribute access are for names that normal
    lookup does not find on the object and that are not attributes of a
    dict. *)
Theorem keyword_key_stored_with_suffix
    (h : host) (o : object_model) (mapping : dict) (key : string)
    (v : value) :
  iskeyword h key = true ->
  In (key, v) mapping ->
  NoDup (map (FrozenJSON.stored_name h) (dict_keys mapping)) ->
  (forall k, In k (dict_keys mapping) -> iskeyword h k = true ->
             key <> (k ++ "_")%string) ->
  let self := facade VNone (stored h mapping) in
  FrozenJSON.__new__ h (VDict mapping) = WFacade self /\
  dict_get (stored h mapping) (key ++ "_") = Some v /\
  (v <> VNone -> FrozenJSON.__getitem__ (key ++ "_") self = (inr v, self)) /\
  (v = VNone ->
   FrozenJSON.__getitem__ (key ++ "_") self
   = (inl (ValueError missing_template
             [VNone; VStr (key ++ "_");
              VList (map VStr (dict_keys (stored h mapping)))]), self)) /\
  (normal_lookup o KFrozenJSON (key ++ "_") self = None ->
   dict_hasattr h (key ++ "_") = false ->
   FrozenJSON.getattr h o KFrozenJSON (key ++ "_") self
   = (inr (FromHook (Wrapped (FrozenJSON.__new__ h v))), self)) /\
  FrozenJSON.__getitem__ key self
  = (inl (ValueError missing_template
            [VNone; VStr key;
             VList (map VStr (dict_keys (stored h mapping)))]), self) /\
  (normal_lookup o KFrozenJSON key self = None ->
   dict_hasattr h key = false ->
   FrozenJSON.getattr h o KFrozenJSON key self
   = (inl (KeyError (VStr key)), self)).
Proof.
  intros Hkw Hin Hnd Hsuffix self.
  assert (Hv : dict_get (stored h mapping) (key ++ "_") = Some v).
  { replace (key ++ "_")%string with (FrozenJSON.stored_name h key)
      by (unfold FrozenJSON.stored_name; rewrite Hkw; reflexivity).
    apply stored_get; assumption. }
  assert (Hnone : dict_get (stored h mapping) key = None).
  { apply dict_get_None. unfold stored. rewrite stored_from_keys.
    intros [[]|Hk]. apply in_map_iff in Hk. destruct Hk as (k & Hk & Hkin).
    unfold FrozenJSON.stored_name in Hk.
    destruct (iskeyword h k) eqn:Ek.
    - apply (Hsuffix k Hkin Ek). symmetry. exact Hk.
    - subst k. congruence. }
  split; [apply new_mapping|]. split; [exact Hv|].
  unfold self. split; [|split; [|split; [|split]]].
  - intros Hvn. rewrite getitem_facade, Hv. destruct v; congruence.
  - intros ->. rewrite getitem_facade, Hv. reflexivity.
  - intros Hn Ha. rewrite (getattr_hook_facade h o _ _ _ _ Hn), Ha, Hv.
    reflexivity.
  - rewrite getitem_facade, Hnone. reflexivity.
  - intros Hn Ha. rewrite (getattr_hook_facade h o _ _ _ _ Hn), Ha, Hnone.
    reflexivity.
Qed.

Lemma keyword_key_stored_with_suffix_witness :
  FrozenJSON.__getitem__ "class_"
    (facade VNone (stored Example.host0 Example.keyword_mapping))
  = (inr (VInt 1),
     facade VNone (stored Example.host0 Example.keyword_mapping)) /\
  FrozenJSON.getattr Example.host0 Example.object_model0 KFrozenJSON
    "class_" (facade VNone (stored Example.host0 Example.keyword_mapping))
  = (inr (FromHook (Wrapped (WRaw (VInt 1)))),
     facade VNone (stored Example.host0 Example.keyword_mapping)).
Proof.
  assert (Hsuffix : forall k, In k (dict_keys Example.keyword_mapping) ->
                              iskeyword Example.host0 k = true ->
                              "class" <> (k ++ "_")%string).
  { intros k [<-|[]] _. discriminate. }
  assert (Hnd : NoDup (map (FrozenJSON.stored_name Example.host0)
                         (dict_keys Example.keyword_mapping))).
  { constructor; [intros [] | constructor]. }
  destruct (keyword_key_stored_with_suffix Example.host0
              Example.object_model0 Example.keyword_mapping "class" (VInt 1)
              eq_refl (or_introl eq_refl) Hnd Hsuffix)
    as (_ & _ & Hitem & _ & Hattr & _).
  split.
  - apply Hitem. discriminate.
  - apply Hattr; reflexivity.
Defined.

(** ** Wrapping *)

Lemma keys_facade (h : host) (p : value) (d : dict) :
  dict_hasattr h "keys" = true ->
  FrozenJSON.keys h (facade p d) = (inr (dict_keys d), facade p d).
Proof.
  intros Hk. unfold FrozenJSON.keys.
  rewrite (bind_ok _ _ _ (facade p d) (BoundDictMethod "keys" d)).
  - reflexivity.
  - rewrite getattr_facade, Hk. reflexivity.
Qed.

(** C7, as stated, fails: the facade over a mapping with the key [class]
    has the key [class_] and not the key [class]. *)
Lemma facade_keys_differ_from_mapping_keys :
  exists self ks,
    FrozenJSON.__new__ Example.host0 (VDict Example.keyword_mapping)
    = WFacade self /\
    FrozenJSON.keys Example.host0 self = (inr ks, self) /\
    ~ (forall k, In k ks <-> In k (dict_keys Example.keyword_mapping)).
Proof.
  exists (facade VNone [("class_", VInt 1)]), ["class_"].
  split; [reflexivity|]. split; [reflexivity|].
  intros H. destruct (proj2 (H "class")) as [E|[]].
  - left. reflexivity.
  - discriminate E.
Qed.

(** C7, amended.  A mapping is wrapped into a facade whose [keys()] are the
    names the keys of the mapping are stored under, each once; they are the
    keys of the mapping when none of them is a keyword.  A list is wrapped
    into the list of its wrapped elements, in order.  Any other value is
    returned as it is. *)
Theorem wrap_by_shape (h : host) :
  dict_hasattr h "keys" = true ->
  (forall mapping,
      exists self ks,
        FrozenJSON.__new__ h (VDict mapping) = WFacade self /\
        FrozenJSON.keys h self = (inr ks, self) /\
        NoDup ks /\
        (forall k, In k ks <->
                   In k (map (FrozenJSON.stored_name h) (dict_keys mapping))) /\
        ((forall k, In k (dict_keys mapping) -> iskeyword h k = false) ->
         forall k, In k ks <-> In k (dict_keys mapping))) /\
  (forall l,
      FrozenJSON.__new__ h (VList l) = WList (map (FrozenJSON.__new__ h) l) /\
      List.length (map (FrozenJSON.__new__ h) l) = List.length l /\
      (forall i v, nth_error l i = Some v ->
                   nth_error (map (FrozenJSON.__new__ h) l) i
                   = Some (FrozenJSON.__new__ h v))) /\
  (forall v, is_scalar v = true -> FrozenJSON.__new__ h v = WRaw v).
Proof.
  intros Hkeys. split; [|split].
  - intros mapping.
    exists (facade VNone (stored h mapping)), (dict_keys (stored h mapping)).
    split; [apply new_mapping|].
    split; [apply keys_facade; exact Hkeys|].
    assert (Hiff : forall k,
               In k (dict_keys (stored h mapping)) <->
               In k (map (FrozenJSON.stored_name h) (dict_keys mapping))).
    { intros k. unfold stored. rewrite stored_from_keys.
      cbn [dict_keys map In]. tauto. }
    split; [|split].
    + unfold stored. apply stored_from_NoDup. constructor.
    + exact Hiff.
    + intros Hnokw k. rewrite Hiff. rewrite <- renamed_keys.
      rewrite renamed_no_keyword by exact Hnokw. tauto.
  - intros l. split; [reflexivity|]. split; [apply List.length_map|].
    intros i v Hi. apply map_nth_error. exact Hi.
  - intros v. apply new_scalar.
Qed.

Lemma wrap_by_shape_witness :
  FrozenJSON.__new__ Example.host0 (VInt 7) = WRaw (VInt 7).
Proof.
  destruct (wrap_by_shape Example.host0 eq_refl) as (_ & _ & H).
  apply H. reflexivity.
Defined.

(** ** The immutability guard *)

(** C4, as stated, fails: the error raised for the field [nChan] has a
    message that does not contain [nChan], and it is the very error raised
    for the field [srate]. *)
Lemma setattr_error_does_not_name_the_field :
  exists msg,
    Config.__setattr__ "nChan" (VInt 1) Example.loaded
    = (inl (AttributeError msg), Example.loaded) /\
    contains "nChan" msg = false /\
    Config.__setattr__ "srate" (VInt 1) Example.loaded
    = (inl (AttributeError msg), Example.loaded).
Proof. exists Config.immutable_msg. repeat split. Qed.

(** C4, amended.  Setting a field whose name does not start with an
    underscore raises [AttributeError] with one fixed message; setting a
    field whose name starts with an underscore succeeds: the field then has
    the new value and every other field is as before. *)
Theorem setattr_guard (name : string) (v : value) (self : instance) :
  (String.prefix "_" name = false ->
   Config.__setattr__ name v self
   = (inl (AttributeError Config.immutable_msg), self)) /\
  (String.prefix "_" name = true ->
   exists self',
     Config.__setattr__ name v self = (inr tt, self') /\
     dict_get self' name = Some v /\
     (forall other, other <> name -> dict_get self' other = dict_get self other)).
Proof.
  unfold Config.__setattr__. split; intros H; rewrite H; cbn [negb].
  - reflexivity.
  - exists (dict_set self name v). split; [reflexivity|].
    split; [apply dict_get_set_same|].
    intros other Hne. rewrite dict_get_set.
    destruct (String.eqb_spec name other); [congruence | reflexivity].
Qed.

Lemma setattr_guard_witness :
  Config.__setattr__ "batch_size" (VInt 1) Example.loaded
  = (inl (AttributeError Config.immutable_msg), Example.loaded) /\
  exists self',
    Config.__setattr__ "_path_to_file" (VStr "other.yaml") Example.loaded
    = (inr tt, self') /\
    dict_get self' "_path_to_file" = Some (VStr "other.yaml") /\
    (forall other, other <> "_path_to_file" ->
                   dict_get self' other = dict_get Example.loaded other).
Proof.
  split.
  - apply (proj1 (setattr_guard "batch_size" (VInt 1) Example.loaded)).
    reflexivity.
  - apply (proj2 (setattr_guard "_path_to_file" (VStr "other.yaml")
                    Example.loaded)).
    reflexivity.
Defined.

(** C10.  A write that [__setattr__] rejects leaves the object as it was:
    the store and every other field are unchanged. *)
Theorem rejected_write_changes_nothing
    (name : string) (v : value) (self self' : instance) (e : exn) :
  Config.__setattr__ name v self = (inl e, self') ->
  self' = self /\
  self_data self' = self_data self /\
  String.prefix "_" name = false.
Proof.
  unfold Config.__setattr__.
  destruct (String.prefix "_" name); cbn [negb]; intros H.
  - discriminate H.
  - injection H as _ <-. repeat split.
Qed.

Lemma rejected_write_changes_nothing_witness :
  Example.loaded = Example.loaded /\
  self_data Example.loaded = self_data Example.loaded /\
  String.prefix "_" "nChan" = false.
Proof.
  apply (rejected_write_changes_nothing "nChan" (VInt 64) Example.loaded
           Example.loaded (AttributeError Config.immutable_msg)).
  reflexivity.
Defined.

Lemma set_logger_facade (p : value) (d : dict) :
  Config.__setattr__ "_logger" logger (facade p d) = (inr tt, facade p d).
Proof. reflexivity. Qed.

(** ** Validation *)

Lemma value_in_spec (v : value) (valid_values : list string) :
  Config.value_in v valid_values = true <->
  exists s, v = VStr s /\ In s valid_values.
Proof.
  unfold Config.value_in. split.
  - destruct v; try discriminate. intros H.
    apply existsb_exists in H. destruct H as (x & Hx & E).
    apply String.eqb_eq in E. subst x. eauto.
  - intros (s & -> & Hs). apply existsb_exists.
    exists s. split; [exact Hs | apply String.eqb_refl].
Qed.

Lemma validate_items_ok (h : host) (items : dict) :
  (forall kv, In kv items -> ~ violates h kv) ->
  Config.validate_items h items = inr tt.
Proof.
  induction items as [|[key v] rest IH]; intros H;
    cbn [Config.validate_items].
  - reflexivity.
  - assert (IH' : Config.validate_items h rest = inr tt).
    { apply IH. intros kv Hkv. apply H. right. exact Hkv. }
    destruct (Config.validator_get (validator h) key) as [[|x vs]|] eqn:Ev;
      try exact IH'.
    destruct (Config.value_in v (x :: vs)) eqn:Ein; cbn [negb];
      [exact IH'|].
    exfalso. apply (H (key, v)); [left; reflexivity|].
    exists (x :: vs). cbn [fst snd]. split; [exact Ev|].
    split; [discriminate|].
    intros Hp. apply value_in_spec in Hp. congruence.
Qed.

Lemma validate_items_violation (h : host) (items : dict) :
  (exists kv, In kv items /\ violates h kv) ->
  exists key v valid_values pretty,
    In (key, v) items /\ violates h (key, v) /\
    Config.validator_get (validator h) key = Some valid_values /\
    Config._pretty_iterator valid_values = inr pretty /\
    Config.validate_items h items
    = inl (ValueError Config.invalid_template [v; VStr key; VStr pretty]).
Proof.
  induction items as [|[key v] rest IH]; intros (kv & Hin & Hviol).
  - destruct Hin.
  - cbn [Config.validate_items].
    assert (Hrest : (exists kv, In kv rest /\ violates h kv) ->
                    exists key' v' valid_values pretty,
                      In (key', v') ((key, v) :: rest) /\
                      violates h (key', v') /\
                      Config.validator_get (validator h) key'
                      = Some valid_values /\
                      Config._pretty_iterator valid_values = inr pretty /\
                      Config.validate_items h rest
                      = inl (ValueError Config.invalid_template
                               [v'; VStr key'; VStr pretty])).
    { intros Hex. destruct (IH Hex) as (k' & v' & vs' & pr & H1 & H2).
      exists k', v', vs', pr. split; [right; exact H1 | exact H2]. }
    assert (Hhead : ~ violates h (key, v) ->
                    exists kv, In kv rest /\ violates h kv).
    { intros Hnot. destruct Hin as [<-|Hin]; [contradiction|].
      exists kv. split; assumption. }
    destruct (Config.validator_get (validator h) key) as [[|x vs]|] eqn:Ev.
    + apply Hrest, Hhead. intros (vs' & E & Hne & _).
      cbn [fst] in E. congruence.
    + destruct (Config.value_in v (x :: vs)) eqn:Ein; cbn [negb].
      * apply Hrest, Hhead. intros (vs' & E & _ & Hnp).
        cbn [fst snd] in E, Hnp. rewrite Ev in E. injection E as <-.
        apply Hnp. apply value_in_spec. exact Ein.
      * exists key, v, (x :: vs),
          (fold_left (fun x y => (x ++ ", " ++ y)%string) vs x).
        split; [left; reflexivity|].
        split.
        { exists (x :: vs). cbn [fst snd]. split; [exact Ev|].
          split; [discriminate|].
          intros Hp. apply value_in_spec in Hp. congruence. }
        split; [exact Ev|]. split; reflexivity.
    + apply Hrest, Hhead. intros (vs' & E & _). cbn [fst] in E. congruence.
Qed.

(** C5.  When an entry of the input is rejected by the schema, construction
    raises the [ValueError] that carries a rejected value, its key and the
    joined permitted values, and it does so on the blank object: no
    attribute, and so no store and no derived field, was set.  When no entry
    is rejected, validation returns normally and changes nothing. *)
Theorem schema_violation_aborts_construction (h : host) (mapping : dict) :
  ((exists kv, In kv mapping /\ violates h kv) ->
   exists key v valid_values pretty,
     In (key, v) mapping /\ violates h (key, v) /\
     Config.validator_get (validator h) key = Some valid_values /\
     Config._pretty_iterator valid_values = inr pretty /\
     Config.__init__ h mapping []
     = (inl (ValueError Config.invalid_template [v; VStr key; VStr pretty]),
        []) /\
     Config.new h mapping
     = inl (ValueError Config.invalid_template [v; VStr key; VStr pretty])) /\
  ((forall kv, In kv mapping -> ~ violates h kv) ->
   forall self, Config._validate h mapping self = (inr tt, self)).
Proof.
  split.
  - intros Hex.
    destruct (validate_items_violation h mapping Hex)
      as (key & v & vs & pretty & Hin & Hviol & Hget & Hpretty & Hval).
    exists key, v, vs, pretty.
    repeat (split; [assumption|]).
    assert (E : Config.__init__ h mapping []
                = (inl (ValueError Config.invalid_template
                          [v; VStr key; VStr pretty]), [])).
    { unfold Config.__init__. apply bind_err.
      unfold Config._validate, lift. rewrite Hval. reflexivity. }
    split; [exact E|]. unfold Config.new. rewrite E. reflexivity.
  - intros Hok self. unfold Config._validate, lift.
    rewrite validate_items_ok by exact Hok. reflexivity.
Qed.

Lemma schema_violation_aborts_construction_witness :
  exists key v pretty,
    Config.new Example.host0
      (("dtype", VStr "float32") :: Example.params 10000 (VInt 1))
    = inl (ValueError Config.invalid_template [v; VStr key; VStr pretty]).
Proof.
  destruct (schema_violation_aborts_construction Example.host0
              (("dtype", VStr "float32") :: Example.params 10000 (VInt 1)))
    as [H _].
  destruct H as (key & v & vs & pretty & _ & _ & _ & _ & _ & Hnew).
  - exists ("dtype", VStr "float32"). split; [left; reflexivity|].
    exists ["int16"; "uint16"; "single"; "double"].
    split; [reflexivity|]. split; [discriminate|].
    intros (s & E & Hs). cbn [snd] in E. injection E as <-.
    cbn [In] in Hs.
    repeat (destruct Hs as [Hs|Hs]; [discriminate Hs|]). exact Hs.
  - exists key, v, pretty. exact Hnew.
Defined.

(** ** The derivation only appends *)

Lemma pure_ret {A} (a : A) : pure (ret a).
Proof. intros s. reflexivity. Qed.

Lemma pure_lift {A} (r : result A) : pure (lift r).
Proof. intros s. reflexivity. Qed.

Lemma pure_bind {A B} (c : M A) (k : A -> M B) :
  pure c -> (forall a, pure (k a)) -> pure (bind c k).
Proof.
  intros Hc Hk s. unfold bind. specialize (Hc s).
  destruct (c s) as [[e|a] s1]; cbn [snd] in *; subst s1.
  - reflexivity.
  - apply Hk.
Qed.

Lemma pure_self_data : pure self_data.
Proof.
  intros s. unfold self_data.
  destruct (dict_get s "_data") as [[]|]; reflexivity.
Qed.

Lemma pure_getattr (h : host) (name : string) :
  pure (FrozenJSON.__getattr__ h name).
Proof.
  unfold FrozenJSON.__getattr__. apply pure_bind; [apply pure_self_data|].
  intros d s. destruct (dict_hasattr h name); [reflexivity|].
  destruct (dict_get d name); reflexivity.
Qed.

Lemma pure_attr (h : host) (name : string) : pure (Config.attr h name).
Proof. apply pure_getattr. Qed.

Lemma pure_num_attr (h : host) (name : string) :
  pure (Config.num_attr h name).
Proof.
  unfold Config.num_attr. apply pure_bind; [apply pure_attr|].
  intros a. apply pure_lift.
Qed.

Lemma appends_set_param (k : string) (v : value) :
  appends [k] (Config._set_param k v).
Proof.
  intros p d r s' Hfresh Hrun.
  unfold Config._set_param in Hrun. rewrite data_setitem_facade in Hrun.
  injection Hrun as <- <-.
  exists [(k, v)]. split.
  - rewrite dict_set_fresh; [reflexivity|]. apply Hfresh. left. reflexivity.
  - split; [exists []; reflexivity | reflexivity].
Qed.

Lemma appends_bind {A B} (n1 n2 : list string) (c : M A) (k : A -> M B) :
  appends n1 c -> (forall a, appends n2 (k a)) ->
  (forall x, In x n1 -> ~ In x n2) ->
  appends (n1 ++ n2) (bind c k).
Proof.
  intros Hc Hk Hdisj p d r s' Hfresh Hrun. unfold bind in Hrun.
  destruct (c (facade p d)) as [[e|a] s1] eqn:Ec.
  - injection Hrun as <- <-.
    destruct (Hc p d (inl e) s1) as (l & -> & (r0 & Hpre) & _);
      [|exact Ec|].
    + intros x Hx. apply Hfresh. apply in_or_app. left. exact Hx.
    + exists l. split; [reflexivity|]. split; [|discriminate].
      exists (r0 ++ n2). rewrite Hpre, app_assoc. reflexivity.
  - destruct (Hc p d (inr a) s1) as (l1 & -> & _ & Hall); [|exact Ec|].
    + intros x Hx. apply Hfresh. apply in_or_app. left. exact Hx.
    + specialize (Hall a eq_refl).
      destruct (Hk a p (d ++ l1) r s') as (l2 & -> & (r0 & Hpre) & Hall2);
        [|exact Hrun|].
      * intros x Hx. unfold dict_keys. rewrite map_app, Hall.
        intros Hin. apply in_app_or in Hin. destruct Hin as [Hin|Hin].
        -- apply (Hfresh x); [apply in_or_app; right; exact Hx | exact Hin].
        -- exact (Hdisj x Hin Hx).
      * exists (l1 ++ l2). rewrite app_assoc. split; [reflexivity|].
        rewrite map_app, Hall. split.
        -- exists r0. rewrite Hpre, app_assoc. reflexivity.
        -- intros b Hb. rewrite (Hall2 b Hb). reflexivity.
Qed.

Lemma appends_pure {A} (c : M A) : pure c -> appends [] c.
Proof.
  intros Hc p d r s' _ Hrun. exists [].
  specialize (Hc (facade p d)). rewrite Hrun in Hc. cbn [snd] in Hc.
  rewrite app_nil_r. split; [exact Hc|].
  split; [exists []; reflexivity | reflexivity].
Qed.

Lemma appends_bind_read {A B} (names : list string) (c : M A) (k : A -> M B) :
  pure c -> (forall a, appends names (k a)) -> appends names (bind c k).
Proof.
  intros Hc Hk.
  apply (appends_bind [] names c k (appends_pure c Hc) Hk).
  intros x [].
Qed.

Lemma appends_bind_write {B} (name : string) (names : list string)
    (v : value) (k : unit -> M B) :
  ~ In name names -> (forall a, appends names (k a)) ->
  appends (name :: names) (bind (Config._set_param name v) k).
Proof.
  intros Hnot Hk.
  apply (appends_bind [name] names _ k (appends_set_param name v) Hk).
  intros x [<-|[]]. exact Hnot.
Qed.

Ltac not_in_names :=
  cbn [In]; intros Hin;
  repeat (destruct Hin as [Hin|Hin]; [discriminate Hin|]); exact Hin.

Ltac pure_step :=
  first [ apply pure_attr | apply pure_num_attr | apply pure_lift
        | apply pure_ret ].

Ltac appends_step :=
  lazymatch goal with
  | |- appends _ (bind (Config._set_param _ _) _) =>
      apply appends_bind_write; [not_in_names | intros ?]
  | |- appends _ (bind (Config.set_num _ _) _) =>
      unfold Config.set_num at 1;
      apply appends_bind_write; [not_in_names | intros ?]
  | |- appends _ (bind _ _) =>
      apply appends_bind_read; [pure_step | intros ?]
  | |- appends [_] (Config._set_param _ _) => apply appends_set_param
  | |- appends [_] (Config.set_num _ _) =>
      unfold Config.set_num; apply appends_set_param
  | |- appends _ (if ?c then _ else _) => destruct c
  end.

Lemma geometry_parameters_appends (h : host) :
  appends ["geom"; "neighChannels"; "channelGroups"]
    (Config.geometry_parameters h).
Proof. unfold Config.geometry_parameters. repeat appends_step. Qed.

Lemma spike_size_parameters_appends (h : host) :
  appends ["spikeSize"; "scaleToSave"; "BUFF"; "templatesMaxShift";
           "stdFactor"; "size"]
    (Config.spike_size_parameters h).
Proof. unfold Config.spike_size_parameters. repeat appends_step. Qed.

Lemma batch_parameters_appends (h : host) :
  appends ["dsize"; "nBatches"; "batch_size"; "residual"; "nPortion"]
    (Config.batch_parameters h).
Proof. unfold Config.batch_parameters. repeat appends_step. Qed.

Lemma derivation_appends (h : host) :
  appends derived_names
    (Config.geometry_parameters h ;;
     Config.spike_size_parameters h ;;
     Config.batch_parameters h).
Proof.
  apply (appends_bind ["geom"; "neighChannels"; "channelGroups"]
           ["spikeSize"; "scaleToSave"; "BUFF"; "templatesMaxShift";
            "stdFactor"; "size"; "dsize"; "nBatches"; "batch_size";
            "residual"; "nPortion"]).
  - apply geometry_parameters_appends.
  - intros _.
    apply (appends_bind ["spikeSize"; "scaleToSave"; "BUFF";
                         "templatesMaxShift"; "stdFactor"; "size"]
             ["dsize"; "nBatches"; "batch_size"; "residual"; "nPortion"]).
    + apply spike_size_parameters_appends.
    + intros _. apply batch_parameters_appends.
    + intros x Hx. cbn [In] in Hx.
      repeat (destruct Hx as [<-|Hx]; [not_in_names|]). destruct Hx.
  - intros x Hx. cbn [In] in Hx.
    repeat (destruct Hx as [<-|Hx]; [not_in_names|]). destruct Hx.
Qed.

Lemma dict_get_app (d l : dict) (k : string) :
  dict_get (d ++ l) k
  = match dict_get d k with Some v => Some v | None => dict_get l k end.
Proof.
  induction d as [|[k0 v0] d IH]; cbn [app dict_get].
  - reflexivity.
  - destruct (String.eqb k0 k); [reflexivity | exact IH].
Qed.

Lemma derived_names_NoDup : NoDup derived_names.
Proof.
  unfold derived_names.
  repeat (constructor; [not_in_names|]). constructor.
Qed.

Lemma NoDup_prefix {A} (l1 l2 : list A) :
  is_prefix l1 l2 -> NoDup l2 -> NoDup l1.
Proof.
  intros (r & ->) H. induction l1 as [|a l1 IH]; [constructor|].
  cbn [app] in H. inversion H as [|? ? Hnot Hnd]; subst.
  constructor.
  - intros Hin. apply Hnot. apply in_or_app. left. exact Hin.
  - apply IH. exact Hnd.
Qed.

Lemma NoDup_disjoint_app {A} (l1 l2 : list A) :
  NoDup l1 -> NoDup l2 -> (forall x, In x l2 -> ~ In x l1) -> NoDup (l1 ++ l2).
Proof.
  intros H1 H2 Hd. induction l1 as [|a l1 IH]; cbn [app]; [exact H2|].
  inversion H1 as [|? ? Hnot Hnd]; subst. constructor.
  - intros Hin. apply in_app_or in Hin. destruct Hin as [Hin|Hin].
    + exact (Hnot Hin).
    + apply (Hd a Hin). left. reflexivity.
  - apply IH; [exact Hnd|]. intros x Hx Hin. apply (Hd x Hx). right. exact Hin.
Qed.

(** C8, as stated, fails: the input key [scaleToSave] is overwritten by the
    derivation. *)
Lemma derivation_overwrites_input_key :
  exists store,
    Config.new (Example.with_file 24000) Example.overriding
    = inr (facade VNone store) /\
    dict_get (stored (Example.with_file 24000) Example.overriding)
      "scaleToSave" = Some (VInt 5) /\
    dict_get store "scaleToSave" = Some (VInt 100).
Proof.
  eexists. split; [vm_compute; reflexivity|]. split; reflexivity.
Qed.

(** C8, amended.  When no key of the input is stored under the name of a
    derived field, construction either stops in validation, on the blank
    object, or leaves the store of the input followed by new entries: their
    keys are the first derived names, in order, all of them when
    construction succeeds; no key occurs twice, and every entry of the input
    keeps its value. *)
Theorem derivation_appends_new_keys
    (h : host) (mapping : dict) (r : result unit) (self : instance) :
  (forall k, In k (dict_keys mapping) ->
             ~ In (FrozenJSON.stored_name h k) derived_names) ->
  Config.__init__ h mapping [] = (r, self) ->
  self = [] \/
  exists l,
    self = facade VNone (stored h mapping ++ l) /\
    is_prefix (map fst l) derived_names /\
    (forall a, r = inr a -> map fst l = derived_names) /\
    NoDup (dict_keys (stored h mapping ++ l)) /\
    (forall k v, dict_get (stored h mapping) k = Some v ->
                 dict_get (stored h mapping ++ l) k = Some v).
Proof.
  intros Hfresh Hrun.
  unfold Config.__init__ in Hrun. unfold bind at 1 in Hrun.
  unfold Config._validate, lift in Hrun.
  destruct (Config.validate_items h mapping) as [e|[]].
  - left. injection Hrun as _ <-. reflexivity.
  - right. rewrite (bind_ok _ _ _ _ _ (Config_init_facade h mapping)) in Hrun.
    rewrite (bind_ok _ _ _ _ _ (set_logger_facade VNone _)) in Hrun.
    assert (Hnew : forall k, In k derived_names ->
                             ~ In k (dict_keys (stored h mapping))).
    { intros k Hk Hin. unfold stored in Hin. rewrite stored_from_keys in Hin.
      destruct Hin as [[]|Hin]. apply in_map_iff in Hin.
      destruct Hin as (k0 & <- & Hk0). exact (Hfresh k0 Hk0 Hk). }
    destruct (derivation_appends h VNone (stored h mapping) r self Hnew Hrun)
      as (l & -> & Hpre & Hall).
    exists l. split; [reflexivity|]. split; [exact Hpre|].
    split; [exact Hall|]. split.
    + unfold dict_keys. rewrite map_app. apply NoDup_disjoint_app.
      * apply (stored_from_NoDup h mapping []). constructor.
      * apply (NoDup_prefix _ _ Hpre derived_names_NoDup).
      * intros x Hx. apply Hnew. destruct Hpre as (r0 & ->).
        apply in_or_app. left. exact Hx.
    + intros k v Hk. rewrite dict_get_app, Hk. reflexivity.
Qed.

Lemma derivation_appends_new_keys_witness :
  exists l,
    facade VNone
      (stored (Example.with_file 24000)
         (Example.params 10000 (VFloat Example.half)) ++ l)
    = snd (Config.__init__ (Example.with_file 24000)
             (Example.params 10000 (VFloat Example.half)) []) /\
    map fst l = derived_names.
Proof.
  destruct (derivation_appends_new_keys (Example.with_file 24000)
              (Example.params 10000 (VFloat Example.half)) (inr tt)
              (snd (Config.__init__ (Example.with_file 24000)
                      (Example.params 10000 (VFloat Example.half)) [])))
    as [E|(l & E & _ & Hall & _)].
  - intros k Hk. cbn [Example.params dict_keys map fst In] in Hk.
    repeat (destruct Hk as [<-|Hk]; [not_in_names|]). destruct Hk.
  - vm_compute. reflexivity.
  - vm_compute in E. discriminate E.
  - exists l. split; [symmetry; exact E | exact (Hall tt eq_refl)].
Defined.

(** ** The batch plan *)

Lemma bind_lift {A B} (r : result A) (k : A -> M B) (s : instance) :
  bind (lift r) k s
  = match r with inr a => k a s | inl e => (inl e, s) end.
Proof. unfold bind, lift. destruct r; reflexivity. Qed.

Lemma attr_facade (h : host) (name : string) (p : value) (d : dict) (v : value) :
  dict_hasattr h name = false -> dict_get d name = Some v ->
  Config.attr h name (facade p d)
  = (inr (Wrapped (FrozenJSON.__new__ h v)), facade p d).
Proof.
  intros Ha Hv. unfold Config.attr. rewrite getattr_facade, Ha, Hv.
  reflexivity.
Qed.

Lemma num_attr_facade (h : host) (name : string) (p : value) (d : dict)
    (x : num) :
  dict_hasattr h name = false -> dict_get d name = Some (of_num x) ->
  Config.num_attr h name (facade p d) = (inr x, facade p d).
Proof.
  intros Ha Hv. unfold Config.num_attr.
  rewrite (bind_ok _ _ _ _ _ (attr_facade h name p d _ Ha Hv)).
  destruct x; reflexivity.
Qed.

Lemma int_attr_facade (h : host) (name : string) (p : value) (d : dict)
    (z : Z) :
  dict_hasattr h name = false -> dict_get d name = Some (VInt z) ->
  Config.num_attr h name (facade p d) = (inr (NInt z), facade p d).
Proof. apply (num_attr_facade h name p d (NInt z)). Qed.

Lemma binary_of_num (h : host) (op : num -> num -> result num) (x y : num) :
  binary op (Wrapped (FrozenJSON.__new__ h (of_num x)))
    (Wrapped (FrozenJSON.__new__ h (of_num y)))
  = op x y.
Proof. destruct x, y; reflexivity. Qed.

Lemma set_num_facade (name : string) (x : num) (p : value) (d : dict) :
  Config.set_num name x (facade p d)
  = (inr tt, facade p (dict_set d name (of_num x))).
Proof. reflexivity. Qed.

Lemma set_param_facade (name : string) (v : value) (p : value) (d : dict) :
  Config._set_param name v (facade p d)
  = (inr tt, facade p (dict_set d name v)).
Proof. reflexivity. Qed.

Lemma no_dict_attr_In (h : host) (names : list string) (name : string) :
  no_dict_attr h names = true -> In name names -> dict_hasattr h name = false.
Proof.
  unfold no_dict_attr. intros H Hin.
  rewrite forallb_forall in H. specialize (H name Hin).
  destruct (dict_hasattr h name); [discriminate | reflexivity].
Qed.

Ltac lookup :=
  rewrite ?dict_get_set; cbn [String.eqb Ascii.eqb Bool.eqb];
  first [eassumption | reflexivity].

Ltac read_int Hattr :=
  erewrite bind_ok;
  [| apply int_attr_facade;
     [apply Hattr; cbn [batch_attributes In]; tauto | lookup]].

Ltac read_attr Hattr :=
  erewrite bind_ok;
  [| apply attr_facade;
     [apply Hattr; cbn [batch_attributes In]; tauto | lookup]].

Ltac write_num := rewrite (bind_ok _ _ _ _ _ (set_num_facade _ _ _ _)).

Lemma batch_parameters_single
    (h : host) (p : value) (d : dict) (t : string) (M c b n : Z) :
  no_dict_attr h batch_attributes = true ->
  dict_get d "dtype" = Some (VStr t) -> SIZE_get SIZE_ t = Some b ->
  dict_get d "maxMem" = Some (VInt M) ->
  dict_get d "nChan" = Some (VInt c) ->
  dict_get d "size" = Some (VInt n) ->
  0 <= M < 2 ^ 53 -> 0 < c * b < 2 ^ 53 ->
  M / (c * b) > n ->
  Config.batch_parameters h (facade p d)
  = (inr tt,
     facade p
       (dict_set (dict_set (dict_set (dict_set (dict_set d
          "dsize" (VInt b)) "nBatches" (VInt 1)) "batch_size" (VInt n))
          "residual" (VInt 0)) "nPortion" (VInt 1))).
Proof.
  intros Hno Hdtype Hsize HM Hc Hn HMr Hcb Hgt.
  pose proof (no_dict_attr_In h batch_attributes) as Hattr.
  specialize (fun name => Hattr name Hno).
  destruct (floor_truediv_int M (c * b) HMr Hcb)
    as (f & g & Hdiv & _ & Hfloor & Hint).
  unfold Config.batch_parameters.
  read_attr Hattr. cbn [FrozenJSON.__new__].
  rewrite bind_lift. cbn [sizeof]. rewrite Hsize.
  write_num.
  read_attr Hattr. read_attr Hattr. read_attr Hattr.
  cbn [FrozenJSON.__new__ of_num].
  rewrite bind_lift. cbn [binary as_num py_mul].
  rewrite bind_lift. cbn [as_num].
  rewrite bind_lift, Hdiv.
  rewrite bind_lift, Hfloor.
  rewrite bind_lift, Hint.
  read_int Hattr.
  rewrite bind_lift. cbn [py_gt].
  replace (M / (c * b) >? n) with true by (symmetry; apply Z.gtb_lt; lia).
  write_num.
  read_attr Hattr. cbn [FrozenJSON.__new__].
  rewrite bind_lift. cbn [as_value].
  rewrite (bind_ok _ _ _ _ _ (set_param_facade _ _ _ _)).
  write_num.
  reflexivity.
Qed.

Lemma batch_parameters_multi
    (h : host) (p : value) (d : dict) (t : string) (M c b n : Z)
    (pd x : num) :
  no_dict_attr h batch_attributes = true ->
  dict_get d "dtype" = Some (VStr t) -> SIZE_get SIZE_ t = Some b ->
  dict_get d "maxMem" = Some (VInt M) ->
  dict_get d "nChan" = Some (VInt c) ->
  dict_get d "size" = Some (VInt n) ->
  dict_get d "partialDat" = Some (of_num pd) ->
  0 <= M < 2 ^ 53 -> 0 < c * b < 2 ^ 53 -> n < 2 ^ 53 ->
  0 < M / (c * b) <= n ->
  ceil_of_product pd (ceil_div n (M / (c * b))) = inr x ->
  Config.batch_parameters h (facade p d)
  = (inr tt,
     facade p
       (dict_set (dict_set (dict_set (dict_set (dict_set d
          "dsize" (VInt b))
          "nBatches" (VInt (ceil_div n (M / (c * b)))))
          "batch_size" (VInt (M / (c * b))))
          "residual" (VInt (n mod (M / (c * b)))))
          "nPortion" (of_num x))).
Proof.
  intros Hno Hdtype Hsize HM Hc Hn Hpd HMr Hcb Hnr Hmx Hprod.
  pose proof (no_dict_attr_In h batch_attributes) as Hattr.
  specialize (fun name => Hattr name Hno).
  destruct (floor_truediv_int M (c * b) HMr Hcb)
    as (f & g & Hdiv & _ & Hfloor & Hint).
  assert (Hmx53 : M / (c * b) < 2 ^ 53) by lia.
  destruct (ceil_truediv_float n (M / (c * b)) ltac:(lia) ltac:(lia))
    as (fn & q & cq & Hfloat & Hq & Hceil & Hcint).
  unfold ceil_of_product in Hprod.
  destruct (py_mul pd (NInt (ceil_div n (M / (c * b))))) as [e|y] eqn:Hmul;
    [discriminate Hprod|].
  remember (M / (c * b)) as mx eqn:Emx.
  unfold Config.batch_parameters.
  read_attr Hattr. cbn [FrozenJSON.__new__].
  rewrite bind_lift. cbn [sizeof]. rewrite Hsize.
  write_num.
  read_attr Hattr. read_attr Hattr. read_attr Hattr.
  cbn [FrozenJSON.__new__ of_num].
  rewrite bind_lift. cbn [binary as_num py_mul].
  rewrite bind_lift. cbn [as_num].
  rewrite bind_lift, Hdiv.
  rewrite bind_lift, Hfloor.
  rewrite bind_lift, Hint.
  read_int Hattr.
  rewrite bind_lift. cbn [py_gt].
  replace (mx >? n) with false
    by (symmetry; rewrite Z.gtb_ltb; apply Z.ltb_ge; lia).
  read_int Hattr.
  rewrite bind_lift, Hfloat.
  rewrite bind_lift, Hq.
  rewrite bind_lift, Hceil.
  rewrite bind_lift, Hcint.
  write_num. write_num.
  read_int Hattr.
  rewrite bind_lift. cbn [py_mod].
  replace (mx =? 0) with false by (symmetry; apply Z.eqb_neq; lia).
  write_num.
  read_attr Hattr. read_attr Hattr.
  rewrite bind_lift.
  rewrite (binary_of_num h py_mul pd (NInt (ceil_div n mx))), Hmul.
  rewrite bind_lift, Hprod.
  reflexivity.
Qed.

(** [np.ceil(p * n)] is defined for every double [p] and every positive
    [int] [n] below [2^53]. *)
Lemma ceil_of_product_float (f : spec_float) (n : Z) :
  0 < n < 2 ^ 53 ->
  exists fn,
    py_float (NInt n) = inr fn /\
    ceil_of_product (NFloat f) n
    = inr (NFloat (f64_integral Zceil_f (f64_mul f fn))).
Proof.
  intros Hn. destruct n as [|pn|pn]; try lia.
  destruct (f64_of_Z_exact pn ltac:(lia)) as (m & t & E & _).
  exists (S754_finite false m (- t)).
  unfold ceil_of_product, py_mul, py_float. rewrite E.
  split; reflexivity.
Qed.

Lemma init_split (h : host) (mapping : dict) (s : instance) :
  Config.__init__ h mapping s
  = bind (Config.before_batch_parameters h mapping)
      (fun _ => Config.batch_parameters h) s.
Proof.
  unfold Config.__init__, Config.before_batch_parameters, bind.
  destruct (Config._validate h mapping s) as [[e|[]] s1]; [reflexivity|].
  destruct (FrozenJSON.__init__ h Config.__setattr__ mapping s1)
    as [[e|[]] s2]; [reflexivity|].
  destruct (Config.__setattr__ "_logger" logger s2) as [[e|[]] s3];
    [reflexivity|].
  destruct (Config.geometry_parameters h s3) as [[e|[]] s4]; [reflexivity|].
  destruct (Config.spike_size_parameters h s4) as [[e|[]] s5]; reflexivity.
Qed.



(** C1, as stated, fails: with [maxMem = 10000], 10 channels of 2 bytes and
    500 samples, [maxSamplesPerBatch] equals the sample count, the multi-batch
    branch runs, and with [partialDat = 0] it stores [nPortion = 0.0]. *)
Lemma single_batch_plan_fails_at_equality :
  exists store,
    Config.new (Example.with_file 10000) (Example.params 10000 (VInt 0))
    = inr (facade VNone store) /\
    dict_get store "maxMem" = Some (VInt 10000) /\
    dict_get store "nChan" = Some (VInt 10) /\
    dict_get store "dsize" = Some (VInt 2) /\
    dict_get store "size" = Some (VInt 500) /\
    10000 / (10 * 2) >= 500 /\
    dict_get store "nPortion" = Some (VFloat (S754_zero false)) /\
    value_eq_int (VFloat (S754_zero false)) 1 = false.
Proof.
  eexists. split; [vm_compute; reflexivity|].
  repeat split; try reflexivity. cbn. lia.
Qed.

(** C1, amended.  With [int] parameters below [2^53]: when
    [maxSamplesPerBatch = floor(maxMem / (nChan * dsize))] is greater than
    the sample count, construction stores [nBatches = 1], [batch_size] the
    sample count, [residual = 0] and [nPortion = 1].  When it equals a
    positive sample count, the multi-batch formulas apply; they give the same
    [nBatches], [batch_size] and [residual], and
    [nPortion = np.ceil(partialDat * 1)]. *)
Theorem single_batch_plan
    (h : host) (mapping d : dict) (t : string) (M c b n : Z) (pd x : num) :
  Config.before_batch_parameters h mapping [] = (inr tt, facade VNone d) ->
  no_dict_attr h batch_attributes = true ->
  dict_get d "dtype" = Some (VStr t) -> SIZE_get SIZE_ t = Some b ->
  dict_get d "maxMem" = Some (VInt M) ->
  dict_get d "nChan" = Some (VInt c) ->
  dict_get d "size" = Some (VInt n) ->
  0 <= M < 2 ^ 53 -> 0 < c * b < 2 ^ 53 ->
  M / (c * b) > n \/
  (M / (c * b) = n /\ 0 < n /\
   dict_get d "partialDat" = Some (of_num pd) /\
   ceil_of_product pd 1 = inr x) ->
  exists store,
    Config.new h mapping = inr (facade VNone store) /\
    dict_get store "nBatches" = Some (VInt 1) /\
    dict_get store "batch_size" = Some (VInt n) /\
    dict_get store "residual" = Some (VInt 0) /\
    dict_get store "nPortion"
    = Some (if M / (c * b) >? n then VInt 1 else of_num x).
Proof.
  intros Hpre Hno Hdtype Hsize HM Hc Hn HMr Hcb Hcase.
  destruct Hcase as [Hgt|(Heq & Hpos & Hpd & Hprod)].
  - eexists. split.
    + unfold Config.new. rewrite init_split.
      rewrite (bind_ok _ _ _ _ _ Hpre).
      rewrite (batch_parameters_single h VNone d t M c b n); try assumption.
      reflexivity.
    + replace (M / (c * b) >? n) with true by (symmetry; apply Z.gtb_lt; lia).
      repeat split; lookup.
  - assert (Hn53 : n < 2 ^ 53).
    { rewrite <- Heq. apply Z.le_lt_trans with M; [|lia].
      apply Z.div_le_upper_bound; [lia|].
      replace M with (1 * M) at 1 by lia.
      apply Z.mul_le_mono_nonneg_r; lia. }
    assert (Hceil : ceil_div n n = 1).
    { apply ceil_div_spec; lia. }
    eexists. split.
    + unfold Config.new. rewrite init_split.
      rewrite (bind_ok _ _ _ _ _ Hpre).
      rewrite (batch_parameters_multi h VNone d t M c b n pd x);
        try assumption.
      * reflexivity.
      * lia.
      * rewrite Heq, Hceil. exact Hprod.
    + rewrite Heq, Hceil, Z.mod_same by lia.
      replace (n >? n) with false
        by (symmetry; rewrite Z.gtb_ltb; apply Z.ltb_irrefl).
      repeat split; lookup.
Qed.

Lemma single_batch_plan_witness :
  exists store,
    Config.new (Example.with_file 9000) (Example.params 10000 (VInt 0))
    = inr (facade VNone store) /\
    dict_get store "nBatches" = Some (VInt 1) /\
    dict_get store "batch_size" = Some (VInt 450) /\
    dict_get store "residual" = Some (VInt 0) /\
    dict_get store "nPortion" = Some (VInt 1).
Proof.
  eapply (single_batch_plan (Example.with_file 9000)
            (Example.params 10000 (VInt 0)) _ "int16" 10000 10 2 450
            (NInt 0) (NInt 0)).
  - vm_compute. reflexivity.
  - reflexivity.
  - reflexivity.
  - reflexivity.
  - reflexivity.
  - reflexivity.
  - reflexivity.
  - cbn. lia.
  - cbn. lia.
  - left. cbn. lia.
Defined.

(** ** Loading from a file *)

(** [FrozenJSON.from_yaml] on a file that holds a mapping: the facade of the
    mapping, with the path of the file. *)
Lemma from_yaml_mapping (h : host) (path_to_file : string) (mapping : dict) :
  yaml_load h path_to_file = inr (VDict mapping) ->
  FrozenJSON.from_yaml h (fun arg => inr (FrozenJSON.__new__ h arg))
    object_setattr path_to_file
  = inr (WFacade (facade (VStr path_to_file) (stored h mapping))).
Proof.
  intros H. unfold FrozenJSON.from_yaml. rewrite H, new_mapping.
  reflexivity.
Qed.

(** * Further properties *)

(** ** The store of a facade *)

Lemma find_app {A} (f : A -> bool) (l1 l2 : list A) :
  find f (l1 ++ l2)
  = match find f l1 with Some x => Some x | None => find f l2 end.
Proof.
  induction l1 as [|a l1 IH]; cbn [app find]; [reflexivity|].
  destruct (f a); [reflexivity | exact IH].
Qed.

Lemma stored_from_get (h : host) (mapping d : dict) (name : string) :
  dict_get (stored_from h mapping d) name
  = match last_stored h mapping name with
    | Some v => Some v
    | None => dict_get d name
    end.
Proof.
  revert d. induction mapping as [|[k v] m IH]; intros d.
  - reflexivity.
  - cbn [stored_from fold_left fst snd].
    fold (stored_from h m (dict_set d (FrozenJSON.stored_name h k) v)).
    rewrite IH. unfold last_stored. cbn [rev]. rewrite find_app.
    destruct (find _ (rev m)) as [kv|]; [reflexivity|].
    cbn [find fst snd option_map]. rewrite dict_get_set.
    destruct (String.eqb (FrozenJSON.stored_name h k) name); reflexivity.
Qed.

(** X1.  The facade over a mapping has a store without duplicate keys in
    which a name is bound to the value of the last entry of the mapping that
    is stored under that name: when the stored names of two keys collide,
    the later entry wins. *)
Theorem facade_store_last_entry_wins (h : host) (mapping : dict) :
  exists store,
    FrozenJSON.__new__ h (VDict mapping) = WFacade (facade VNone store) /\
    NoDup (dict_keys store) /\
    (forall name, dict_get store name = last_stored h mapping name).
Proof.
  exists (stored h mapping). split; [apply new_mapping|]. split.
  - apply stored_from_NoDup. constructor.
  - intros name. unfold stored. rewrite stored_from_get.
    destruct (last_stored h mapping name); reflexivity.
Qed.

(** ** What construction leaves alone *)

Lemma only_writes_pure {A} (names : list string) (c : M A) :
  pure c -> only_writes names c.
Proof.
  intros Hc p d r s' Hrun. exists d.
  specialize (Hc (facade p d)). rewrite Hrun in Hc. cbn [snd] in Hc.
  split; [exact Hc | reflexivity].
Qed.

Lemma only_writes_set_param (names : list string) (name : string)
    (v : value) :
  In name names -> only_writes names (Config._set_param name v).
Proof.
  intros Hin p d r s' Hrun.
  unfold Config._set_param in Hrun. rewrite data_setitem_facade in Hrun.
  injection Hrun as <- <-.
  exists (dict_set d name v). split; [reflexivity|].
  intros k Hk. rewrite dict_get_set.
  destruct (String.eqb_spec name k) as [->|]; [contradiction | reflexivity].
Qed.

Lemma only_writes_bind {A B} (names : list string) (c : M A)
    (k : A -> M B) :
  only_writes names c -> (forall a, only_writes names (k a)) ->
  only_writes names (bind c k).
Proof.
  intros Hc Hk p d r s' Hrun. unfold bind in Hrun.
  destruct (c (facade p d)) as [[e|a] s1] eqn:Ec.
  - injection Hrun as <- <-. exact (Hc p d (inl e) s1 Ec).
  - destruct (Hc p d (inr a) s1 Ec) as (d1 & -> & H1).
    destruct (Hk a p d1 r s' Hrun) as (d2 & -> & H2).
    exists d2. split; [reflexivity|].
    intros x Hx. rewrite (H2 x Hx). exact (H1 x Hx).
Qed.

Ltac in_names := cbn [In]; tauto.

Ltac only_writes_step :=
  lazymatch goal with
  | |- only_writes _ (bind _ _) =>
      apply only_writes_bind; [| intros ?]
  | |- only_writes _ (Config._set_param _ _) =>
      apply only_writes_set_param; in_names
  | |- only_writes _ (Config.set_num _ _) =>
      unfold Config.set_num; apply only_writes_set_param; in_names
  | |- only_writes _ (if ?c then _ else _) => destruct c
  | |- only_writes _ _ => apply only_writes_pure; pure_step
  end.

Lemma geometry_only_writes (h : host) :
  only_writes derived_names (Config.geometry_parameters h).
Proof.
  unfold derived_names, Config.geometry_parameters. repeat only_writes_step.
Qed.

Lemma spike_size_only_writes (h : host) :
  only_writes derived_names (Config.spike_size_parameters h).
Proof.
  unfold derived_names, Config.spike_size_parameters.
  repeat only_writes_step.
Qed.

Lemma batch_only_writes (h : host) :
  only_writes derived_names (Config.batch_parameters h).
Proof.
  unfold derived_names, Config.batch_parameters. repeat only_writes_step.
Qed.

Lemma derivation_only_writes (h : host) :
  only_writes derived_names
    (Config.geometry_parameters h ;;
     Config.spike_size_parameters h ;;
     Config.batch_parameters h).
Proof.
  apply only_writes_bind; [|intros _; apply only_writes_bind; [|intros _]].
  - apply geometry_only_writes.
  - apply spike_size_only_writes.
  - apply batch_only_writes.
Qed.

(** A run of [Config.__init__] on the blank object stops in validation or
    goes on from the facade of the mapping. *)
Lemma init_run (h : host) (mapping : dict) (r : result unit)
    (self : instance) :
  Config.__init__ h mapping [] = (r, self) ->
  (exists e, Config.validate_items h mapping = inl e /\
             r = inl e /\ self = []) \/
  (Config.validate_items h mapping = inr tt /\
   (Config.geometry_parameters h ;;
    Config.spike_size_parameters h ;;
    Config.batch_parameters h) (facade VNone (stored h mapping))
   = (r, self)).
Proof.
  intros Hrun.
  unfold Config.__init__ in Hrun. unfold bind at 1 in Hrun.
  unfold Config._validate, lift in Hrun.
  destruct (Config.validate_items h mapping) as [e|[]].
  - left. exists e. injection Hrun as <- <-. repeat split.
  - right. split; [reflexivity|].
    rewrite (bind_ok _ _ _ _ _ (Config_init_facade h mapping)) in Hrun.
    rewrite (bind_ok _ _ _ _ _ (set_logger_facade VNone _)) in Hrun.
    exact Hrun.
Qed.

Lemma new_run (h : host) (mapping : dict) (self : instance) :
  Config.new h mapping = inr self ->
  Config.__init__ h mapping [] = (inr tt, self).
Proof.
  unfold Config.new.
  destruct (Config.__init__ h mapping []) as [[e|[]] s]; [discriminate|].
  intros H. injection H as <-. reflexivity.
Qed.

(** X2.  Construction changes no key other than the fourteen derived ones:
    on a constructed [Config], indexed lookup of any other name returns the
    value the input binds it to (the last such entry), and raises when the
    input has no such entry or binds it to [None]. *)
Theorem config_lookup_returns_input
    (h : host) (mapping : dict) (self : instance) (name : string) :
  Config.new h mapping = inr self ->
  ~ In name derived_names ->
  match last_stored h mapping name with
  | Some VNone | None =>
      exists e, FrozenJSON.__getitem__ name self = (inl e, self)
  | Some v => FrozenJSON.__getitem__ name self = (inr v, self)
  end.
Proof.
  intros Hnew Hname. apply new_run in Hnew.
  destruct (init_run h mapping _ _ Hnew) as [(e & _ & He & _)|[_ Hrun]];
    [discriminate He|].
  destruct (derivation_only_writes h VNone _ _ _ Hrun) as (store & -> & Hsame).
  rewrite getitem_facade, (Hsame name Hname).
  unfold stored. rewrite stored_from_get. cbn [dict_get].
  destruct (last_stored h mapping name) as [[]|]; eauto.
Qed.

Lemma config_lookup_returns_input_witness :
  exists self,
    Config.new (Example.with_file 24000)
      (Example.params 10000 (VFloat Example.half)) = inr self /\
    FrozenJSON.__getitem__ "srate" self = (inr (VInt 30000), self).
Proof.
  eexists. split; [vm_compute; reflexivity|].
  apply (config_lookup_returns_input (Example.with_file 24000)
           (Example.params 10000 (VFloat Example.half)) _ "srate").
  - vm_compute. reflexivity.
  - not_in_names.
Defined.

(** ** Attribute access against indexed lookup *)

(** X3.  Whenever indexed lookup of a name returns a value, and the name is
    neither found on the object by normal lookup nor an attribute of a dict,
    attribute access returns that value wrapped: [obj.name] is
    [FrozenJSON(obj[name])]. *)
Theorem getattr_wraps_getitem
    (h : host) (o : object_model) (k : klass) (self self' : instance)
    (name : string) (v : value) :
  normal_lookup o k name self = None ->
  dict_hasattr h name = false ->
  FrozenJSON.__getitem__ name self = (inr v, self') ->
  FrozenJSON.getattr h o k name self
  = (inr (FromHook (Wrapped (FrozenJSON.__new__ h v))), self).
Proof.
  intros Hnormal Hattr Hget.
  rewrite (getattr_hook h o k name self Hnormal).
  unfold FrozenJSON.__getitem__, FrozenJSON.__getattr__, bind in *.
  unfold self_data in *.
  destruct (dict_get self "_data") as [[]|]; try discriminate Hget.
  rewrite Hattr.
  destruct (dict_get d name) as [w|]; cbn [is_None] in Hget.
  - destruct (is_None w) eqn:Ew.
    + unfold self_path, raise in Hget.
      destruct (dict_get self "_path_to_file"); discriminate Hget.
    + injection Hget as -> _. reflexivity.
  - unfold self_path, raise in Hget.
    destruct (dict_get self "_path_to_file"); discriminate Hget.
Qed.

Lemma getattr_wraps_getitem_witness :
  FrozenJSON.getattr Example.host0 Example.object_model0 KFrozenJSON "nChan"
    Example.loaded
  = (inr (FromHook (Wrapped (FrozenJSON.__new__ Example.host0 (VInt 10)))),
     Example.loaded).
Proof.
  apply (getattr_wraps_getitem Example.host0 Example.object_model0
           KFrozenJSON Example.loaded Example.loaded "nChan" (VInt 10));
    reflexivity.
Defined.



(** X5.  Attribute access to a key bound to a mapping, for a key that is
    neither found on the object by normal lookup nor an attribute of a dict,
    returns a new facade over that mapping.  Its path is [None], whatever
    the path of the object it was read from, so a failing lookup on the
    nested facade reports no source path; its store binds a name to the last
    entry of the nested mapping stored under it. *)
Theorem nested_facade_has_no_path
    (h : host) (o : object_model) (k : klass) (p : value) (d inner : dict)
    (name : string) :
  normal_lookup o k name (facade p d) = None ->
  dict_hasattr h name = false ->
  dict_get d name = Some (VDict inner) ->
  exists store,
    FrozenJSON.getattr h o k name (facade p d)
    = (inr (FromHook (Wrapped (WFacade (facade VNone store)))),
       facade p d) /\
    (forall key, dict_get store key = last_stored h inner key) /\
    (forall key, last_stored h inner key = None ->
       FrozenJSON.__getitem__ key (facade VNone store)
       = (inl (ValueError missing_template
                 [VNone; VStr key; VList (map VStr (dict_keys store))]),
          facade VNone store)).
Proof.
  intros Hnormal Ha Hv. exists (stored h inner).
  assert (Hget : forall key,
             dict_get (stored h inner) key = last_stored h inner key).
  { intros key. unfold stored. rewrite stored_from_get.
    destruct (last_stored h inner key); reflexivity. }
  split; [|split].
  - rewrite (getattr_hook_facade h o k name p d Hnormal), Ha, Hv,
      new_mapping.
    reflexivity.
  - exact Hget.
  - intros key Hnone. rewrite getitem_facade, Hget, Hnone. reflexivity.
Qed.

Lemma nested_facade_has_no_path_witness :
  exists store,
    FrozenJSON.getattr Example.host0 Example.object_model0 KConfig "paths"
      (facade (VStr "config.yaml") [("paths", VDict [("root", VStr "/d")])])
    = (inr (FromHook (Wrapped (WFacade (facade VNone store)))),
       facade (VStr "config.yaml") [("paths", VDict [("root", VStr "/d")])]).
Proof.
  destruct (nested_facade_has_no_path Example.host0 Example.object_model0
              KConfig (VStr "config.yaml")
              [("paths", VDict [("root", VStr "/d")])]
              [("root", VStr "/d")] "paths" eq_refl eq_refl eq_refl)
    as (store & H & _).
  exists store. exact H.
Defined.

(** ** Wrapping at every depth *)

(** X6.  [FrozenJSON(arg)] leaves no mapping and no list unwrapped, however
    deeply lists are nested: every element of a wrapped list is a facade, a
    wrapped list or a scalar. *)
Theorem new_wraps_every_depth (h : host) :
  forall arg, fully_wrapped (FrozenJSON.__new__ h arg) = true.
Proof.
  fix IH 1. intros arg. destruct arg; try reflexivity.
  cbn [FrozenJSON.__new__ fully_wrapped].
  induction l as [|a l IHl]; cbn [map forallb]; [reflexivity|].
  rewrite IH, IHl. reflexivity.
Qed.

(** ** Validation *)

Lemma validate_items_skip (h : host) (pre rest : dict) :
  (forall kv, In kv pre -> ~ violates h kv) ->
  Config.validate_items h (pre ++ rest) = Config.validate_items h rest.
Proof.
  induction pre as [|[key v] pre IH]; intros H; cbn [app].
  - reflexivity.
  - assert (IH' : Config.validate_items h (pre ++ rest)
                  = Config.validate_items h rest).
    { apply IH. intros kv Hkv. apply H. right. exact Hkv. }
    cbn [Config.validate_items].
    destruct (Config.validator_get (validator h) key) as [[|x vs]|] eqn:Ev;
      try exact IH'.
    destruct (Config.value_in v (x :: vs)) eqn:Ein; cbn [negb];
      [exact IH'|].
    exfalso. apply (H (key, v)); [left; reflexivity|].
    exists (x :: vs). cbn [fst snd]. split; [exact Ev|].
    split; [discriminate|].
    intros Hp. apply value_in_spec in Hp. congruence.
Qed.

(** X7.  Validation reports the first rejected entry in the order of the
    mapping: when no entry before [(key, v)] is rejected and [(key, v)] is,
    construction raises the error for [v] and [key], whatever follows. *)
Theorem validation_reports_first_violation
    (h : host) (pre post : dict) (key : string) (v : value) :
  (forall kv, In kv pre -> ~ violates h kv) ->
  violates h (key, v) ->
  exists valid_values pretty,
    Config.validator_get (validator h) key = Some valid_values /\
    Config._pretty_iterator valid_values = inr pretty /\
    Config.new h (pre ++ (key, v) :: post)
    = inl (ValueError Config.invalid_template [v; VStr key; VStr pretty]).
Proof.
  intros Hpre (vs & Hget & Hne & Hnot). cbn [fst snd] in *.
  destruct vs as [|x vs]; [congruence|].
  exists (x :: vs), (fold_left (fun a b => (a ++ ", " ++ b)%string) vs x).
  split; [exact Hget|]. split; [reflexivity|].
  unfold Config.new, Config.__init__.
  erewrite bind_err; [reflexivity|].
  unfold Config._validate, lift.
  rewrite validate_items_skip by exact Hpre.
  cbn [Config.validate_items]. rewrite Hget.
  destruct (Config.value_in v (x :: vs)) eqn:Ein.
  - exfalso. apply Hnot. apply value_in_spec. exact Ein.
  - reflexivity.
Qed.

Lemma validation_reports_first_violation_witness :
  exists pretty,
    Config.new Example.host0
      ([("nChan", VInt 10)]
       ++ ("dtype", VStr "float32") :: [("dtype2", VStr "x")])
    = inl (ValueError Config.invalid_template
             [VStr "float32"; VStr "dtype"; VStr pretty]).
Proof.
  destruct (validation_reports_first_violation Example.host0
              [("nChan", VInt 10)] [("dtype2", VStr "x")] "dtype"
              (VStr "float32"))
    as (vs & pretty & _ & _ & H).
  - intros kv [<-|[]] (vs & E & _). discriminate E.
  - exists ["int16"; "uint16"; "single"; "double"].
    split; [reflexivity|]. split; [discriminate|].
    intros (s & E & Hs). cbn [snd] in E. injection E as <-.
    cbn [In] in Hs.
    repeat (destruct Hs as [Hs|Hs]; [discriminate Hs|]). exact Hs.
  - exists pretty. exact H.
Defined.

(** X8.  The schema constrains only the keys it lists with a non-empty list:
    an entry whose key is not in the schema, or is listed with an empty
    list, never changes the outcome of validation, whatever its value. *)
Theorem validation_ignores_unlisted_keys
    (h : host) (pre post : dict) (key : string) (v : value) :
  Config.validator_get (validator h) key = None \/
  Config.validator_get (validator h) key = Some [] ->
  Config.validate_items h (pre ++ (key, v) :: post)
  = Config.validate_items h (pre ++ post).
Proof.
  intros Hkey.
  induction pre as [|[k0 v0] pre IH]; cbn [app Config.validate_items].
  - destruct Hkey as [->| ->]; reflexivity.
  - rewrite IH. reflexivity.
Qed.

Lemma validation_ignores_unlisted_keys_witness :
  Config.validate_items Example.host0
    ([("dtype", VStr "int16")] ++ ("nChan", VStr "many") :: [])
  = Config.validate_items Example.host0 ([("dtype", VStr "int16")] ++ []).
Proof.
  apply (validation_ignores_unlisted_keys Example.host0
           [("dtype", VStr "int16")] [] "nChan" (VStr "many")).
  left. reflexivity.
Defined.

(** ** Rendering the permitted values *)

Lemma string_app_assoc (a b c : string) :
  ((a ++ b) ++ c = a ++ (b ++ c))%string.
Proof.
  induction a as [|x a IH]; cbn [append]; [reflexivity|].
  rewrite IH. reflexivity.
Qed.

Lemma string_app_nil_r (a : string) : (a ++ "")%string = a.
Proof.
  induction a as [|x a IH]; cbn [append]; [reflexivity|].
  rewrite IH. reflexivity.
Qed.

Lemma concat_cons (sep x y : string) (rest : list string) :
  String.concat sep ((x ++ sep ++ y)%string :: rest)
  = (x ++ sep ++ String.concat sep (y :: rest))%string.
Proof.
  destruct rest as [|z rest]; cbn [String.concat]; [reflexivity|].
  rewrite !string_app_assoc. reflexivity.
Qed.

Lemma fold_join (sep : string) (rest : list string) (x : string) :
  fold_left (fun a b => (a ++ sep ++ b)%string) rest x
  = String.concat sep (x :: rest).
Proof.
  revert x. induction rest as [|y rest IH]; intros x; cbn [fold_left].
  - reflexivity.
  - rewrite IH. apply concat_cons.
Qed.

Lemma prefix_app (s t : string) : String.prefix s (s ++ t) = true.
Proof.
  induction s as [|c s IH]; cbn [append String.prefix].
  - destruct t; reflexivity.
  - destruct (Ascii.ascii_dec c c) as [_|Hne]; [exact IH | congruence].
Qed.

Lemma contains_app_r (s a t : string) :
  contains s t = true -> contains s (a ++ t) = true.
Proof.
  intros H. induction a as [|c a IH]; cbn [append]; [exact H|].
  cbn [contains]. rewrite IH. apply orb_true_r.
Qed.

Lemma contains_prefix (s t : string) : contains s (s ++ t) = true.
Proof.
  destruct (s ++ t)%string eqn:E; cbn [contains];
    rewrite <- E, prefix_app; reflexivity.
Qed.

Lemma contains_concat (sep v : string) (l : list string) :
  In v l -> contains v (String.concat sep l) = true.
Proof.
  induction l as [|x l IH]; intros Hin; [destruct Hin|].
  destruct l as [|y l].
  - destruct Hin as [->|[]]. cbn [String.concat].
    rewrite <- (contains_prefix v ""), string_app_nil_r. reflexivity.
  - change (String.concat sep (x :: y :: l))
      with (x ++ sep ++ String.concat sep (y :: l))%string.
    destruct Hin as [->|Hin].
    + apply contains_prefix.
    + apply contains_app_r, contains_app_r, IH. exact Hin.
Qed.

(** X9.  [_pretty_iterator] joins a non-empty list of strings with a comma
    and a space, so every permitted value occurs in the rendering; on an
    empty list it raises [TypeError]. *)
Theorem pretty_iterator_joins (x : string) (rest : list string) :
  Config._pretty_iterator (x :: rest)
  = inr (String.concat ", " (x :: rest)) /\
  (forall v, In v (x :: rest) ->
             contains v (String.concat ", " (x :: rest)) = true) /\
  Config._pretty_iterator [] = inl TypeError.
Proof.
  split; [|split].
  - unfold Config._pretty_iterator. rewrite fold_join. reflexivity.
  - intros v Hv. apply contains_concat. exact Hv.
  - reflexivity.
Qed.

Lemma pretty_iterator_joins_witness :
  Config._pretty_iterator ["int16"; "uint16"; "single"]
  = inr "int16, uint16, single" /\
  contains "single" (String.concat ", " ["int16"; "uint16"; "single"])
  = true.
Proof.
  destruct (pretty_iterator_joins "int16" ["uint16"; "single"])
    as (Hjoin & Hin & _).
  split; [exact Hjoin|].
  apply Hin. cbn [In]. tauto.
Defined.

(** ** sizeof *)

(** X10.  [sizeof] knows four element types: it returns 2, 4 or 8 for them
    and raises [KeyError] with the name for any other string. *)
Theorem sizeof_table (s : string) :
  (In s ["int16"; "uint16"; "single"; "double"] ->
   exists n, sizeof (Wrapped (WRaw (VStr s))) = inr (NInt n) /\
             (n = 2 \/ n = 4 \/ n = 8)) /\
  (~ In s ["int16"; "uint16"; "single"; "double"] ->
   sizeof (Wrapped (WRaw (VStr s))) = inl (KeyError (VStr s))).
Proof.
  split.
  - cbn [In]. intros [<-|[<-|[<-|[<-|[]]]]].
    + exists 2. split; [reflexivity | tauto].
    + exists 2. split; [reflexivity | tauto].
    + exists 4. split; [reflexivity | tauto].
    + exists 8. split; [reflexivity | tauto].
  - cbn [In]. intros Hnot. cbn [sizeof SIZE_ SIZE_get].
    destruct (String.eqb_spec "int16" s); [exfalso; tauto|].
    destruct (String.eqb_spec "uint16" s); [exfalso; tauto|].
    destruct (String.eqb_spec "single" s); [exfalso; tauto|].
    destruct (String.eqb_spec "double" s); [exfalso; tauto|].
    reflexivity.
Qed.

Lemma sizeof_table_witness :
  sizeof (Wrapped (WRaw (VStr "float32"))) = inl (KeyError (VStr "float32")).
Proof.
  apply (proj2 (sizeof_table "float32")).
  cbn [In]. intros [H|[H|[H|[H|[]]]]]; discriminate H.
Defined.

(** ** The privileged write *)

Lemma dict_keys_set_present (d : dict) (k : string) (v : value) :
  In k (dict_keys d) -> dict_keys (dict_set d k v) = dict_keys d.
Proof.
  induction d as [|[k0 v0] d IH]; cbn [dict_keys map fst In dict_set].
  - tauto.
  - intros Hin. destruct (String.eqb_spec k0 k) as [->|Hne];
      cbn [map fst]; [reflexivity|].
    f_equal. apply IH. tauto.
Qed.

(** X11.  [_set_param] is not subject to the guard of [__setattr__]: for a
    name without leading underscore the assignment is refused and
    [_set_param] succeeds.  Afterwards the name is bound to the new value and
    every other key is as before; the key keeps its place when it was
    present and is appended when it was not. *)
Theorem set_param_bypasses_guard
    (name : string) (v : value) (p : value) (d : dict) :
  String.prefix "_" name = false ->
  Config.__setattr__ name v (facade p d)
  = (inl (AttributeError Config.immutable_msg), facade p d) /\
  exists d',
    Config._set_param name v (facade p d) = (inr tt, facade p d') /\
    dict_get d' name = Some v /\
    (forall k, k <> name -> dict_get d' k = dict_get d k) /\
    (In name (dict_keys d) -> dict_keys d' = dict_keys d) /\
    (~ In name (dict_keys d) -> dict_keys d' = dict_keys d ++ [name]).
Proof.
  intros Hname. split.
  - unfold Config.__setattr__. rewrite Hname. reflexivity.
  - exists (dict_set d name v). split; [reflexivity|].
    split; [apply dict_get_set_same|]. split; [|split].
    + intros k Hk. rewrite dict_get_set.
      destruct (String.eqb_spec name k); [congruence | reflexivity].
    + apply dict_keys_set_present.
    + intros Hnot. rewrite dict_set_fresh by exact Hnot.
      unfold dict_keys. rewrite map_app. reflexivity.
Qed.

Lemma set_param_bypasses_guard_witness :
  exists d',
    Config._set_param "nChan" (VInt 64) Example.loaded
    = (inr tt, facade (VStr "config.yaml") d') /\
    dict_get d' "nChan" = Some (VInt 64).
Proof.
  destruct (set_param_bypasses_guard "nChan" (VInt 64) (VStr "config.yaml")
              [("nChan", VInt 10); ("filename", VNone)] eq_refl)
    as (_ & d' & H1 & H2 & _).
  exists d'. split; assumption.
Defined.

(** ** Loading from a file *)

Lemma new_facade (h : host) (mapping : dict) (self : instance) :
  Config.new h mapping = inr self -> exists store, self = facade VNone store.
Proof.
  intros Hnew. apply new_run in Hnew.
  destruct (init_run h mapping _ _ Hnew) as [(e & _ & He & _)|[_ Hrun]];
    [discriminate He|].
  destruct (derivation_only_writes h VNone _ _ _ Hrun) as (store & -> & _).
  exists store. reflexivity.
Qed.

(** X12.  Loading a file that holds a mapping builds the object exactly as
    the direct call of the class does and then records the path of the file:
    [FrozenJSON.from_yaml] gives the facade of the mapping with the path, and
    [Config.from_yaml] gives the object [Config(mapping)] with the path set,
    or raises what [Config(mapping)] raises. *)
Theorem from_yaml_records_path
    (h : host) (path_to_file : string) (mapping : dict) :
  yaml_load h path_to_file = inr (VDict mapping) ->
  FrozenJSON.from_yaml h (fun arg => inr (FrozenJSON.__new__ h arg))
    object_setattr path_to_file
  = inr (WFacade (facade (VStr path_to_file) (stored h mapping))) /\
  match Config.new h mapping with
  | inr self =>
      exists store,
        self = facade VNone store /\
        Config.from_yaml h path_to_file
        = inr (WFacade (facade (VStr path_to_file) store))
  | inl e => Config.from_yaml h path_to_file = inl e
  end.
Proof.
  intros Hload. split; [apply from_yaml_mapping, Hload|].
  unfold Config.from_yaml, FrozenJSON.from_yaml. rewrite Hload.
  cbn [Config.call].
  destruct (Config.new h mapping) as [e|self] eqn:Hnew; [reflexivity|].
  destruct (new_facade h mapping self Hnew) as (store & ->).
  exists store. split; reflexivity.
Qed.

Lemma from_yaml_records_path_witness :
  exists store,
    Config.from_yaml
      (Example.with_yaml
         (VDict (Example.params 10000 (VFloat Example.half))))
      "config.yaml"
    = inr (WFacade (facade (VStr "config.yaml") store)).
Proof.
  destruct (from_yaml_records_path
              (Example.with_yaml
                 (VDict (Example.params 10000 (VFloat Example.half))))
              "config.yaml" (Example.params 10000 (VFloat Example.half))
              eq_refl) as [_ H].
  destruct (Config.new _ _) as [e|self] eqn:Hnew.
  - vm_compute in Hnew. discriminate Hnew.
  - destruct H as (store & _ & H). exists store. exact H.
Defined.

Lemma call_list (h : host) (l : list value) :
  (exists e, Config.call h (VList l) = inl e) \/
  (exists ws, Config.call h (VList l) = inr (WList ws)).
Proof.
  cbn [Config.call].
  match goal with
  | |- (exists e, match ?x with _ => _ end = _) \/ _ => destruct x as [e|ws]
  end.
  - left. exists e. reflexivity.
  - right. exists ws. reflexivity.
Qed.

(** X13.  A file whose document is not a mapping cannot be loaded.  Plain
    [FrozenJSON.from_yaml] raises [AttributeError] naming the type of the
    document, because the path cannot be set on it; [Config.from_yaml] raises
    too, the same error when the document is a scalar or an empty file. *)
Theorem from_yaml_needs_a_mapping
    (h : host) (path_to_file : string) (doc : value) :
  yaml_load h path_to_file = inr doc ->
  (forall mapping, doc <> VDict mapping) ->
  FrozenJSON.from_yaml h (fun arg => inr (FrozenJSON.__new__ h arg))
    object_setattr path_to_file
  = inl (AttributeError (no_attribute_msg (type_name doc))) /\
  exists e,
    Config.from_yaml h path_to_file = inl e /\
    (is_scalar doc = true ->
     e = AttributeError (no_attribute_msg (type_name doc))).
Proof.
  intros Hload Hdoc.
  unfold Config.from_yaml, FrozenJSON.from_yaml. rewrite Hload.
  destruct doc as [| b | z | f | s | l | m | tag];
    try (split; [reflexivity | eexists; split; [reflexivity | reflexivity]]).
  - split; [reflexivity|].
    destruct (call_list h l) as [(e & ->)|(ws & ->)].
    + exists e. split; [reflexivity | discriminate].
    + eexists. split; [reflexivity | discriminate].
  - exfalso. apply (Hdoc m). reflexivity.
Qed.

Lemma from_yaml_needs_a_mapping_witness :
  Config.from_yaml (Example.with_yaml VNone) "empty.yaml"
  = inl (AttributeError "'NoneType' object has no attribute '_path_to_file'").
Proof.
  destruct (from_yaml_needs_a_mapping (Example.with_yaml VNone)
              "empty.yaml" VNone eq_refl ltac:(discriminate))
    as (_ & e & He & Hmsg).
  rewrite He, (Hmsg eq_refl). reflexivity.
Defined.

(** ** The parameters construction needs *)

Section Requirements.

Variable h : host.
Variable name : string.
Hypothesis not_derived : ~ In name derived_names.

Lemma fails_without_attr {B} (k : attribute -> M B) :
  fails_without h name (bind (Config.attr h name) k).
Proof.
  intros p d r s' Ha Hd Hrun.
  unfold bind, Config.attr in Hrun.
  rewrite getattr_facade, Ha, Hd in Hrun.
  injection Hrun as <- _. eauto.
Qed.

Lemma fails_without_num_attr {B} (k : num -> M B) :
  fails_without h name (bind (Config.num_attr h name) k).
Proof.
  intros p d r s' Ha Hd Hrun.
  unfold bind at 1, Config.num_attr, bind at 1, Config.attr in Hrun.
  rewrite getattr_facade, Ha, Hd in Hrun.
  injection Hrun as <- _. eauto.
Qed.

Lemma fails_without_bind {A B} (c : M A) (k : A -> M B) :
  only_writes derived_names c ->
  (forall a, fails_without h name (k a)) ->
  fails_without h name (bind c k).
Proof.
  intros Hc Hk p d r s' Ha Hd Hrun. unfold bind in Hrun.
  destruct (c (facade p d)) as [[e|a] s1] eqn:Ec.
  - injection Hrun as <- _. eauto.
  - destruct (Hc p d (inr a) s1 Ec) as (d1 & -> & H1).
    apply (Hk a p d1 r s' Ha); [|exact Hrun].
    rewrite (H1 name not_derived). exact Hd.
Qed.

Lemma fails_without_first {A B} (c : M A) (k : A -> M B) :
  fails_without h name c -> fails_without h name (bind c k).
Proof.
  intros Hc p d r s' Ha Hd Hrun. unfold bind in Hrun.
  destruct (c (facade p d)) as [[e|a] s1] eqn:Ec.
  - injection Hrun as <- _. eauto.
  - destruct (Hc p d (inr a) s1 Ha Hd Ec) as (e & He). discriminate He.
Qed.

End Requirements.

Ltac fails_without_step :=
  first
    [ apply fails_without_attr
    | apply fails_without_num_attr
    | apply fails_without_bind;
      [ assumption
      | unfold derived_names; only_writes_step
      | intros ? ] ].

Lemma geometry_requires (h : host) (name : string) :
  In name ["root"; "geomFile"; "nChan"; "spatialRadius"] ->
  fails_without h name (Config.geometry_parameters h).
Proof.
  intros Hin.
  assert (Hnot : ~ In name derived_names).
  { unfold derived_names. cbn [In] in *. intuition (subst; discriminate). }
  unfold Config.geometry_parameters.
  cbn [In] in Hin. destruct Hin as [<-|[<-|[<-|[<-|[]]]]];
    repeat fails_without_step.
Qed.

Lemma spike_size_requires (h : host) (name : string) :
  In name ["spikeSizeMS"; "srate"; "filename"; "dtype"] ->
  fails_without h name (Config.spike_size_parameters h).
Proof.
  intros Hin.
  assert (Hnot : ~ In name derived_names).
  { unfold derived_names. cbn [In] in *. intuition (subst; discriminate). }
  unfold Config.spike_size_parameters.
  cbn [In] in Hin. destruct Hin as [<-|[<-|[<-|[<-|[]]]]];
    repeat fails_without_step.
Qed.

Lemma batch_requires (h : host) :
  fails_without h "maxMem" (Config.batch_parameters h).
Proof.
  assert (Hnot : ~ In "maxMem" derived_names).
  { unfold derived_names. cbn [In]. intuition discriminate. }
  unfold Config.batch_parameters. repeat fails_without_step.
Qed.

Lemma derivation_requires (h : host) (name : string) :
  In name required_names ->
  fails_without h name
    (Config.geometry_parameters h ;;
     Config.spike_size_parameters h ;;
     Config.batch_parameters h).
Proof.
  intros Hin.
  assert (Hnot : ~ In name derived_names).
  { unfold derived_names, required_names in *. cbn [In] in *.
    intuition (subst; discriminate). }
  unfold required_names in Hin. cbn [In] in Hin.
  assert (Hcase :
    In name ["root"; "geomFile"; "nChan"; "spatialRadius"] \/
    In name ["spikeSizeMS"; "srate"; "filename"; "dtype"] \/
    name = "maxMem") by (cbn [In]; intuition auto).
  destruct Hcase as [Hg | [Hs | ->]].
  - apply fails_without_first, geometry_requires, Hg.
  - apply fails_without_bind;
      [exact Hnot | apply geometry_only_writes | intros _].
    apply fails_without_first, spike_size_requires, Hs.
  - apply fails_without_bind;
      [exact Hnot | apply geometry_only_writes | intros _].
    apply fails_without_bind;
      [exact Hnot | apply spike_size_only_writes | intros _].
    apply batch_requires.
Qed.

(** X14.  Construction succeeds only on an input that provides every one of
    [root], [geomFile], [nChan], [spatialRadius], [spikeSizeMS], [srate],
    [filename], [dtype] and [maxMem]: nothing supplies a default for them. *)
Theorem construction_needs_required_names
    (h : host) (mapping : dict) (self : instance) (name : string) :
  Config.new h mapping = inr self ->
  In name required_names ->
  dict_hasattr h name = false ->
  exists v, last_stored h mapping name = Some v.
Proof.
  intros Hnew Hin Hattr. apply new_run in Hnew.
  destruct (init_run h mapping _ _ Hnew) as [(e & _ & He & _)|[_ Hrun]];
    [discriminate He|].
  destruct (last_stored h mapping name) as [v|] eqn:Hlast; [eauto|].
  exfalso.
  assert (Hget : dict_get (stored h mapping) name = None).
  { unfold stored. rewrite stored_from_get, Hlast. reflexivity. }
  destruct (derivation_requires h name Hin VNone (stored h mapping)
              (inr tt) self Hattr Hget Hrun) as (e & He).
  discriminate He.
Qed.

Lemma construction_needs_required_names_witness :
  exists v,
    last_stored (Example.with_file 24000)
      (Example.params 10000 (VFloat Example.half)) "geomFile" = Some v.
Proof.
  destruct (Config.new (Example.with_file 24000)
              (Example.params 10000 (VFloat Example.half)))
    as [e|self] eqn:Hnew.
  - vm_compute in Hnew. discriminate Hnew.
  - apply (construction_needs_required_names (Example.with_file 24000)
             (Example.params 10000 (VFloat Example.half)) self "geomFile"
             Hnew).
    + unfold required_names. cbn [In]. tauto.
    + reflexivity.
Defined.

(** ** The batch plan *)

Lemma py_float_small (n : Z) :
  0 <= n < 2 ^ 53 -> exists fn, py_float (NInt n) = inr fn.
Proof.
  intros Hn. destruct n as [|pn|pn]; try lia.
  - eexists. reflexivity.
  - destruct (f64_of_Z_exact pn ltac:(lia)) as (m & t & E & _).
    eexists. unfold py_float. rewrite E. reflexivity.
Qed.

Lemma batch_parameters_no_room
    (h : host) (p : value) (d : dict) (t : string) (M c b n : Z) :
  no_dict_attr h batch_attributes = true ->
  dict_get d "dtype" = Some (VStr t) -> SIZE_get SIZE_ t = Some b ->
  dict_get d "maxMem" = Some (VInt M) ->
  dict_get d "nChan" = Some (VInt c) ->
  dict_get d "size" = Some (VInt n) ->
  0 <= M < c * b -> c * b < 2 ^ 53 -> 0 <= n < 2 ^ 53 ->
  Config.batch_parameters h (facade p d)
  = (inl ZeroDivisionError, facade p (dict_set d "dsize" (VInt b))).
Proof.
  intros Hno Hdtype Hsize HM Hc Hn HMr Hcb Hnr.
  pose proof (no_dict_attr_In h batch_attributes) as Hattr.
  specialize (fun name => Hattr name Hno).
  destruct (floor_truediv_int M (c * b) ltac:(lia) ltac:(lia))
    as (f & g & Hdiv & _ & Hfloor & Hint).
  rewrite (Z.div_small M (c * b)) in Hint by lia.
  destruct (py_float_small n Hnr) as (fn & Hfloat).
  unfold Config.batch_parameters.
  read_attr Hattr. cbn [FrozenJSON.__new__].
  rewrite bind_lift. cbn [sizeof]. rewrite Hsize.
  write_num.
  read_attr Hattr. read_attr Hattr. read_attr Hattr.
  cbn [FrozenJSON.__new__ of_num].
  rewrite bind_lift. cbn [binary as_num py_mul].
  rewrite bind_lift. cbn [as_num].
  rewrite bind_lift, Hdiv.
  rewrite bind_lift, Hfloor.
  rewrite bind_lift, Hint.
  read_int Hattr.
  rewrite bind_lift. cbn [py_gt].
  replace (0 >? n) with false
    by (symmetry; rewrite Z.gtb_ltb; apply Z.ltb_ge; lia).
  read_int Hattr.
  rewrite bind_lift, Hfloat.
  rewrite bind_lift. unfold py_truediv. cbn [py_float].
  destruct fn; reflexivity.
Qed.

(** X15.  A memory budget smaller than one sample of all channels
    ([0 <= maxMem < nChan * dsize]) makes the batch size zero; construction
    then raises [ZeroDivisionError], whatever the length of the recording. *)
Theorem budget_below_one_sample_divides_by_zero
    (h : host) (mapping d : dict) (t : string) (M c b n : Z) :
  Config.before_batch_parameters h mapping [] = (inr tt, facade VNone d) ->
  no_dict_attr h batch_attributes = true ->
  dict_get d "dtype" = Some (VStr t) -> SIZE_get SIZE_ t = Some b ->
  dict_get d "maxMem" = Some (VInt M) ->
  dict_get d "nChan" = Some (VInt c) ->
  dict_get d "size" = Some (VInt n) ->
  0 <= M < c * b -> c * b < 2 ^ 53 -> 0 <= n < 2 ^ 53 ->
  Config.new h mapping = inl ZeroDivisionError.
Proof.
  intros Hpre Hno Hdtype Hsize HM Hc Hn HMr Hcb Hnr.
  unfold Config.new. rewrite init_split.
  rewrite (bind_ok _ _ _ _ _ Hpre).
  rewrite (batch_parameters_no_room h VNone d t M c b n); try assumption.
  reflexivity.
Qed.

Lemma budget_below_one_sample_divides_by_zero_witness :
  Config.new (Example.with_file 24000) (Example.params 19 (VInt 1))
  = inl ZeroDivisionError.
Proof.
  eapply (budget_below_one_sample_divides_by_zero (Example.with_file 24000)
            (Example.params 19 (VInt 1)) _ "int16" 19 10 2 1200).
  - vm_compute. reflexivity.
  - reflexivity.
  - reflexivity.
  - reflexivity.
  - reflexivity.
  - reflexivity.
  - reflexivity.
  - cbn. lia.
  - cbn. lia.
  - cbn. lia.
Defined.

Lemma ceil_div_div_mod (n b : Z) :
  0 < b ->
  ceil_div n b = if n mod b =? 0 then n / b else n / b + 1.
Proof.
  intros Hb.
  pose proof (Z.div_mod n b ltac:(lia)) as Hdm.
  pose proof (Z.mod_pos_bound n b Hb) as Hr.
  destruct (Z.eqb_spec (n mod b) 0) as [E|E]; apply ceil_div_spec; lia.
Qed.

(** X16.  The batch plan covers the recording exactly.  For a positive
    sample count and a batch size of at least one sample, the stored
    [nBatches], [batch_size] and [residual] satisfy: all batches but the last
    have [batch_size] samples, the last has [residual] samples, or
    [batch_size] when [residual] is zero, and together they are [size]
    samples. *)
Theorem batch_plan_covers_recording
    (h : host) (mapping d : dict) (t : string) (M c b n : Z)
    (pd : spec_float) :
  Config.before_batch_parameters h mapping [] = (inr tt, facade VNone d) ->
  no_dict_attr h batch_attributes = true ->
  dict_get d "dtype" = Some (VStr t) -> SIZE_get SIZE_ t = Some b ->
  dict_get d "maxMem" = Some (VInt M) ->
  dict_get d "nChan" = Some (VInt c) ->
  dict_get d "size" = Some (VInt n) ->
  dict_get d "partialDat" = Some (VFloat pd) ->
  0 <= M < 2 ^ 53 -> 0 < c * b < 2 ^ 53 -> 0 < n < 2 ^ 53 ->
  0 < M / (c * b) ->
  exists store nBatches batch_size residual,
    Config.new h mapping = inr (facade VNone store) /\
    dict_get store "nBatches" = Some (VInt nBatches) /\
    dict_get store "batch_size" = Some (VInt batch_size) /\
    dict_get store "residual" = Some (VInt residual) /\
    1 <= nBatches /\ 0 <= residual < batch_size /\
    n = (nBatches - 1) * batch_size
        + (if residual =? 0 then batch_size else residual).
Proof.
  intros Hpre Hno Hdtype Hsize HM Hc Hn Hpd HMr Hcb Hnr Hmx.
  destruct (Z_gt_le_dec (M / (c * b)) n) as [Hgt|Hle].
  - eexists; exists 1, n, 0. split.
    + unfold Config.new. rewrite init_split.
      rewrite (bind_ok _ _ _ _ _ Hpre).
      rewrite (batch_parameters_single h VNone d t M c b n); try assumption.
      reflexivity.
    + repeat split; try lookup; cbn; lia.
  - set (mx := M / (c * b)) in *.
    assert (Hmx53 : mx < 2 ^ 53) by lia.
    pose proof (ceil_div_range n mx ltac:(lia) Hmx) as Hcd.
    destruct (ceil_of_product_float pd (ceil_div n mx) ltac:(lia))
      as (fn & _ & Hprod).
    exists (dict_set (dict_set (dict_set (dict_set (dict_set d
              "dsize" (VInt b))
              "nBatches" (VInt (ceil_div n mx)))
              "batch_size" (VInt mx))
              "residual" (VInt (n mod mx)))
              "nPortion"
              (VFloat (f64_integral Zceil_f (f64_mul pd fn)))),
      (ceil_div n mx), mx, (n mod mx). split.
    + unfold Config.new. rewrite init_split.
      rewrite (bind_ok _ _ _ _ _ Hpre).
      rewrite (batch_parameters_multi h VNone d t M c b n (NFloat pd)
                 (NFloat (f64_integral Zceil_f (f64_mul pd fn))));
        try assumption; try reflexivity; fold mx; lia.
    + pose proof (Z.mod_pos_bound n mx Hmx) as Hr.
      pose proof (Z.div_mod n mx ltac:(lia)) as Hdm.
      rewrite (ceil_div_div_mod n mx Hmx) in *.
      repeat split; try lookup; try lia.
      destruct (Z.eqb_spec (n mod mx) 0) as [E|E]; lia.
Qed.

Lemma batch_plan_covers_recording_witness :
  exists store nBatches batch_size residual,
    Config.new (Example.with_file 24000)
      (Example.params 10000 (VFloat Example.half))
    = inr (facade VNone store) /\
    dict_get store "nBatches" = Some (VInt nBatches) /\
    dict_get store "batch_size" = Some (VInt batch_size) /\
    dict_get store "residual" = Some (VInt residual) /\
    1 <= nBatches /\ 0 <= residual < batch_size /\
    1200 = (nBatches - 1) * batch_size
           + (if residual =? 0 then batch_size else residual).
Proof.
  eapply (batch_plan_covers_recording (Example.with_file 24000)
            (Example.params 10000 (VFloat Example.half)) _ "int16"
            10000 10 2 1200 Example.half).
  - vm_compute. reflexivity.
  - reflexivity.
  - reflexivity.
  - reflexivity.
  - reflexivity.
  - reflexivity.
  - reflexivity.
  - reflexivity.
  - cbn. lia.
  - cbn. lia.
  - cbn. lia.
  - cbn. lia.
Defined.

(** ** The portion of a whole number of batches *)

(** [np.ceil] of a positive [int] below [2^53] is the double of that
    integer, and the double equals the integer. *)
Lemma np_ceil_of_int (z : Z) :
  0 < z < 2 ^ 53 ->
  np_ceil (NInt z) = inr (NFloat (f64_of_Z z)) /\
  value_eq_int (VFloat (f64_of_Z z)) z = true.
Proof.
  intros Hz. destruct z as [|pn|pn]; try lia.
  destruct (f64_of_Z_exact pn ltac:(lia)) as (m & t & E & Ht & _ & Hm & _).
  assert (HP : 0 < 2 ^ t) by (apply pow2_pos; lia).
  split.
  - unfold np_ceil, np_integral.
    replace ((- 2 ^ 63 <=? Zpos pn) && (Zpos pn <? 2 ^ 63)) with true.
    2:{ symmetry. apply andb_true_intro. split.
        - apply Z.leb_le. lia.
        - apply Z.ltb_lt. lia. }
    rewrite E. cbn [f64_integral].
    assert (Hc : Zceil_f false m (- t) = Zpos pn).
    { destruct (integer_parts_scaled m (- (t + 1)) (- t) (Zpos m * 2))
        as [_ Hceil]; [lia | lia | |].
      - replace (- t - - (t + 1)) with 1 by lia. reflexivity.
      - rewrite Hceil. apply ceil_div_spec.
        + apply pow2_pos. lia.
        + replace (- - (t + 1)) with (t + 1) by lia.
          rewrite Z.pow_add_r, Z.pow_1_r by lia. lia. }
    rewrite Hc, <- E. reflexivity.
  - rewrite E. destruct t as [|k|k]; try lia.
    + cbn [Z.opp value_eq_int signed]. apply Z.eqb_eq.
      rewrite Z.pow_0_r in *. lia.
    + cbn [Z.opp value_eq_int signed]. apply Z.eqb_eq. exact Hm.
Qed.

(** X17.  With an [int] [partialDat] the multi-batch branch stores
    [nPortion] as a double, the product [partialDat * nBatches] exactly:
    for [partialDat = 1] the portion is all batches, stored as a [float]
    where the single-batch branch stores the [int] 1. *)
Theorem int_fraction_gives_float_portion
    (h : host) (mapping d : dict) (t : string) (M c b n pd : Z) :
  Config.before_batch_parameters h mapping [] = (inr tt, facade VNone d) ->
  no_dict_attr h batch_attributes = true ->
  dict_get d "dtype" = Some (VStr t) -> SIZE_get SIZE_ t = Some b ->
  dict_get d "maxMem" = Some (VInt M) ->
  dict_get d "nChan" = Some (VInt c) ->
  dict_get d "size" = Some (VInt n) ->
  dict_get d "partialDat" = Some (VInt pd) ->
  0 <= M < 2 ^ 53 -> 0 < c * b < 2 ^ 53 -> n < 2 ^ 53 ->
  0 < M / (c * b) <= n ->
  0 < pd -> pd * ceil_div n (M / (c * b)) < 2 ^ 53 ->
  exists store nPortion,
    Config.new h mapping = inr (facade VNone store) /\
    dict_get store "nPortion" = Some (VFloat nPortion) /\
    nPortion = f64_of_Z (pd * ceil_div n (M / (c * b))) /\
    value_eq_int (VFloat nPortion) (pd * ceil_div n (M / (c * b))) = true.
Proof.
  intros Hpre Hno Hdtype Hsize HM Hc Hn Hpd HMr Hcb Hnr Hmx Hpos Hprod.
  pose proof (ceil_div_range n (M / (c * b)) ltac:(lia) ltac:(lia)) as Hcd.
  assert (Hrange : 0 < pd * ceil_div n (M / (c * b)) < 2 ^ 53).
  { split; [apply Z.mul_pos_pos; lia | exact Hprod]. }
  destruct (np_ceil_of_int _ Hrange) as [Hceil Heq].
  eexists; exists (f64_of_Z (pd * ceil_div n (M / (c * b)))). split.
  - unfold Config.new. rewrite init_split.
    rewrite (bind_ok _ _ _ _ _ Hpre).
    rewrite (batch_parameters_multi h VNone d t M c b n (NInt pd)
               (NFloat (f64_of_Z (pd * ceil_div n (M / (c * b))))));
      try assumption; reflexivity.
  - split; [lookup|]. split; [reflexivity | exact Heq].
Qed.

Lemma int_fraction_gives_float_portion_witness :
  exists store nPortion,
    Config.new (Example.with_file 24000) (Example.params 10000 (VInt 1))
    = inr (facade VNone store) /\
    dict_get store "nPortion" = Some (VFloat nPortion) /\
    nPortion = f64_of_Z (1 * ceil_div 1200 (10000 / (10 * 2))) /\
    value_eq_int (VFloat nPortion) (1 * ceil_div 1200 (10000 / (10 * 2)))
    = true.
Proof.
  eapply (int_fraction_gives_float_portion (Example.with_file 24000)
            (Example.params 10000 (VInt 1)) _ "int16" 10000 10 2 1200 1).
  - vm_compute. reflexivity.
  - reflexivity.
  - reflexivity.
  - reflexivity.
  - reflexivity.
  - reflexivity.
  - reflexivity.
  - reflexivity.
  - cbn. lia.
  - cbn. lia.
  - cbn. lia.
  - cbn. lia.
  - lia.
  - vm_compute. reflexivity.
Defined.

(** ** Spike size and recording length *)

Ltac read_spike_int Hattr :=
  erewrite bind_ok;
  [| apply int_attr_facade;
     [apply Hattr; cbn [spike_attributes In]; tauto | lookup]].

Ltac read_spike_attr Hattr :=
  erewrite bind_ok;
  [| apply attr_facade;
     [apply Hattr; cbn [spike_attributes In]; tauto | lookup]].

(** X18.  The spike-size block on [int] sampling rate, file size and channel
    count below [2^53]: it stores [spikeSize], the half window computed in
    doubles, [BUFF = 4 * spikeSize], [templatesMaxShift = srate div 1000],
    the constants [scaleToSave = 100] and [stdFactor = 4], and
    [size = file_size div (dsize * nChan)]: the conversions through doubles
    lose nothing, and bytes of an incomplete last sample are not counted. *)
Theorem spike_size_parameters_values
    (h : host) (p : value) (d : dict) (ms : num) (root filename t : string)
    (srate spikeSize file_size dsize nChan : Z) :
  no_dict_attr h spike_attributes = true ->
  dict_get d "spikeSizeMS" = Some (of_num ms) ->
  dict_get d "srate" = Some (VInt srate) ->
  half_window ms (NInt srate) = inr spikeSize ->
  dict_get d "root" = Some (VStr root) ->
  dict_get d "filename" = Some (VStr filename) ->
  path_getsize h (path_join h root filename) = inr file_size ->
  dict_get d "dtype" = Some (VStr t) -> SIZE_get SIZE_ t = Some dsize ->
  dict_get d "nChan" = Some (VInt nChan) ->
  0 <= srate < 2 ^ 53 -> 0 <= file_size < 2 ^ 53 ->
  0 < dsize * nChan < 2 ^ 53 ->
  exists store,
    Config.spike_size_parameters h (facade p d) = (inr tt, facade p store) /\
    dict_get store "spikeSize" = Some (VInt spikeSize) /\
    dict_get store "scaleToSave" = Some (VInt 100) /\
    dict_get store "BUFF" = Some (VInt (spikeSize * 4)) /\
    dict_get store "templatesMaxShift" = Some (VInt (srate / 1000)) /\
    dict_get store "stdFactor" = Some (VInt 4) /\
    dict_get store "size" = Some (VInt (file_size / (dsize * nChan))).
Proof.
  intros Hno Hms Hsrate Hhalf Hroot Hfile Hgetsize Hdtype Hsize HnChan
    Hsr Hfs Hdn.
  pose proof (no_dict_attr_In h spike_attributes) as Hattr.
  specialize (fun name => Hattr name Hno).
  unfold half_window in Hhalf.
  destruct (py_mul ms (NInt srate)) as [e|x1] eqn:Hmul; [discriminate|].
  destruct (py_truediv x1 (NInt (2 * 1000))) as [e|x2] eqn:Hdiv;
    [discriminate|].
  destruct (np_round x2) as [e|x3] eqn:Hround; [discriminate|].
  destruct (floor_truediv_int srate 1000 Hsr ltac:(lia))
    as (f1 & _ & Hdiv1 & Hint1 & _).
  destruct (floor_truediv_int file_size (dsize * nChan) Hfs Hdn)
    as (f2 & _ & Hdiv2 & Hint2 & _).
  eexists. split.
  - unfold Config.spike_size_parameters.
    read_spike_attr Hattr. read_spike_attr Hattr.
    rewrite bind_lift.
    pose proof (binary_of_num h py_mul ms (NInt srate)) as Hbin.
    cbn [of_num] in Hbin. rewrite Hbin, Hmul.
    rewrite bind_lift, Hdiv.
    rewrite bind_lift, Hround.
    rewrite bind_lift, Hhalf.
    write_num. write_num.
    read_spike_int Hattr.
    rewrite bind_lift. cbn [py_mul].
    write_num.
    read_spike_int Hattr.
    rewrite bind_lift, Hdiv1.
    rewrite bind_lift, Hint1.
    write_num. write_num.
    read_spike_attr Hattr. read_spike_attr Hattr.
    cbn [FrozenJSON.__new__].
    rewrite bind_lift. cbn [as_path].
    rewrite bind_lift. cbn [as_path].
    rewrite bind_lift, Hgetsize.
    read_spike_attr Hattr. cbn [FrozenJSON.__new__].
    rewrite bind_lift. cbn [sizeof]. rewrite Hsize.
    read_spike_int Hattr.
    rewrite bind_lift. cbn [py_mul].
    rewrite bind_lift, Hdiv2.
    rewrite bind_lift, Hint2.
    rewrite set_num_facade. reflexivity.
  - repeat split; lookup.
Qed.

Lemma spike_size_parameters_values_witness :
  exists store,
    Config.spike_size_parameters (Example.with_file 24001)
      (facade VNone (Example.params 10000 (VInt 1)))
    = (inr tt, facade VNone store) /\
    dict_get store "spikeSize" = Some (VInt 15) /\
    dict_get store "scaleToSave" = Some (VInt 100) /\
    dict_get store "BUFF" = Some (VInt 60) /\
    dict_get store "templatesMaxShift" = Some (VInt 30) /\
    dict_get store "stdFactor" = Some (VInt 4) /\
    dict_get store "size" = Some (VInt 1200).
Proof.
  apply (spike_size_parameters_values (Example.with_file 24001) VNone
           (Example.params 10000 (VInt 1)) (NInt 1) "data" "rec.bin" "int16"
           30000 15 24001 2 10).
  - reflexivity.
  - reflexivity.
  - reflexivity.
  - vm_compute. reflexivity.
  - reflexivity.
  - reflexivity.
  - reflexivity.
  - reflexivity.
  - reflexivity.
  - reflexivity.
  - cbn. lia.
  - cbn. lia.
  - cbn. lia.
Defined.

(** ** Geometry *)

Ltac read_geometry_attr Hattr :=
  erewrite bind_ok;
  [| apply attr_facade;
     [apply Hattr; cbn [geometry_attributes In]; tauto | lookup]].

(** X19.  The geometry block hands each result on through the store: the
    neighbour search receives what attribute access returns for the stored
    [geom], and the grouping what it returns for the stored [neighChannels]
    and [geom], so a result that is a mapping or a list arrives wrapped.  The
    three results are stored under [geom], [neighChannels] and
    [channelGroups], replacing entries of the input with these names. *)
Theorem geometry_parameters_values
    (h : host) (p : value) (d : dict) (root geomFile : string)
    (nChan spatialRadius geom neighChannels channelGroups : value) :
  no_dict_attr h geometry_attributes = true ->
  dict_get d "root" = Some (VStr root) ->
  dict_get d "geomFile" = Some (VStr geomFile) ->
  dict_get d "nChan" = Some nChan ->
  dict_get d "spatialRadius" = Some spatialRadius ->
  geom_parse h (path_join h root geomFile)
    (Wrapped (FrozenJSON.__new__ h nChan)) = inr geom ->
  geom_find_channel_neighbors h
    (Wrapped (FrozenJSON.__new__ h geom))
    (Wrapped (FrozenJSON.__new__ h spatialRadius)) = inr neighChannels ->
  geom_make_channel_groups h
    (Wrapped (FrozenJSON.__new__ h nChan))
    (Wrapped (FrozenJSON.__new__ h neighChannels))
    (Wrapped (FrozenJSON.__new__ h geom)) = inr channelGroups ->
  exists store,
    Config.geometry_parameters h (facade p d) = (inr tt, facade p store) /\
    dict_get store "geom" = Some geom /\
    dict_get store "neighChannels" = Some neighChannels /\
    dict_get store "channelGroups" = Some channelGroups /\
    forall k, ~ In k ["geom"; "neighChannels"; "channelGroups"] ->
              dict_get store k = dict_get d k.
Proof.
  intros Hno Hroot Hfile HnChan Hradius Hparse Hneigh Hgroups.
  pose proof (no_dict_attr_In h geometry_attributes) as Hattr.
  specialize (fun name => Hattr name Hno).
  exists (dict_set (dict_set (dict_set d "geom" geom)
            "neighChannels" neighChannels) "channelGroups" channelGroups).
  split; [|split; [|split; [|split]]].
  - unfold Config.geometry_parameters.
    read_geometry_attr Hattr. read_geometry_attr Hattr.
    cbn [FrozenJSON.__new__].
    rewrite bind_lift. cbn [as_path].
    rewrite bind_lift. cbn [as_path].
    read_geometry_attr Hattr.
    rewrite bind_lift, Hparse.
    rewrite (bind_ok _ _ _ _ _ (set_param_facade _ _ _ _)).
    read_geometry_attr Hattr. read_geometry_attr Hattr.
    rewrite bind_lift, Hneigh.
    rewrite (bind_ok _ _ _ _ _ (set_param_facade _ _ _ _)).
    read_geometry_attr Hattr. read_geometry_attr Hattr.
    read_geometry_attr Hattr.
    rewrite bind_lift, Hgroups.
    apply set_param_facade.
  - lookup.
  - lookup.
  - lookup.
  - intros k Hk. cbn [In] in Hk. rewrite !dict_get_set.
    destruct (String.eqb_spec "channelGroups" k); [tauto|].
    destruct (String.eqb_spec "neighChannels" k); [tauto|].
    destruct (String.eqb_spec "geom" k); [tauto|].
    reflexivity.
Qed.

Lemma geometry_parameters_values_witness :
  exists store,
    Config.geometry_parameters (Example.with_file 24000)
      (facade VNone (Example.params 10000 (VInt 1)))
    = (inr tt, facade VNone store) /\
    dict_get store "channelGroups" = Some (Example.array "channelGroups").
Proof.
  destruct (geometry_parameters_values (Example.with_file 24000) VNone
              (Example.params 10000 (VInt 1)) "data" "geom.txt"
              (VInt 10) (VInt 70) (Example.array "geom")
              (Example.array "neighChannels")
              (Example.array "channelGroups")
              eq_refl eq_refl eq_refl eq_refl eq_refl eq_refl eq_refl
              eq_refl)
    as (store & Hrun & _ & _ & Hgroups & _).
  exists store. split; assumption.
Defined.

(** ** Listing and printing *)

(** X20.  [dir] of a facade lists the stored names, and these are the names
    attribute access resolves to a stored value: a name that is neither
    found on the object by normal lookup nor an attribute of a dict is listed
    exactly when attribute access returns a wrapped value for it. *)
Theorem dir_lists_resolvable_names
    (h : host) (o : object_model) (k : klass) (p : value) (d : dict)
    (name : string) :
  normal_lookup o k name (facade p d) = None ->
  dict_hasattr h name = false ->
  exists names,
    FrozenJSON.__dir__ (facade p d) = (inr names, facade p d) /\
    (In name names <->
     exists w,
       FrozenJSON.getattr h o k name (facade p d)
       = (inr (FromHook (Wrapped w)), facade p d)).
Proof.
  intros Hnormal Hattr. exists (dict_keys d). split; [reflexivity|].
  rewrite (getattr_hook_facade h o k name p d Hnormal), Hattr.
  destruct (dict_get d name) as [v|] eqn:Hget.
  - split; [eauto|]. intros _.
    destruct (in_dec string_dec name (dict_keys d)) as [Hin|Hnot];
      [exact Hin|].
    apply dict_get_None in Hnot. congruence.
  - split.
    + intros Hin. apply dict_get_None in Hget. contradiction.
    + intros (w & Hw). discriminate Hw.
Qed.

Lemma dir_lists_resolvable_names_witness :
  exists names,
    FrozenJSON.__dir__ Example.loaded = (inr names, Example.loaded) /\
    (In "nChan" names <->
     exists w,
       FrozenJSON.getattr Example.host0 Example.object_model0 KFrozenJSON
         "nChan" Example.loaded
       = (inr (FromHook (Wrapped w)), Example.loaded)).
Proof.
  apply (dir_lists_resolvable_names Example.host0 Example.object_model0
           KFrozenJSON (VStr "config.yaml")
           [("nChan", VInt 10); ("filename", VNone)] "nChan");
    reflexivity.
Defined.

(** X21.  What an object prints tells where it came from: one loaded from a
    file with a non-empty path prints the path, one built from a mapping
    prints its store, with the names as stored. *)
Theorem repr_names_the_source
    (h : host) (path_to_file : string) (mapping : dict) :
  yaml_load h path_to_file = inr (VDict mapping) ->
  path_to_file <> "" ->
  (exists self,
     FrozenJSON.from_yaml h (fun arg => inr (FrozenJSON.__new__ h arg))
       object_setattr path_to_file = inr (WFacade self) /\
     FrozenJSON.__repr__ self
     = (inr (FrozenJSON.loaded_from_template, VStr path_to_file), self)) /\
  (exists self,
     FrozenJSON.__new__ h (VDict mapping) = WFacade self /\
     FrozenJSON.__repr__ self
     = (inr (FrozenJSON.loaded_with_template, VDict (stored h mapping)),
        self)).
Proof.
  intros Hload Hpath. split.
  - eexists. split; [apply from_yaml_mapping, Hload|].
    unfold FrozenJSON.__repr__.
    rewrite (bind_ok _ _ _ _ _ (self_path_facade _ _)).
    cbn [truthy].
    destruct (String.eqb_spec path_to_file "") as [E|_]; [contradiction|].
    reflexivity.
  - eexists. split; [apply new_mapping|]. reflexivity.
Qed.

Lemma repr_names_the_source_witness :
  exists self,
    FrozenJSON.from_yaml
      (Example.with_yaml (VDict Example.keyword_mapping))
      (fun arg =>
         inr (FrozenJSON.__new__
                (Example.with_yaml (VDict Example.keyword_mapping)) arg))
      object_setattr "config.yaml" = inr (WFacade self) /\
    FrozenJSON.__repr__ self
    = (inr (FrozenJSON.loaded_from_template, VStr "config.yaml"), self).
Proof.
  apply (repr_names_the_source
           (Example.with_yaml (VDict Example.keyword_mapping))
           "config.yaml" Example.keyword_mapping eq_refl).
  discriminate.
Defined.

(** ** Input entries under derived names *)

Lemma blind_attr (h : host) (hidden : list string) (name : string) :
  dict_hasattr h name = false -> ~ In name hidden ->
  blind_to hidden hidden (Config.attr h name).
Proof.
  intros Ha Hnot p d1 d2 Hagree. unfold Config.attr.
  rewrite !getattr_facade, Ha, (Hagree name Hnot). cbn [fst snd].
  split; [reflexivity|]. intros a _. exists d1, d2. auto.
Qed.

Lemma blind_lift {A} (hidden : list string) (r : result A) :
  blind_to hidden hidden (lift r).
Proof.
  intros p d1 d2 Hagree. unfold lift. cbn [fst snd].
  split; [reflexivity|]. intros a _. exists d1, d2. auto.
Qed.

Lemma blind_set_param (hidden : list string) (name : string) (v : value) :
  blind_to hidden (without name hidden) (Config._set_param name v).
Proof.
  intros p d1 d2 Hagree. rewrite !set_param_facade. cbn [fst snd].
  split; [reflexivity|]. intros a _.
  exists (dict_set d1 name v), (dict_set d2 name v).
  split; [reflexivity|]. split; [reflexivity|].
  intros k Hk. rewrite !dict_get_set.
  destruct (String.eqb_spec name k) as [->|Hne]; [reflexivity|].
  apply Hagree. intros Hin. apply Hk. unfold without.
  apply filter_In. split; [exact Hin|].
  destruct (String.eqb_spec k name); [congruence | reflexivity].
Qed.

Lemma blind_bind {A B} (hidden hidden1 hidden2 : list string) (c : M A)
    (k : A -> M B) :
  blind_to hidden hidden1 c ->
  (forall a, blind_to hidden1 hidden2 (k a)) ->
  blind_to hidden hidden2 (bind c k).
Proof.
  intros Hc Hk p d1 d2 Hagree.
  destruct (Hc p d1 d2 Hagree) as [Hfst Hsnd]. unfold bind.
  destruct (c (facade p d1)) as [[e|a] s1];
    destruct (c (facade p d2)) as [[e'|a'] s2]; cbn [fst snd] in *;
    try discriminate Hfst.
  - injection Hfst as <-.
    split; [reflexivity | intros b Hb; discriminate Hb].
  - injection Hfst as <-.
    destruct (Hsnd a eq_refl) as (d1' & d2' & -> & -> & Hagree').
    apply (Hk a p d1' d2' Hagree').
Qed.

Lemma blind_num_attr (h : host) (hidden : list string) (name : string) :
  dict_hasattr h name = false -> ~ In name hidden ->
  blind_to hidden hidden (Config.num_attr h name).
Proof.
  intros Ha Hnot. unfold Config.num_attr.
  apply (blind_bind hidden hidden hidden).
  - apply blind_attr; assumption.
  - intros a. apply blind_lift.
Qed.

Ltac not_hidden :=
  let H := fresh in
  intros H; vm_compute in H;
  repeat (destruct H as [H|H]; [discriminate H|]); exact H.

Ltac readable Hattr :=
  apply Hattr; vm_compute; tauto.

Ltac blind_step Hattr :=
  lazymatch goal with
  | |- blind_to _ _ (bind (Config.attr _ _) _) =>
      eapply blind_bind;
      [apply blind_attr; [readable Hattr | not_hidden] | intros ?]
  | |- blind_to _ _ (bind (Config.num_attr _ _) _) =>
      eapply blind_bind;
      [apply blind_num_attr; [readable Hattr | not_hidden] | intros ?]
  | |- blind_to _ _ (bind (lift _) _) =>
      eapply blind_bind; [apply blind_lift | intros ?]
  | |- blind_to _ _ (bind (Config._set_param _ _) _) =>
      eapply blind_bind; [apply blind_set_param | intros ?]
  | |- blind_to _ _ (bind (Config.set_num _ _) _) =>
      unfold Config.set_num at 1;
      eapply blind_bind; [apply blind_set_param | intros ?]
  | |- blind_to _ _ (Config._set_param _ _) => apply blind_set_param
  | |- blind_to _ _ (Config.set_num _ _) =>
      unfold Config.set_num; apply blind_set_param
  | |- blind_to _ _ (if ?c then _ else _) => destruct c
  end.

Lemma derivation_blind (h : host) :
  no_dict_attr h read_names = true ->
  blind_to derived_names []
    (Config.geometry_parameters h ;;
     Config.spike_size_parameters h ;;
     Config.batch_parameters h).
Proof.
  intros Hno.
  pose proof (fun name => no_dict_attr_In h read_names name Hno) as Hattr.
  eapply blind_bind; [|intros _; eapply blind_bind; [|intros _]].
  - unfold Config.geometry_parameters. repeat blind_step Hattr.
  - unfold Config.spike_size_parameters. repeat blind_step Hattr.
  - unfold Config.batch_parameters. repeat blind_step Hattr.
Qed.

Lemma stored_agree (h : host) (m1 m2 : dict) :
  (forall k, ~ In k derived_names ->
             last_stored h m1 k = last_stored h m2 k) ->
  agree_outside derived_names (stored h m1) (stored h m2).
Proof.
  intros H k Hk. unfold stored. rewrite !stored_from_get, (H k Hk).
  reflexivity.
Qed.

Lemma new_after_validation (h : host) (mapping : dict) :
  Config.validate_items h mapping = inr tt ->
  Config.new h mapping
  = match (Config.geometry_parameters h ;;
           Config.spike_size_parameters h ;;
           Config.batch_parameters h) (facade VNone (stored h mapping)) with
    | (inr _, self) => inr self
    | (inl e, _) => inl e
    end.
Proof.
  intros Hv. unfold Config.new, Config.__init__.
  unfold bind at 1. unfold Config._validate, lift. rewrite Hv.
  rewrite (bind_ok _ _ _ _ _ (Config_init_facade h mapping)).
  rewrite (bind_ok _ _ _ _ _ (set_logger_facade VNone _)).
  reflexivity.
Qed.

(** X22.  What the input binds the derived names to is never seen: two
    inputs that pass validation and are stored alike under every other name
    give the same outcome, the same exception or two objects whose stores
    bind every name alike, the derived names included. *)
Theorem derived_input_entries_are_ignored (h : host) (m1 m2 : dict) :
  no_dict_attr h read_names = true ->
  (forall k, ~ In k derived_names ->
             last_stored h m1 k = last_stored h m2 k) ->
  Config.validate_items h m1 = inr tt ->
  Config.validate_items h m2 = inr tt ->
  match Config.new h m1, Config.new h m2 with
  | inr self1, inr self2 =>
      exists d1 d2,
        self1 = facade VNone d1 /\ self2 = facade VNone d2 /\
        forall k, dict_get d1 k = dict_get d2 k
  | inl e1, inl e2 => e1 = e2
  | _, _ => False
  end.
Proof.
  intros Hno Hsame Hv1 Hv2.
  rewrite (new_after_validation h m1 Hv1), (new_after_validation h m2 Hv2).
  destruct (derivation_blind h Hno VNone (stored h m1) (stored h m2)
              (stored_agree h m1 m2 Hsame)) as [Hfst Hsnd].
  destruct ((Config.geometry_parameters h ;;
             Config.spike_size_parameters h ;;
             Config.batch_parameters h) (facade VNone (stored h m1)))
    as [[e1|[]] s1];
    destruct ((Config.geometry_parameters h ;;
               Config.spike_size_parameters h ;;
               Config.batch_parameters h) (facade VNone (stored h m2)))
    as [[e2|[]] s2]; cbn [fst snd] in *; try discriminate Hfst.
  - injection Hfst as <-. reflexivity.
  - destruct (Hsnd tt eq_refl) as (d1 & d2 & -> & -> & Hagree).
    exists d1, d2. split; [reflexivity|]. split; [reflexivity|].
    intros k. apply Hagree. intros [].
Qed.

Lemma derived_input_entries_are_ignored_witness :
  match Config.new (Example.with_file 24000) Example.overriding,
        Config.new (Example.with_file 24000)
          (Example.params 10000 (VFloat Example.half)) with
  | inr self1, inr self2 =>
      exists d1 d2,
        self1 = facade VNone d1 /\ self2 = facade VNone d2 /\
        forall k, dict_get d1 k = dict_get d2 k
  | inl e1, inl e2 => e1 = e2
  | _, _ => False
  end.
Proof.
  apply (derived_input_entries_are_ignored (Example.with_file 24000)
           Example.overriding (Example.params 10000 (VFloat Example.half))).
  - reflexivity.
  - intros k Hk. unfold Example.overriding, last_stored.
    rewrite rev_app_distr. cbn [rev app find fst].
    change (FrozenJSON.stored_name (Example.with_file 24000) "scaleToSave")
      with "scaleToSave".
    destruct (String.eqb_spec "scaleToSave" k) as [<-|_]; [|reflexivity].
    exfalso. apply Hk. unfold derived_names. cbn [In]. tauto.
  - reflexivity.
  - reflexivity.
Defined.
